(** * Guard-mode zone allocator (xnu osfmk/kern/gzalloc.c) and
      SOSRingIsSame (Security keychain/SecureObjectSync/SOSRingUtils.c)

    A shallow embedding of the two C files and the properties of their
    natural-language specification.  The kernel is LP64: [vm_offset_t],
    [vm_size_t] and pointers are 64-bit unsigned, [uint32_t] counters
    wrap at 2^32.  Memory is byte addressed and little endian. *)

From stdpp Require Import base numbers option list gmap strings.
From Stdlib Require Import ZArith Lia.

Local Open Scope Z_scope.

Module Gzalloc.

(** ** Machine arithmetic *)

Definition wrap32 (x : Z) : Z := x mod 2 ^ 32.
Definition wrap64 (x : Z) : Z := x mod 2 ^ 64.

(** The cast [(SInt32) x] of a 64-bit quantity. *)
Definition SInt32 (x : Z) : Z := (x + 2 ^ 31) mod 2 ^ 32 - 2 ^ 31.

(** [OSAddAtomic64(amount, &counter)] on a [uint64_t] counter. *)
Definition OSAddAtomic64 (amount counter : Z) : Z := wrap64 (counter + amount).

(** ** Constants of gzalloc.c *)

Definition GZALLOC_MIN_DEFAULT : Z := 1024.
Definition GZDEADZONE : Z := 0xDEAD201E.
Definition GZALLOC_SIGNATURE : Z := 0xABADCAFE.
Definition GZALLOC_RESERVE_SIZE_DEFAULT : Z := 2 * 1024 * 1024.
Definition GZFC_DEFAULT_SIZE : Z := 1536.
Definition gzalloc_fill_pattern : Z := 0x67.

(** [sizeof(gzhdr_t)]: a [zone_t] pointer and two [uint32_t]. *)
Definition sizeof_pointer : Z := 8.
Definition GZHEADER_SIZE : Z := sizeof_pointer + 4 + 4.

(** [Z_NOWAIT] of kern/zalloc.h. *)
Definition Z_NOWAIT : Z := 1.

Inductive vm_prot_t := VM_PROT_NONE | VM_PROT_READ | VM_PROT_DEFAULT.
Inductive kma_guard := KMA_GUARD_FIRST | KMA_GUARD_LAST.

Global Instance vm_prot_eq_dec : EqDecision vm_prot_t.
Proof. solve_decision. Defined.
Global Instance kma_guard_eq_dec : EqDecision kma_guard.
Proof. solve_decision. Defined.

(** ** Tunables

    The globals that [gzalloc_configure] sets from the boot arguments and
    that stay frozen afterwards, together with the page size of the
    machine ([PAGE_SHIFT] of mach/vm_param.h). *)

Record gzalloc_tunables := {
  PAGE_SHIFT : N;
  gzalloc_mode : bool;
  gzalloc_min : Z;
  gzalloc_max : Z;
  gzalloc_uf_mode : bool;
  gzalloc_consistency_checks : bool;
  gzalloc_dfree_check : bool;
  gzalloc_prot : vm_prot_t;
  gzfc_size : Z;
  gznamedzone : string;
}.

(** [gzalloc_configure] sets [gzalloc_guard = KMA_GUARD_FIRST] together
    with [gzalloc_uf_mode]; its initial value is [KMA_GUARD_LAST]. *)
Definition gzalloc_guard (cfg : gzalloc_tunables) : kma_guard :=
  if gzalloc_uf_mode cfg then KMA_GUARD_FIRST else KMA_GUARD_LAST.

Definition PAGE_SIZE (cfg : gzalloc_tunables) : Z := 2 ^ Z.of_N (PAGE_SHIFT cfg).
Definition PAGE_MASK (cfg : gzalloc_tunables) : Z := PAGE_SIZE cfg - 1.

(** [round_page(x)]: [((vm_offset_t)(x) + PAGE_MASK) & ~((vm_offset_t)PAGE_MASK)]. *)
Definition round_page (cfg : gzalloc_tunables) (x : Z) : Z :=
  Z.land (wrap64 (x + PAGE_MASK cfg)) (Z.lnot (PAGE_MASK cfg)).

(** [trunc_page_64(x)]: [((uint64_t)(x)) & ~((uint64_t)PAGE_MASK)]. *)
Definition trunc_page_64 (cfg : gzalloc_tunables) (x : Z) : Z :=
  Z.land (wrap64 x) (Z.lnot (PAGE_MASK cfg)).

(** The two sizes every entry point computes first:
    [rounded_size = round_page(zone_elem_size(zone) + GZHEADER_SIZE)] and
    [residue = rounded_size - zone_elem_size(zone)]. *)
Definition rounded_size (cfg : gzalloc_tunables) (esize : Z) : Z :=
  round_page cfg (wrap64 (esize + GZHEADER_SIZE)).

Definition residue (cfg : gzalloc_tunables) (esize : Z) : Z :=
  wrap64 (rounded_size cfg esize - esize).

(** ** Outcomes

    Every [panic] of the source is a constructor carrying the values the
    message prints; [PanicAssert] is a failed [assert]/[assertf].  [Fault]
    is an access to unmapped or protected memory, or through a pointer
    that designates no object. *)

Inductive panic_t :=
  | PanicReserveExhausted
  | PanicInvalidAddress (addr saddr esize : Z)
  | PanicDoubleFree (saddr gzfc_index gd : Z)
  | PanicSignatureMismatch (addr found : Z)
  | PanicMismatchedZone (zone recorded addr : Z)
  | PanicMismatchedSize (zone recorded esize addr : Z)
  | PanicOverUnderflow (gzc addr contents : Z)
  | PanicVmMapProtect (saddr kr : Z)
  | PanicNoMapEntry (a : Z)
  | PanicSignatureMissing (addr : Z)
  | PanicZoneMismatch (gzone : Z)
  | PanicAssert.

Inductive outcome (A : Type) :=
  | Done (a : A)
  | Panic (p : panic_t)
  | Fault (addr : Z).
Global Arguments Done {A} a.
Global Arguments Panic {A} p.
Global Arguments Fault {A} addr.

Global Instance outcome_ret : MRet outcome := λ A a, Done a.
Global Instance outcome_bind : MBind outcome := λ A B f m,
  match m with
  | Done a => f a
  | Panic p => Panic p
  | Fault a => Fault a
  end.

(** ** Memory *)

Definition mem := Z -> Z.

(** A store of [n] bytes of [v] at [a], least significant byte first. *)
Fixpoint mem_store (n : nat) (a v : Z) (m : mem) : mem :=
  match n with
  | O => m
  | S n' => mem_store n' (a + 1) (v / 256)
              (λ x, if x =? a then v mod 256 else m x)
  end.

Fixpoint mem_load (n : nat) (a : Z) (m : mem) : Z :=
  match n with
  | O => 0
  | S n' => m a mod 256 + 256 * mem_load n' (a + 1) m
  end.

Definition bzero (m : mem) (a n : Z) : mem :=
  λ x, if (a <=? x) && negb (a + n <=? x) then 0 else m x.

(** [gzhdr_t] and its layout: [gzone] at offset 0, [gzsize] at offset 8,
    [gzsig] at offset 12. *)
Record gzhdr_t := { gzone : Z; gzsize : Z; gzsig : Z }.

Definition gzhdr_load (m : mem) (gzh : Z) : gzhdr_t :=
  {| gzone := mem_load 8 gzh m;
     gzsize := mem_load 4 (gzh + 8) m;
     gzsig := mem_load 4 (gzh + 12) m |}.

Definition gzhdr_store (m : mem) (gzh : Z) (h : gzhdr_t) : mem :=
  mem_store 4 (gzh + 12) (gzsig h)
    (mem_store 4 (gzh + 8) (gzsize h)
       (mem_store 8 gzh (gzone h) m)).

(** ** Zones *)

(** [gzalloc_data_t]: the free VA cache and its insertion index.  The
    array [gzfc] is kept as the list of its slots; the empty list is the
    [NULL] pointer left by [bzero(&z->gz)]. *)
Record gzalloc_data_t := { gzfc_index : Z; gzfc : list Z }.

(** [struct zone] of zalloc_internal.h, the fields gzalloc.c uses; a
    [zone_t] is a pointer to it. *)
Record struct_zone := {
  z_name : string;
  z_elem_size : Z;
  z_gzalloc_tracked : bool;
  z_elems_free : Z;
  z_wired_cur : Z;
  z_va_cur : Z;
  gz : gzalloc_data_t;
}.

Definition zone_elem_size (z : struct_zone) : Z := z_elem_size z.

(** The current CPU's slot of a [zone_stats_t]. *)
Record zone_stats := { zs_mem_allocated : Z; zs_mem_freed : Z }.

Definition set_z_gzalloc_tracked (z : struct_zone) (b : bool) : struct_zone :=
  {| z_name := z_name z; z_elem_size := z_elem_size z;
     z_gzalloc_tracked := b; z_elems_free := z_elems_free z;
     z_wired_cur := z_wired_cur z; z_va_cur := z_va_cur z; gz := gz z |}.

Definition set_z_elems_free (z : struct_zone) (v : Z) : struct_zone :=
  {| z_name := z_name z; z_elem_size := z_elem_size z;
     z_gzalloc_tracked := z_gzalloc_tracked z; z_elems_free := v;
     z_wired_cur := z_wired_cur z; z_va_cur := z_va_cur z; gz := gz z |}.

Definition set_z_wired_cur (z : struct_zone) (v : Z) : struct_zone :=
  {| z_name := z_name z; z_elem_size := z_elem_size z;
     z_gzalloc_tracked := z_gzalloc_tracked z; z_elems_free := z_elems_free z;
     z_wired_cur := v; z_va_cur := z_va_cur z; gz := gz z |}.

Definition set_z_va_cur (z : struct_zone) (v : Z) : struct_zone :=
  {| z_name := z_name z; z_elem_size := z_elem_size z;
     z_gzalloc_tracked := z_gzalloc_tracked z; z_elems_free := z_elems_free z;
     z_wired_cur := z_wired_cur z; z_va_cur := v; gz := gz z |}.

Definition set_gz (z : struct_zone) (g : gzalloc_data_t) : struct_zone :=
  {| z_name := z_name z; z_elem_size := z_elem_size z;
     z_gzalloc_tracked := z_gzalloc_tracked z; z_elems_free := z_elems_free z;
     z_wired_cur := z_wired_cur z; z_va_cur := z_va_cur z; gz := g |}.

(** ** The VM map of the arena *)

(** An entry of [gzalloc_map].  [vme_guard] records at which end
    [kernel_memory_allocate] placed the guard page of the range. *)
Record vm_map_entry := {
  vme_start : Z;
  vme_end : Z;
  vme_atomic : bool;
  vme_protection : vm_prot_t;
  vme_guard : kma_guard;
}.

Record kmem_range := { min_address : Z; max_address : Z }.

(** The calls made on [gzalloc_map], in the order they are made. *)
Inductive vm_call :=
  | KernelMemoryAllocate (addr size : Z)
  | VmMapProtect (start end_ : Z) (prot : vm_prot_t)
  | KmemFree (addr size : Z).

Definition KERN_SUCCESS : Z := 0.
Definition KERN_INVALID_ADDRESS : Z := 1.

(** ** Allocator state: the mutable globals of gzalloc.c, the zones, the
    arena map and memory. *)

Record gzstate := {
  startup_phase_kmem : bool;   (* startup_phase >= STARTUP_SUB_KMEM *)
  vm_page_zone : Z;
  gztrackzone : Z;
  gzalloc_reserve : Z;
  gzalloc_reserve_size : Z;
  gzalloc_allocated : Z;
  gzalloc_freed : Z;
  gzalloc_early_alloc : Z;
  gzalloc_early_free : Z;
  gzalloc_wasted : Z;
  pdzalloc_count : Z;
  pdzfree_count : Z;
  gzalloc_range : kmem_range;
  gzalloc_map : list vm_map_entry;
  gzalloc_map_calls : list vm_call;
  kmem : mem;
  zones : gmap Z struct_zone;
  zstats : gmap Z zone_stats;
}.


Definition set_gztrackzone (st : gzstate) (v : Z) : gzstate :=
  Build_gzstate (startup_phase_kmem st) (vm_page_zone st) v
    (gzalloc_reserve st) (gzalloc_reserve_size st) (gzalloc_allocated st)
    (gzalloc_freed st) (gzalloc_early_alloc st) (gzalloc_early_free st)
    (gzalloc_wasted st) (pdzalloc_count st) (pdzfree_count st)
    (gzalloc_range st) (gzalloc_map st) (gzalloc_map_calls st) (kmem st)
    (zones st) (zstats st).

Definition set_gzalloc_reserve (st : gzstate) (v : Z) : gzstate :=
  Build_gzstate (startup_phase_kmem st) (vm_page_zone st) (gztrackzone st) v
    (gzalloc_reserve_size st) (gzalloc_allocated st) (gzalloc_freed st)
    (gzalloc_early_alloc st) (gzalloc_early_free st) (gzalloc_wasted st)
    (pdzalloc_count st) (pdzfree_count st) (gzalloc_range st)
    (gzalloc_map st) (gzalloc_map_calls st) (kmem st) (zones st) (zstats st).

Definition set_gzalloc_reserve_size (st : gzstate) (v : Z) : gzstate :=
  Build_gzstate (startup_phase_kmem st) (vm_page_zone st) (gztrackzone st)
    (gzalloc_reserve st) v (gzalloc_allocated st) (gzalloc_freed st)
    (gzalloc_early_alloc st) (gzalloc_early_free st) (gzalloc_wasted st)
    (pdzalloc_count st) (pdzfree_count st) (gzalloc_range st)
    (gzalloc_map st) (gzalloc_map_calls st) (kmem st) (zones st) (zstats st).

Definition set_gzalloc_allocated (st : gzstate) (v : Z) : gzstate :=
  Build_gzstate (startup_phase_kmem st) (vm_page_zone st) (gztrackzone st)
    (gzalloc_reserve st) (gzalloc_reserve_size st) v (gzalloc_freed st)
    (gzalloc_early_alloc st) (gzalloc_early_free st) (gzalloc_wasted st)
    (pdzalloc_count st) (pdzfree_count st) (gzalloc_range st)
    (gzalloc_map st) (gzalloc_map_calls st) (kmem st) (zones st) (zstats st).

Definition set_gzalloc_freed (st : gzstate) (v : Z) : gzstate :=
  Build_gzstate (startup_phase_kmem st) (vm_page_zone st) (gztrackzone st)
    (gzalloc_reserve st) (gzalloc_reserve_size st) (gzalloc_allocated st) v
    (gzalloc_early_alloc st) (gzalloc_early_free st) (gzalloc_wasted st)
    (pdzalloc_count st) (pdzfree_count st) (gzalloc_range st)
    (gzalloc_map st) (gzalloc_map_calls st) (kmem st) (zones st) (zstats st).

Definition set_gzalloc_early_alloc (st : gzstate) (v : Z) : gzstate :=
  Build_gzstate (startup_phase_kmem st) (vm_page_zone st) (gztrackzone st)
    (gzalloc_reserve st) (gzalloc_reserve_size st) (gzalloc_allocated st)
    (gzalloc_freed st) v (gzalloc_early_free st) (gzalloc_wasted st)
    (pdzalloc_count st) (pdzfree_count st) (gzalloc_range st)
    (gzalloc_map st) (gzalloc_map_calls st) (kmem st) (zones st) (zstats st).

Definition set_gzalloc_early_free (st : gzstate) (v : Z) : gzstate :=
  Build_gzstate (startup_phase_kmem st) (vm_page_zone st) (gztrackzone st)
    (gzalloc_reserve st) (gzalloc_reserve_size st) (gzalloc_allocated st)
    (gzalloc_freed st) (gzalloc_early_alloc st) v (gzalloc_wasted st)
    (pdzalloc_count st) (pdzfree_count st) (gzalloc_range st)
    (gzalloc_map st) (gzalloc_map_calls st) (kmem st) (zones st) (zstats st).

Definition set_gzalloc_wasted (st : gzstate) (v : Z) : gzstate :=
  Build_gzstate (startup_phase_kmem st) (vm_page_zone st) (gztrackzone st)
    (gzalloc_reserve st) (gzalloc_reserve_size st) (gzalloc_allocated st)
    (gzalloc_freed st) (gzalloc_early_alloc st) (gzalloc_early_free st) v
    (pdzalloc_count st) (pdzfree_count st) (gzalloc_range st)
    (gzalloc_map st) (gzalloc_map_calls st) (kmem st) (zones st) (zstats st).

Definition set_pdzalloc_count (st : gzstate) (v : Z) : gzstate :=
  Build_gzstate (startup_phase_kmem st) (vm_page_zone st) (gztrackzone st)
    (gzalloc_reserve st) (gzalloc_reserve_size st) (gzalloc_allocated st)
    (gzalloc_freed st) (gzalloc_early_alloc st) (gzalloc_early_free st)
    (gzalloc_wasted st) v (pdzfree_count st) (gzalloc_range st)
    (gzalloc_map st) (gzalloc_map_calls st) (kmem st) (zones st) (zstats st).

Definition set_pdzfree_count (st : gzstate) (v : Z) : gzstate :=
  Build_gzstate (startup_phase_kmem st) (vm_page_zone st) (gztrackzone st)
    (gzalloc_reserve st) (gzalloc_reserve_size st) (gzalloc_allocated st)
    (gzalloc_freed st) (gzalloc_early_alloc st) (gzalloc_early_free st)
    (gzalloc_wasted st) (pdzalloc_count st) v (gzalloc_range st)
    (gzalloc_map st) (gzalloc_map_calls st) (kmem st) (zones st) (zstats st).

Definition set_gzalloc_map (st : gzstate) (v : list vm_map_entry) : gzstate :=
  Build_gzstate (startup_phase_kmem st) (vm_page_zone st) (gztrackzone st)
    (gzalloc_reserve st) (gzalloc_reserve_size st) (gzalloc_allocated st)
    (gzalloc_freed st) (gzalloc_early_alloc st) (gzalloc_early_free st)
    (gzalloc_wasted st) (pdzalloc_count st) (pdzfree_count st)
    (gzalloc_range st) v (gzalloc_map_calls st) (kmem st) (zones st)
    (zstats st).

Definition set_gzalloc_map_calls (st : gzstate) (v : list vm_call) : gzstate :=
  Build_gzstate (startup_phase_kmem st) (vm_page_zone st) (gztrackzone st)
    (gzalloc_reserve st) (gzalloc_reserve_size st) (gzalloc_allocated st)
    (gzalloc_freed st) (gzalloc_early_alloc st) (gzalloc_early_free st)
    (gzalloc_wasted st) (pdzalloc_count st) (pdzfree_count st)
    (gzalloc_range st) (gzalloc_map st) v (kmem st) (zones st) (zstats st).

Definition set_kmem (st : gzstate) (v : mem) : gzstate :=
  Build_gzstate (startup_phase_kmem st) (vm_page_zone st) (gztrackzone st)
    (gzalloc_reserve st) (gzalloc_reserve_size st) (gzalloc_allocated st)
    (gzalloc_freed st) (gzalloc_early_alloc st) (gzalloc_early_free st)
    (gzalloc_wasted st) (pdzalloc_count st) (pdzfree_count st)
    (gzalloc_range st) (gzalloc_map st) (gzalloc_map_calls st) v (zones st)
    (zstats st).

Definition set_zones (st : gzstate) (v : gmap Z struct_zone) : gzstate :=
  Build_gzstate (startup_phase_kmem st) (vm_page_zone st) (gztrackzone st)
    (gzalloc_reserve st) (gzalloc_reserve_size st) (gzalloc_allocated st)
    (gzalloc_freed st) (gzalloc_early_alloc st) (gzalloc_early_free st)
    (gzalloc_wasted st) (pdzalloc_count st) (pdzfree_count st)
    (gzalloc_range st) (gzalloc_map st) (gzalloc_map_calls st) (kmem st) v
    (zstats st).

Definition set_zstats (st : gzstate) (v : gmap Z zone_stats) : gzstate :=
  Build_gzstate (startup_phase_kmem st) (vm_page_zone st) (gztrackzone st)
    (gzalloc_reserve st) (gzalloc_reserve_size st) (gzalloc_allocated st)
    (gzalloc_freed st) (gzalloc_early_alloc st) (gzalloc_early_free st)
    (gzalloc_wasted st) (pdzalloc_count st) (pdzfree_count st)
    (gzalloc_range st) (gzalloc_map st) (gzalloc_map_calls st) (kmem st)
    (zones st) v.

(** ** The VM collaborator

    The VM map is not part of gzalloc.c; the allocator only consumes the
    operations below, always on whole ranges it allocated itself. *)

(** [kmem_range_contains(r, addr)] of vm/vm_kern.h. *)
Definition kmem_range_contains (r : kmem_range) (a : Z) : bool :=
  (min_address r <=? a) && (a <? max_address r).

(** Modelled from the spec: [vm_map_lookup_entry], the VA arena's
    [lookup_entry(addr) -> (entry_start, entry_end)]; the map entry
    covering [a], if there is one. *)
Definition vm_map_lookup_entry (map : list vm_map_entry) (a : Z)
    : option vm_map_entry :=
  List.find (λ e, (vme_start e <=? a) && (a <? vme_end e)) map.

(** Modelled from the spec: [kernel_memory_allocate] on [gzalloc_map],
    the VA arena's [alloc_guarded]; the VM chooses the address
    [addr], maps [size] bytes there as one atomic entry whose first or
    last page is the guard page, and zero-fills the range. *)
Definition kernel_memory_allocate (st : gzstate) (addr size : Z)
    (guard : kma_guard) : gzstate :=
  let e := {| vme_start := addr; vme_end := addr + size; vme_atomic := true;
              vme_protection := VM_PROT_DEFAULT; vme_guard := guard |} in
  let st := set_gzalloc_map st (e :: gzalloc_map st) in
  let st := set_kmem st (bzero (kmem st) addr size) in
  set_gzalloc_map_calls st
    (gzalloc_map_calls st ++ [KernelMemoryAllocate addr size]).

(** Modelled from the spec: [vm_map_protect] on [gzalloc_map], the VA
    arena's [protect(base, end, prot)], which changes the protection of an
    already-mapped range; it fails when no entry spans the range. *)
Definition vm_map_protect (st : gzstate) (start end_ : Z) (prot : vm_prot_t)
    : gzstate * Z :=
  let hit e := (vme_start e =? start) && (vme_end e =? end_) in
  let st' := set_gzalloc_map_calls st
               (gzalloc_map_calls st ++ [VmMapProtect start end_ prot]) in
  if existsb hit (gzalloc_map st) then
    (set_gzalloc_map st'
       ((λ e, if hit e then
                {| vme_start := vme_start e; vme_end := vme_end e;
                   vme_atomic := vme_atomic e; vme_protection := prot;
                   vme_guard := vme_guard e |}
              else e) <$> gzalloc_map st),
     KERN_SUCCESS)
  else (st', KERN_INVALID_ADDRESS).

(** Modelled from the spec: [kmem_free] on [gzalloc_map], the VA arena's
    [free_range(base, bytes)], which unmaps the full range including the
    guard page. *)
Definition kmem_free (st : gzstate) (addr size : Z) : gzstate :=
  let st := set_gzalloc_map st
              (filter (λ e, vme_start e ≠ addr) (gzalloc_map st)) in
  set_gzalloc_map_calls st (gzalloc_map_calls st ++ [KmemFree addr size]).

(** The ranges handed back to the arena, oldest first. *)
Definition released (calls : list vm_call) : list (Z * Z) :=
  omap (λ c, match c with KmemFree a n => Some (a, n) | _ => None end) calls.

(** An address of the arena can be read when an entry maps it, the entry
    is not protected [VM_PROT_NONE] and the address is not on the entry's
    guard page.  Memory outside the arena (the reserve, kernel data) is
    always readable. *)
Definition vme_readable (cfg : gzalloc_tunables) (e : vm_map_entry) (a : Z)
    : bool :=
  negb (bool_decide (vme_protection e = VM_PROT_NONE)) &&
  match vme_guard e with
  | KMA_GUARD_FIRST => vme_start e + PAGE_SIZE cfg <=? a
  | KMA_GUARD_LAST => a <? vme_end e - PAGE_SIZE cfg
  end.

Definition mem_readable (cfg : gzalloc_tunables) (st : gzstate) (a : Z)
    : bool :=
  if kmem_range_contains (gzalloc_range st) a then
    match vm_map_lookup_entry (gzalloc_map st) a with
    | Some e => vme_readable cfg e a
    | None => false
    end
  else true.

(** A read of [n] bytes at [a]. *)
Definition load (cfg : gzalloc_tunables) (st : gzstate) (n : nat) (a : Z)
    : outcome Z :=
  if forallb (λ i, mem_readable cfg st (a + Z.of_nat i)) (seq 0 n)
  then Done (mem_load n a (kmem st))
  else Fault a.

(** Dereferencing a [zone_t] and a [zone_stats_t]. *)
Definition zone_deref (st : gzstate) (zp : Z) : outcome struct_zone :=
  match zones st !! zp with
  | Some z => Done z
  | None => Fault zp
  end.

Definition zstats_deref (st : gzstate) (zs : Z) : outcome zone_stats :=
  match zstats st !! zs with
  | Some s => Done s
  | None => Fault zs
  end.

(** Reading slot [i] of the free cache array. *)
Definition gzfc_slot (ring : list Z) (i : Z) : outcome Z :=
  match ring !! Z.to_nat i with
  | Some v => Done v
  | None => Fault (8 * i)
  end.

(** ** gzalloc_enabled *)

Definition gzalloc_enabled (cfg : gzalloc_tunables) : bool := gzalloc_mode cfg.

(** ** gzalloc_zone_init *)

Section zone_init.

(** [track_this_zone(zonename, logname)] lives in zalloc.c. *)
Variable track_this_zone : string -> string -> bool.

Definition gzalloc_zone_init (cfg : gzalloc_tunables) (st : gzstate) (z : Z)
    : outcome gzstate :=
  if negb (gzalloc_mode cfg) then Done st else
  zr ← zone_deref st z;
  (* bzero(&z->gz, sizeof(z->gz)) *)
  let zr := set_gz zr {| gzfc_index := 0; gzfc := [] |} in
  let st :=
    if track_this_zone (z_name zr) (gznamedzone cfg)
    then set_gztrackzone st z else st in
  let zr := set_z_gzalloc_tracked zr
    ((z =? gztrackzone st) ||
     ((gzalloc_min cfg <=? zone_elem_size zr) &&
      (zone_elem_size zr <=? gzalloc_max cfg))) in
  if negb (gzfc_size cfg =? 0) && z_gzalloc_tracked zr then
    let gzfcsz := round_page cfg (wrap64 (8 * gzfc_size cfg)) in
    let ring := replicate (Z.to_nat (gzfc_size cfg)) 0 in
    if negb (startup_phase_kmem st) then
      if gzalloc_reserve_size st <? gzfcsz then Panic PanicReserveExhausted
      else
        let st := set_gzalloc_reserve st (wrap64 (gzalloc_reserve st + gzfcsz)) in
        let st := set_gzalloc_reserve_size st
                    (wrap64 (gzalloc_reserve_size st - gzfcsz)) in
        let zr := set_gz zr {| gzfc_index := gzfc_index (gz zr); gzfc := ring |} in
        Done (set_zones st (<[z := zr]> (zones st)))
    else
      (* kernel_memory_allocate(kernel_map, &z->gz.gzfc, gzfcsz, ..., KMA_ZERO) *)
      let zr := set_gz zr {| gzfc_index := gzfc_index (gz zr); gzfc := ring |} in
      Done (set_zones st (<[z := zr]> (zones st)))
  else Done (set_zones st (<[z := zr]> (zones st))).

End zone_init.

(** ** gzalloc_empty_free_cache *)

(** One iteration of the loop that frees the cached elements. *)
Definition gzfc_release (cfg : gzalloc_tunables) (esize : Z)
    (acc : gzstate * Z) (free_addr : Z) : gzstate * Z :=
  let rounded_size := rounded_size cfg esize in
  if negb (free_addr =? 0) &&
     kmem_range_contains (gzalloc_range acc.1) free_addr
  then
    let st := kmem_free acc.1 free_addr (wrap64 (rounded_size + PAGE_SIZE cfg)) in
    let st := set_gzalloc_freed st
                (OSAddAtomic64 (SInt32 rounded_size) (gzalloc_freed st)) in
    let st := set_gzalloc_wasted st
                (OSAddAtomic64 (- SInt32 (wrap64 (rounded_size - esize)))
                   (gzalloc_wasted st)) in
    (st, acc.2 + 1)
  else acc.

Definition gzalloc_empty_free_cache (cfg : gzalloc_tunables) (st : gzstate)
    (zone : Z) : outcome gzstate :=
  z ← zone_deref st zone;
  if negb (z_gzalloc_tracked z) then Panic PanicAssert else
  (* memcpy(gzfc_copy, zone->gz.gzfc, gzfcsz); the copy is a buffer of
     kernel_map, outside the arena, and is freed at the end *)
  let gzfc_copy := gzfc (gz z) in
  if (length gzfc_copy <? Z.to_nat (gzfc_size cfg))%nat then Fault 0 else
  (* bzero(zone->gz.gzfc, gzfcsz); zone->gz.gzfc_index = 0 *)
  let z := set_gz z {| gzfc_index := 0;
                       gzfc := replicate (length (gzfc (gz z))) 0 |} in
  let st := set_zones st (<[zone := z]> (zones st)) in
  let '(st, freed_elements) :=
    foldl (gzfc_release cfg (zone_elem_size z)) (st, 0)
      (take (Z.to_nat (gzfc_size cfg)) gzfc_copy) in
  z ← zone_deref st zone;
  let z := set_z_elems_free z (wrap32 (z_elems_free z + freed_elements)) in
  let z := set_z_wired_cur z (wrap32 (z_wired_cur z - freed_elements)) in
  Done (set_zones st (<[zone := z]> (zones st))).

(** ** gzalloc_alloc

    [preemption_level] is what [get_preemption_level()] returns and
    [kma_addr] the address [kernel_memory_allocate] hands out, should the
    call reach it.  The result is the new state and the returned
    [addr]. *)

(** An allocation is early while [!kmem_ready || vm_page_zone ==
    ZONE_NULL]. *)
Definition alloc_early (st : gzstate) : bool :=
  negb (startup_phase_kmem st) || (vm_page_zone st =? 0).

(** Where the VA comes from (lines 345-365): the reserve for early
    allocations, the arena otherwise.  The result is the new state,
    [gzaddr] and [new_va]. *)
Definition gzalloc_alloc_va (cfg : gzalloc_tunables) (st : gzstate)
    (rounded_size kma_addr : Z) : outcome (gzstate * Z * bool) :=
  if alloc_early st then
    (* Early allocations are supplied directly from the reserve. *)
    if gzalloc_reserve_size st <? wrap64 (rounded_size + PAGE_SIZE cfg)
    then Panic PanicReserveExhausted
    else
      let gzaddr := gzalloc_reserve st in
      (* No guard page for these early allocations, just waste an
         additional page. *)
      let st := set_gzalloc_reserve st
        (wrap64 (gzalloc_reserve st + (rounded_size + PAGE_SIZE cfg))) in
      let st := set_gzalloc_reserve_size st
        (wrap64 (gzalloc_reserve_size st - (rounded_size + PAGE_SIZE cfg))) in
      let st := set_gzalloc_early_alloc st
        (OSAddAtomic64 (SInt32 rounded_size) (gzalloc_early_alloc st)) in
      Done (st, gzaddr, false)
  else
    Done (kernel_memory_allocate st kma_addr
            (wrap64 (rounded_size + PAGE_SIZE cfg)) (gzalloc_guard cfg),
          kma_addr, true).

(** The layout of the range (lines 367-378), from the [gzaddr] the VA
    step produced. *)
Definition alloc_gzaddr (cfg : gzalloc_tunables) (gzaddr : Z) : Z :=
  if gzalloc_uf_mode cfg then wrap64 (gzaddr + PAGE_SIZE cfg) else gzaddr.

(** The "header" becomes a "footer" in underflow mode. *)
Definition alloc_gzh (cfg : gzalloc_tunables) (esize gzaddr : Z) : Z :=
  if gzalloc_uf_mode cfg then wrap64 (alloc_gzaddr cfg gzaddr + esize)
  else wrap64 (gzaddr + residue cfg esize - GZHEADER_SIZE).

Definition alloc_addr (cfg : gzalloc_tunables) (esize gzaddr : Z) : Z :=
  if gzalloc_uf_mode cfg then alloc_gzaddr cfg gzaddr
  else wrap64 (gzaddr + residue cfg esize).

Definition alloc_gzhcopy (cfg : gzalloc_tunables) (esize gzaddr : Z)
    : option Z :=
  if gzalloc_uf_mode cfg
  then Some (wrap64 (alloc_gzaddr cfg gzaddr + rounded_size cfg esize
                     - GZHEADER_SIZE))
  else None.

(** What the allocation writes (lines 383-395): the range is zeroed, the
    three header fields are stored, and in underflow mode the header is
    copied to the edge of the range. *)
Definition gzalloc_alloc_write (cfg : gzalloc_tunables) (m : mem)
    (owner esize gzaddr : Z) : mem :=
  let gzh := alloc_gzh cfg esize gzaddr in
  (* All zone allocations are always zeroed *)
  let m := bzero m (alloc_gzaddr cfg gzaddr) (rounded_size cfg esize) in
  let m := mem_store 8 gzh owner m in
  let m := mem_store 4 (gzh + 8) (wrap32 esize) m in
  let m := mem_store 4 (gzh + 12) GZALLOC_SIGNATURE m in
  match alloc_gzhcopy cfg esize gzaddr with
  | Some gzhcopy => gzhdr_store m gzhcopy (gzhdr_load m gzh)
  | None => m
  end.

(** The accounting under the zone lock and after it (lines 397-408). *)
Definition gzalloc_alloc_account (cfg : gzalloc_tunables) (st : gzstate)
    (zone zstats_p : Z) (z : struct_zone) (new_va : bool)
    : outcome gzstate :=
  let rounded_size := rounded_size cfg (zone_elem_size z) in
  let z := set_z_elems_free z (wrap32 (z_elems_free z - 1)) in
  let z := if new_va then set_z_va_cur z (wrap32 (z_va_cur z + 1)) else z in
  let z := set_z_wired_cur z (wrap32 (z_wired_cur z + 1)) in
  zs ← zstats_deref st zstats_p;
  let st := set_zstats st
    (<[zstats_p := {| zs_mem_allocated :=
                        wrap64 (zs_mem_allocated zs + rounded_size);
                      zs_mem_freed := zs_mem_freed zs |}]> (zstats st)) in
  let st := set_zones st (<[zone := z]> (zones st)) in
  let st := set_gzalloc_allocated st
    (OSAddAtomic64 (SInt32 rounded_size) (gzalloc_allocated st)) in
  let st := set_gzalloc_wasted st
    (OSAddAtomic64 (SInt32 (wrap64 (rounded_size - zone_elem_size z)))
       (gzalloc_wasted st)) in
  Done st.

Definition gzalloc_alloc (cfg : gzalloc_tunables) (st : gzstate)
    (zone zstats_p flags : Z) (preemption_level kma_addr : Z)
    : outcome (gzstate * Z) :=
  z ← zone_deref st zone;
  if negb (z_gzalloc_tracked z) then Panic PanicAssert else
  if negb (preemption_level =? 0) && negb (Z.land flags Z_NOWAIT =? 0)
  then Done (st, 0) else
  let st :=
    if negb (preemption_level =? 0)
    then set_pdzalloc_count st (wrap32 (pdzalloc_count st + 1)) else st in
  let kmem_ready := startup_phase_kmem st in
  let esize := zone_elem_size z in
  '(st, gzaddr, new_va) ←
     gzalloc_alloc_va cfg st (rounded_size cfg esize) kma_addr;
  let owner :=
    if kmem_ready && negb (vm_page_zone st =? 0) then zone else GZDEADZONE in
  let st := set_kmem st
              (gzalloc_alloc_write cfg (kmem st) owner esize gzaddr) in
  st ← gzalloc_alloc_account cfg st zone zstats_p z new_va;
  Done (st, alloc_addr cfg esize gzaddr).

(** ** gzalloc_free *)

(** Where the header and the start of the VA range lie for an element
    pointer [addr] (lines 426-432). *)
Definition free_gzh (cfg : gzalloc_tunables) (esize addr : Z) : Z :=
  if gzalloc_uf_mode cfg then wrap64 (addr + esize)
  else wrap64 (addr - GZHEADER_SIZE).

Definition free_saddr (cfg : gzalloc_tunables) (esize addr : Z) : Z :=
  if gzalloc_uf_mode cfg then wrap64 (addr - PAGE_SIZE cfg)
  else wrap64 (addr - residue cfg esize).

(** The double free scan: [for (gd = 0; gd < gzfc_size; gd++)], started
    with [n = gzfc_size] and [gd = 0]. *)
Fixpoint gzfc_scan (ring : list Z) (gzfc_index saddr : Z) (n : nat) (gd : Z)
    : outcome unit :=
  match n with
  | O => Done ()
  | S n' =>
      v ← gzfc_slot ring gd;
      if v =? saddr then Panic (PanicDoubleFree saddr gzfc_index gd)
      else gzfc_scan ring gzfc_index saddr n' (gd + 1)
  end.

(** The byte [*gzc] as the panic message prints it: a [char], signed on
    the kernel's targets, is promoted to [int] and printed by [%x] as an
    [unsigned int], so a byte of 0x80 or more prints as 0xffffffXX. *)
Definition char_contents (c : Z) : Z :=
  wrap32 (if 128 <=? c then c - 256 else c).

(** The fill pattern scan: [for (gzc = checkstart; gzc < checkend; gzc++)],
    started with [n = checkend - checkstart] and [gzc = checkstart]. *)
Fixpoint fill_scan (cfg : gzalloc_tunables) (st : gzstate) (addr : Z)
    (n : nat) (gzc : Z) : outcome unit :=
  match n with
  | O => Done ()
  | S n' =>
      c ← load cfg st 1 gzc;
      if c =? gzalloc_fill_pattern then fill_scan cfg st addr n' (gzc + 1)
      else Panic (PanicOverUnderflow gzc addr (char_contents c))
  end.

(** The bounds of the fill pattern scan (lines 473-480).  In underflow
    mode the start is [(uintptr_t) gzh + sizeof(gzh)], where [gzh] is a
    pointer. *)
Definition checkstart (cfg : gzalloc_tunables) (gzh addr : Z) : Z :=
  if gzalloc_uf_mode cfg then wrap64 (gzh + sizeof_pointer)
  else trunc_page_64 cfg addr.

Definition checkend (cfg : gzalloc_tunables) (gzh addr : Z) : Z :=
  if gzalloc_uf_mode cfg
  then wrap64 (Z.land addr (Z.lnot (PAGE_MASK cfg)) + PAGE_SIZE cfg)
  else gzh.

(** The consistency checks (lines 454-492). *)
Definition gzalloc_free_consistency (cfg : gzalloc_tunables) (st : gzstate)
    (zone : Z) (esize gzh addr : Z) : outcome unit :=
  sig ← load cfg st 4 (gzh + 12);
  if negb (sig =? GZALLOC_SIGNATURE)
  then Panic (PanicSignatureMismatch addr sig) else
  gzone ← load cfg st 8 gzh;
  if negb (gzone =? zone) && negb (gzone =? GZDEADZONE)
  then Panic (PanicMismatchedZone zone gzone addr) else
  gzsize ← load cfg st 4 (gzh + 8);
  if negb (gzsize =? esize)
  then Panic (PanicMismatchedSize zone gzsize (wrap32 esize) addr) else
  fill_scan cfg st addr
    (Z.to_nat (checkend cfg gzh addr - checkstart cfg gzh addr))
    (checkstart cfg gzh addr).

(** Everything [gzalloc_free] validates before it decides what to do
    with the range (lines 434-492). *)
Definition gzalloc_free_validate (cfg : gzalloc_tunables) (st : gzstate)
    (zone : Z) (z : struct_zone) (addr : Z) : outcome unit :=
  let esize := zone_elem_size z in
  let gzh := free_gzh cfg esize addr in
  let saddr := free_saddr cfg esize addr in
  if negb (Z.land saddr (PAGE_MASK cfg) =? 0)
  then Panic (PanicInvalidAddress addr saddr esize) else
  _ ← (if negb (gzfc_size cfg =? 0) && gzalloc_dfree_check cfg
       then gzfc_scan (gzfc (gz z)) (gzfc_index (gz z)) saddr
              (Z.to_nat (gzfc_size cfg)) 0
       else Done ());
  if gzalloc_consistency_checks cfg
  then gzalloc_free_consistency cfg st zone esize gzh addr
  else Done ().

(** Whether the free is one of an early allocation (line 494). *)
Definition gzalloc_free_early (cfg : gzalloc_tunables) (st : gzstate)
    (gzh : Z) : outcome bool :=
  if negb (startup_phase_kmem st) then Done true
  else gzone ← load cfg st 8 gzh; Done (gzone =? GZDEADZONE).

(** Protecting, caching and releasing (lines 504-553). *)
Definition gzalloc_free_release (cfg : gzalloc_tunables) (st : gzstate)
    (zone zstats_p : Z) (z : struct_zone) (preemption_level saddr : Z)
    : outcome gzstate :=
  let esize := zone_elem_size z in
  let rounded_size := rounded_size cfg esize in
  let st :=
    if negb (preemption_level =? 0)
    then set_pdzfree_count st (wrap32 (pdzfree_count st + 1)) else st in
  '(st, free_addr) ←
    (if negb (gzfc_size cfg =? 0) then
       (* Either write protect or unmap the newly freed allocation *)
       let '(st, kr) :=
         vm_map_protect st saddr
           (wrap64 (saddr + rounded_size + 1 * PAGE_SIZE cfg))
           (gzalloc_prot cfg) in
       if negb (kr =? KERN_SUCCESS) then Panic (PanicVmMapProtect saddr kr)
       else Done (st, 0)
     else Done (st, saddr));
  (* zone_lock(zone) *)
  '(z, free_addr) ←
    (if negb (gzfc_size cfg =? 0) then
       let index :=
         if gzfc_size cfg <=? gzfc_index (gz z) then 0
         else gzfc_index (gz z) in
       free_addr ← gzfc_slot (gzfc (gz z)) index;
       Done (set_gz z {| gzfc_index := wrap32 (index + 1);
                         gzfc := <[Z.to_nat index := saddr]> (gzfc (gz z)) |},
             free_addr)
     else Done (z, free_addr));
  let z :=
    if negb (free_addr =? 0)
    then set_z_wired_cur (set_z_elems_free z (wrap32 (z_elems_free z + 1)))
           (wrap32 (z_wired_cur z - 1))
    else z in
  zs ← zstats_deref st zstats_p;
  let st := set_zstats st
    (<[zstats_p := {| zs_mem_allocated := zs_mem_allocated zs;
                      zs_mem_freed := wrap64 (zs_mem_freed zs + rounded_size)
                   |}]> (zstats st)) in
  let st := set_zones st (<[zone := z]> (zones st)) in
  (* zone_unlock(zone) *)
  if negb (free_addr =? 0) then
    let st := kmem_free st free_addr (wrap64 (rounded_size + PAGE_SIZE cfg)) in
    let st := set_gzalloc_freed st
      (OSAddAtomic64 (SInt32 rounded_size) (gzalloc_freed st)) in
    let st := set_gzalloc_wasted st
      (OSAddAtomic64 (- SInt32 (wrap64 (rounded_size - esize)))
         (gzalloc_wasted st)) in
    Done st
  else Done st.

Definition gzalloc_free (cfg : gzalloc_tunables) (st : gzstate)
    (zone zstats_p : Z) (preemption_level addr : Z) : outcome gzstate :=
  z ← zone_deref st zone;
  if negb (z_gzalloc_tracked z) then Panic PanicAssert else
  let esize := zone_elem_size z in
  _ ← gzalloc_free_validate cfg st zone z addr;
  early ← gzalloc_free_early cfg st (free_gzh cfg esize addr);
  if (early : bool) then
    (* For now, just leak frees of early allocations *)
    Done (set_gzalloc_early_free st
            (OSAddAtomic64 (SInt32 (rounded_size cfg esize))
               (gzalloc_early_free st)))
  else
    gzalloc_free_release cfg st zone zstats_p z preemption_level
      (free_saddr cfg esize addr).

(** ** gzalloc_element_size *)

(** The forward scan for the signature in overflow mode:
    a [while] loop that advances the [uint32_t] pointer [p] until [p]
    reaches [vme_end] or the word at [p] is [GZALLOC_SIGNATURE], started with one unit of [n] per word of the
    entry. *)
Fixpoint sig_scan (cfg : gzalloc_tunables) (st : gzstate) (vme_end : Z)
    (n : nat) (p : Z) : outcome Z :=
  match n with
  | O => Done p
  | S n' =>
      if p <? vme_end then
        w ← load cfg st 4 p;
        if w =? GZALLOC_SIGNATURE then Done p
        else sig_scan cfg st vme_end n' (p + 4)
      else Done p
  end.

(** [None] is the result [FALSE]; [Some (z, gzsz)] is [TRUE] with the two
    out-parameters. *)
Definition gzalloc_element_size (cfg : gzalloc_tunables) (st : gzstate)
    (gzaddr : Z) : outcome (option (Z * Z)) :=
  let a := gzaddr in
  if gzalloc_mode cfg && kmem_range_contains (gzalloc_range st) a then
    match vm_map_lookup_entry (gzalloc_map st) a with
    | None => Panic (PanicNoMapEntry a)
    | Some gzvme =>
        if negb (vme_atomic gzvme) then Panic PanicAssert else
        (* Locate the gzalloc metadata adjoining the element *)
        gzh ←
          (if gzalloc_uf_mode cfg then
             Done (wrap64 (vme_end gzvme - GZHEADER_SIZE))
           else
             p ← sig_scan cfg st (vme_end gzvme)
                   (Z.to_nat ((vme_end gzvme - vme_start gzvme + 3) / 4))
                   (vme_start gzvme);
             if vme_end gzvme <=? p then Panic (PanicSignatureMissing gzaddr)
             else Done (wrap64 (p + 4 - GZHEADER_SIZE)));
        sig ← load cfg st 4 (gzh + 12);
        if negb (sig =? GZALLOC_SIGNATURE)
        then Panic (PanicSignatureMismatch a sig) else
        gzone ← load cfg st 8 gzh;
        z ← zone_deref st gzone;
        let gzsz := zone_elem_size z in
        if negb (z_gzalloc_tracked z) then Panic (PanicZoneMismatch gzone)
        else Done (Some (gzone, gzsz))
    end
  else Done None.

(** ** Vocabulary of the specification *)

(** A run of successive frees on one zone. *)
Fixpoint gzalloc_free_all (cfg : gzalloc_tunables) (st : gzstate)
    (zone zstats_p preemption_level : Z) (addrs : list Z)
    : outcome gzstate :=
  match addrs with
  | [] => Done st
  | addr :: addrs =>
      st ← gzalloc_free cfg st zone zstats_p preemption_level addr;
      gzalloc_free_all cfg st zone zstats_p preemption_level addrs
  end.

(** The slot the next free of the zone uses, and the ring read from that
    slot on, oldest entry first. *)
Definition gzfc_next (cfg : gzalloc_tunables) (z : struct_zone) : nat :=
  Z.to_nat (if gzfc_size cfg <=? gzfc_index (gz z) then 0
            else gzfc_index (gz z)).

Definition ring_order (ring : list Z) (i : nat) : list Z :=
  drop i ring ++ take i ring.

(** The validation of a free with the double free scan left out. *)
Definition gzalloc_free_validate_noscan (cfg : gzalloc_tunables)
    (st : gzstate) (zone : Z) (z : struct_zone) (addr : Z) : outcome unit :=
  let esize := zone_elem_size z in
  if negb (Z.land (free_saddr cfg esize addr) (PAGE_MASK cfg) =? 0)
  then Panic (PanicInvalidAddress addr (free_saddr cfg esize addr) esize)
  else if gzalloc_consistency_checks cfg
  then gzalloc_free_consistency cfg st zone esize (free_gzh cfg esize addr) addr
  else Done ().

(** An outcome that is not the double free panic. *)
Definition no_dfree_panic {A} (o : outcome A) : Prop :=
  forall saddr idx gd, o ≠ Panic (PanicDoubleFree saddr idx gd).

(** The tracking predicate of the specification, and what it promises of
    a call of [gzalloc_zone_init] on the zone [zr] at [z]. *)
Definition zone_init_expected (track : string -> string -> bool)
    (cfg : gzalloc_tunables) (zr : struct_zone) : Prop :=
  gzalloc_mode cfg = true /\
  (track (z_name zr) (gznamedzone cfg) = true \/
   gzalloc_min cfg <= zone_elem_size zr <= gzalloc_max cfg).

Definition zone_init_post (track : string -> string -> bool)
    (cfg : gzalloc_tunables) (st : gzstate) (z : Z) (zr : struct_zone)
    (o : outcome gzstate) : Prop :=
  match o with
  | Done st' =>
      exists zr', zones st' !! z = Some zr' /\
        (z_gzalloc_tracked zr' = true <-> zone_init_expected track cfg zr)
  | Panic p =>
      p = PanicReserveExhausted /\ startup_phase_kmem st = false /\
      zone_init_expected track cfg zr /\
      gzalloc_reserve_size st < round_page cfg (wrap64 (8 * gzfc_size cfg))
  | Fault _ => False
  end.

(** ** gzalloc_configure

    The boot arguments, as [PE_parse_boot_argn] finds them: the flags
    (names that start with a dash), the numeric arguments and the string
    arguments. *)

Record boot_args := {
  boot_flags : gset string;
  boot_numbers : gmap string Z;
  boot_strings : gmap string string;
}.

(** Modelled from the spec: [PE_parse_boot_argn] of pexpert, the boot-arg
    parser's [parse(token, &out, size) -> bool]; whether the token is on
    the command line, and the value it stores in a [uint32_t]. *)
Definition PE_parse_boot_argn_flag (args : boot_args) (name : string) : bool :=
  bool_decide (name ∈ boot_flags args).

Definition PE_parse_boot_argn_u32 (args : boot_args) (name : string)
    : option Z :=
  wrap32 <$> boot_numbers args !! name.

Definition PE_parse_boot_argn_str (args : boot_args) (name : string)
    : option string :=
  boot_strings args !! name.

(** The globals [gzalloc_configure] writes. *)
Record gzalloc_globals := {
  g_gzalloc_mode : bool;
  g_gzalloc_min : Z;
  g_gzalloc_max : Z;
  g_gzalloc_size : Z;
  g_gzfc_size : Z;
  g_gzalloc_prot : vm_prot_t;
  g_gzalloc_uf_mode : bool;
  g_gzalloc_guard : kma_guard;
  g_gzalloc_dfree_check : bool;
  g_gzalloc_zonemap_scale : Z;
  g_gzalloc_consistency_checks : bool;
  g_gznamedzone : string;
  g_gzalloc_reserve : Z;
  g_gzalloc_reserve_size : Z;
}.

(** Their initialisers (lines 96-135); [~0U] is [2^32 - 1]. *)
Definition gzalloc_globals_init : gzalloc_globals :=
  {| g_gzalloc_mode := false;
     g_gzalloc_min := 2 ^ 32 - 1;
     g_gzalloc_max := 0;
     g_gzalloc_size := 0;
     g_gzfc_size := GZFC_DEFAULT_SIZE;
     g_gzalloc_prot := VM_PROT_NONE;
     g_gzalloc_uf_mode := false;
     g_gzalloc_guard := KMA_GUARD_LAST;
     g_gzalloc_dfree_check := true;
     g_gzalloc_zonemap_scale := 1;
     g_gzalloc_consistency_checks := true;
     g_gznamedzone := "";
     g_gzalloc_reserve := 0;
     g_gzalloc_reserve_size := 0 |}.

Definition set_g_gzalloc_mode (g : gzalloc_globals) (v : bool)
    : gzalloc_globals :=
  Build_gzalloc_globals v (g_gzalloc_min g) (g_gzalloc_max g)
    (g_gzalloc_size g) (g_gzfc_size g) (g_gzalloc_prot g)
    (g_gzalloc_uf_mode g) (g_gzalloc_guard g) (g_gzalloc_dfree_check g)
    (g_gzalloc_zonemap_scale g) (g_gzalloc_consistency_checks g)
    (g_gznamedzone g) (g_gzalloc_reserve g) (g_gzalloc_reserve_size g).

Definition set_g_gzalloc_min (g : gzalloc_globals) (v : Z)
    : gzalloc_globals :=
  Build_gzalloc_globals (g_gzalloc_mode g) v (g_gzalloc_max g)
    (g_gzalloc_size g) (g_gzfc_size g) (g_gzalloc_prot g)
    (g_gzalloc_uf_mode g) (g_gzalloc_guard g) (g_gzalloc_dfree_check g)
    (g_gzalloc_zonemap_scale g) (g_gzalloc_consistency_checks g)
    (g_gznamedzone g) (g_gzalloc_reserve g) (g_gzalloc_reserve_size g).

Definition set_g_gzalloc_max (g : gzalloc_globals) (v : Z)
    : gzalloc_globals :=
  Build_gzalloc_globals (g_gzalloc_mode g) (g_gzalloc_min g) v
    (g_gzalloc_size g) (g_gzfc_size g) (g_gzalloc_prot g)
    (g_gzalloc_uf_mode g) (g_gzalloc_guard g) (g_gzalloc_dfree_check g)
    (g_gzalloc_zonemap_scale g) (g_gzalloc_consistency_checks g)
    (g_gznamedzone g) (g_gzalloc_reserve g) (g_gzalloc_reserve_size g).

Definition set_g_gzalloc_size (g : gzalloc_globals) (v : Z)
    : gzalloc_globals :=
  Build_gzalloc_globals (g_gzalloc_mode g) (g_gzalloc_min g)
    (g_gzalloc_max g) v (g_gzfc_size g) (g_gzalloc_prot g)
    (g_gzalloc_uf_mode g) (g_gzalloc_guard g) (g_gzalloc_dfree_check g)
    (g_gzalloc_zonemap_scale g) (g_gzalloc_consistency_checks g)
    (g_gznamedzone g) (g_gzalloc_reserve g) (g_gzalloc_reserve_size g).

Definition set_g_gzfc_size (g : gzalloc_globals) (v : Z)
    : gzalloc_globals :=
  Build_gzalloc_globals (g_gzalloc_mode g) (g_gzalloc_min g)
    (g_gzalloc_max g) (g_gzalloc_size g) v (g_gzalloc_prot g)
    (g_gzalloc_uf_mode g) (g_gzalloc_guard g) (g_gzalloc_dfree_check g)
    (g_gzalloc_zonemap_scale g) (g_gzalloc_consistency_checks g)
    (g_gznamedzone g) (g_gzalloc_reserve g) (g_gzalloc_reserve_size g).

Definition set_g_gzalloc_prot (g : gzalloc_globals) (v : vm_prot_t)
    : gzalloc_globals :=
  Build_gzalloc_globals (g_gzalloc_mode g) (g_gzalloc_min g)
    (g_gzalloc_max g) (g_gzalloc_size g) (g_gzfc_size g) v
    (g_gzalloc_uf_mode g) (g_gzalloc_guard g) (g_gzalloc_dfree_check g)
    (g_gzalloc_zonemap_scale g) (g_gzalloc_consistency_checks g)
    (g_gznamedzone g) (g_gzalloc_reserve g) (g_gzalloc_reserve_size g).

Definition set_g_gzalloc_uf_mode (g : gzalloc_globals) (v : bool)
    : gzalloc_globals :=
  Build_gzalloc_globals (g_gzalloc_mode g) (g_gzalloc_min g)
    (g_gzalloc_max g) (g_gzalloc_size g) (g_gzfc_size g) (g_gzalloc_prot g)
    v (g_gzalloc_guard g) (g_gzalloc_dfree_check g)
    (g_gzalloc_zonemap_scale g) (g_gzalloc_consistency_checks g)
    (g_gznamedzone g) (g_gzalloc_reserve g) (g_gzalloc_reserve_size g).

Definition set_g_gzalloc_guard (g : gzalloc_globals) (v : kma_guard)
    : gzalloc_globals :=
  Build_gzalloc_globals (g_gzalloc_mode g) (g_gzalloc_min g)
    (g_gzalloc_max g) (g_gzalloc_size g) (g_gzfc_size g) (g_gzalloc_prot g)
    (g_gzalloc_uf_mode g) v (g_gzalloc_dfree_check g)
    (g_gzalloc_zonemap_scale g) (g_gzalloc_consistency_checks g)
    (g_gznamedzone g) (g_gzalloc_reserve g) (g_gzalloc_reserve_size g).

Definition set_g_gzalloc_dfree_check (g : gzalloc_globals) (v : bool)
    : gzalloc_globals :=
  Build_gzalloc_globals (g_gzalloc_mode g) (g_gzalloc_min g)
    (g_gzalloc_max g) (g_gzalloc_size g) (g_gzfc_size g) (g_gzalloc_prot g)
    (g_gzalloc_uf_mode g) (g_gzalloc_guard g) v (g_gzalloc_zonemap_scale g)
    (g_gzalloc_consistency_checks g) (g_gznamedzone g) (g_gzalloc_reserve g)
    (g_gzalloc_reserve_size g).

Definition set_g_gzalloc_zonemap_scale (g : gzalloc_globals) (v : Z)
    : gzalloc_globals :=
  Build_gzalloc_globals (g_gzalloc_mode g) (g_gzalloc_min g)
    (g_gzalloc_max g) (g_gzalloc_size g) (g_gzfc_size g) (g_gzalloc_prot g)
    (g_gzalloc_uf_mode g) (g_gzalloc_guard g) (g_gzalloc_dfree_check g) v
    (g_gzalloc_consistency_checks g) (g_gznamedzone g) (g_gzalloc_reserve g)
    (g_gzalloc_reserve_size g).

Definition set_g_gzalloc_consistency_checks (g : gzalloc_globals) (v : bool)
    : gzalloc_globals :=
  Build_gzalloc_globals (g_gzalloc_mode g) (g_gzalloc_min g)
    (g_gzalloc_max g) (g_gzalloc_size g) (g_gzfc_size g) (g_gzalloc_prot g)
    (g_gzalloc_uf_mode g) (g_gzalloc_guard g) (g_gzalloc_dfree_check g)
    (g_gzalloc_zonemap_scale g) v (g_gznamedzone g) (g_gzalloc_reserve g)
    (g_gzalloc_reserve_size g).

Definition set_g_gznamedzone (g : gzalloc_globals) (v : string)
    : gzalloc_globals :=
  Build_gzalloc_globals (g_gzalloc_mode g) (g_gzalloc_min g)
    (g_gzalloc_max g) (g_gzalloc_size g) (g_gzfc_size g) (g_gzalloc_prot g)
    (g_gzalloc_uf_mode g) (g_gzalloc_guard g) (g_gzalloc_dfree_check g)
    (g_gzalloc_zonemap_scale g) (g_gzalloc_consistency_checks g) v
    (g_gzalloc_reserve g) (g_gzalloc_reserve_size g).

Definition set_g_gzalloc_reserve (g : gzalloc_globals) (v : Z)
    : gzalloc_globals :=
  Build_gzalloc_globals (g_gzalloc_mode g) (g_gzalloc_min g)
    (g_gzalloc_max g) (g_gzalloc_size g) (g_gzfc_size g) (g_gzalloc_prot g)
    (g_gzalloc_uf_mode g) (g_gzalloc_guard g) (g_gzalloc_dfree_check g)
    (g_gzalloc_zonemap_scale g) (g_gzalloc_consistency_checks g)
    (g_gznamedzone g) v (g_gzalloc_reserve_size g).

Definition set_g_gzalloc_reserve_size (g : gzalloc_globals) (v : Z)
    : gzalloc_globals :=
  Build_gzalloc_globals (g_gzalloc_mode g) (g_gzalloc_min g)
    (g_gzalloc_max g) (g_gzalloc_size g) (g_gzfc_size g) (g_gzalloc_prot g)
    (g_gzalloc_uf_mode g) (g_gzalloc_guard g) (g_gzalloc_dfree_check g)
    (g_gzalloc_zonemap_scale g) (g_gzalloc_consistency_checks g)
    (g_gznamedzone g) (g_gzalloc_reserve g) v.

(** [gzalloc_configure] for a kernel without [KASAN_ZALLOC], one
    definition per statement of the source. *)
Definition configure_gzalloc_mode (args : boot_args) (g : gzalloc_globals)
    : gzalloc_globals :=
  if PE_parse_boot_argn_flag args "-gzalloc_mode" then
    set_g_gzalloc_max
      (set_g_gzalloc_min (set_g_gzalloc_mode g true) GZALLOC_MIN_DEFAULT)
      (2 ^ 32 - 1)
  else g.

Definition configure_gzalloc_min (args : boot_args) (g : gzalloc_globals)
    : gzalloc_globals :=
  match PE_parse_boot_argn_u32 args "gzalloc_min" with
  | Some v =>
      set_g_gzalloc_max (set_g_gzalloc_mode (set_g_gzalloc_min g v) true)
        (2 ^ 32 - 1)
  | None => g
  end.

Definition configure_gzalloc_max (args : boot_args) (g : gzalloc_globals)
    : gzalloc_globals :=
  match PE_parse_boot_argn_u32 args "gzalloc_max" with
  | Some v =>
      let g := set_g_gzalloc_mode (set_g_gzalloc_max g v) true in
      if g_gzalloc_min g =? 2 ^ 32 - 1 then set_g_gzalloc_min g 0 else g
  | None => g
  end.

Definition configure_gzalloc_size (args : boot_args) (g : gzalloc_globals)
    : gzalloc_globals :=
  match PE_parse_boot_argn_u32 args "gzalloc_size" with
  | Some v =>
      let g := set_g_gzalloc_size g v in
      set_g_gzalloc_mode
        (set_g_gzalloc_min (set_g_gzalloc_max g (g_gzalloc_size g))
           (g_gzalloc_size g))
        true
  | None => g
  end.

Definition configure_fc_size (args : boot_args) (g : gzalloc_globals)
    : gzalloc_globals :=
  match PE_parse_boot_argn_u32 args "gzalloc_fc_size" with
  | Some v => set_g_gzfc_size g v
  | None => g
  end.

Definition configure_wp (args : boot_args) (g : gzalloc_globals)
    : gzalloc_globals :=
  if PE_parse_boot_argn_flag args "-gzalloc_wp"
  then set_g_gzalloc_prot g VM_PROT_READ else g.

Definition configure_uf_mode (args : boot_args) (g : gzalloc_globals)
    : gzalloc_globals :=
  if PE_parse_boot_argn_flag args "-gzalloc_uf_mode"
  then set_g_gzalloc_guard (set_g_gzalloc_uf_mode g true) KMA_GUARD_FIRST
  else g.

Definition configure_no_dfree_check (args : boot_args) (g : gzalloc_globals)
    : gzalloc_globals :=
  if PE_parse_boot_argn_flag args "-gzalloc_no_dfree_check"
  then set_g_gzalloc_dfree_check g false else g.

Definition configure_zscale (args : boot_args) (g : gzalloc_globals)
    : gzalloc_globals :=
  match PE_parse_boot_argn_u32 args "gzalloc_zscale" with
  | Some v => set_g_gzalloc_zonemap_scale g v
  | None => g
  end.

Definition configure_noconsistency (args : boot_args) (g : gzalloc_globals)
    : gzalloc_globals :=
  if PE_parse_boot_argn_flag args "-gzalloc_noconsistency"
  then set_g_gzalloc_consistency_checks g false else g.

Definition configure_gzname (args : boot_args) (g : gzalloc_globals)
    : gzalloc_globals :=
  match PE_parse_boot_argn_str args "gzname" with
  | Some s => set_g_gzalloc_mode (set_g_gznamedzone g s) true
  | None => g
  end.

(** The [#if DEBUG] block; [debug] is the [DEBUG] build. *)
Definition configure_debug (debug : bool) (g : gzalloc_globals)
    : gzalloc_globals :=
  if debug && negb (g_gzalloc_mode g) then
    set_g_gzalloc_mode
      (set_g_gzalloc_prot
         (set_g_gznamedzone
            (set_g_gzalloc_max (set_g_gzalloc_min g 1024) 1024) "pmap")
         VM_PROT_READ)
      true
  else g.

Definition configure_nogzalloc_mode (args : boot_args) (g : gzalloc_globals)
    : gzalloc_globals :=
  if PE_parse_boot_argn_flag args "-nogzalloc_mode"
  then set_g_gzalloc_mode g false else g.

(** [stolen] is the address [pmap_steal_memory] returns. *)
Definition configure_reserve (stolen : Z) (g : gzalloc_globals)
    : gzalloc_globals :=
  if g_gzalloc_mode g then
    set_g_gzalloc_reserve
      (set_g_gzalloc_reserve_size g GZALLOC_RESERVE_SIZE_DEFAULT) stolen
  else g.

Definition gzalloc_configure (debug : bool) (args : boot_args) (stolen : Z)
    : gzalloc_globals :=
  let g := gzalloc_globals_init in
  let g := configure_gzalloc_mode args g in
  let g := configure_gzalloc_min args g in
  let g := configure_gzalloc_max args g in
  let g := configure_gzalloc_size args g in
  let g := configure_fc_size args g in
  let g := configure_wp args g in
  let g := configure_uf_mode args g in
  let g := configure_no_dfree_check args g in
  let g := configure_zscale args g in
  let g := configure_noconsistency args g in
  let g := configure_gzname args g in
  let g := configure_debug debug g in
  let g := configure_nogzalloc_mode args g in
  configure_reserve stolen g.

(** The size the arena registers for itself (lines 306-311), from
    [zone_map_size]; [gzalloc_map_size] starts at 0. *)
Definition gzalloc_map_size (g : gzalloc_globals) (zone_map_size : Z) : Z :=
  if g_gzalloc_mode g
  then wrap64 (zone_map_size * g_gzalloc_zonemap_scale g) else 0.

(** The tunables the other entry points read, on a machine with the
    given page shift. *)
Definition tunables_of (page_shift : N) (g : gzalloc_globals)
    : gzalloc_tunables :=
  {| PAGE_SHIFT := page_shift;
     gzalloc_mode := g_gzalloc_mode g;
     gzalloc_min := g_gzalloc_min g;
     gzalloc_max := g_gzalloc_max g;
     gzalloc_uf_mode := g_gzalloc_uf_mode g;
     gzalloc_consistency_checks := g_gzalloc_consistency_checks g;
     gzalloc_dfree_check := g_gzalloc_dfree_check g;
     gzalloc_prot := g_gzalloc_prot g;
     gzfc_size := g_gzfc_size g;
     gznamedzone := g_gznamedzone g |}.

(** The arguments that turn the allocator on. *)
Definition boot_enables (args : boot_args) : Prop :=
  "-gzalloc_mode" ∈ boot_flags args \/
  is_Some (boot_numbers args !! "gzalloc_min") \/
  is_Some (boot_numbers args !! "gzalloc_max") \/
  is_Some (boot_numbers args !! "gzalloc_size") \/
  is_Some (boot_strings args !! "gzname").

(** The steps between the size arguments and [gzname] touch neither the
    mode nor the range. *)
Definition configure_tunings (args : boot_args) (g : gzalloc_globals)
    : gzalloc_globals :=
  configure_noconsistency args
    (configure_zscale args
       (configure_no_dfree_check args
          (configure_uf_mode args
             (configure_wp args (configure_fc_size args g))))).

(** The globals only [pmap_steal_memory] and [-gzalloc_uf_mode] set. *)
Definition reserve_and_guard (g : gzalloc_globals) : Z * Z * bool * kma_guard :=
  (g_gzalloc_reserve g, g_gzalloc_reserve_size g, g_gzalloc_uf_mode g,
   g_gzalloc_guard g).

(** ** Vocabulary of the entry points *)

(** The flag [gzalloc_zone_init] computes for the zone [zr] at [z]
    (lines 152-160). *)
Definition zone_init_flag (track : string -> string -> bool)
    (cfg : gzalloc_tunables) (st : gzstate) (z : Z) (zr : struct_zone) : bool :=
  track (z_name zr) (gznamedzone cfg) || (z =? gztrackzone st) ||
  ((gzalloc_min cfg <=? zone_elem_size zr) &&
   (zone_elem_size zr <=? gzalloc_max cfg)).

(** The early reserve is a range of the 64-bit address space. *)
Definition reserve_ok (st : gzstate) : Prop :=
  0 <= gzalloc_reserve st /\ 0 <= gzalloc_reserve_size st /\
  gzalloc_reserve st + gzalloc_reserve_size st < 2 ^ 64.

(** The reserve only shrinks from its start. *)
Definition reserve_step (st st' : gzstate) : Prop :=
  reserve_ok st' /\
  gzalloc_reserve st <= gzalloc_reserve st' /\
  gzalloc_reserve st' + gzalloc_reserve_size st' =
    gzalloc_reserve st + gzalloc_reserve_size st.

(** One call of an entry point that returns. *)
Inductive gz_step (track : string -> string -> bool) (cfg : gzalloc_tunables)
    : gzstate -> gzstate -> Prop :=
  | gz_step_zone_init st z st' :
      gzalloc_zone_init track cfg st z = Done st' -> gz_step track cfg st st'
  | gz_step_alloc st zone zstats_p flags pl kma_addr st' p :
      gzalloc_alloc cfg st zone zstats_p flags pl kma_addr = Done (st', p) ->
      gz_step track cfg st st'
  | gz_step_free st zone zstats_p pl addr st' :
      gzalloc_free cfg st zone zstats_p pl addr = Done st' ->
      gz_step track cfg st st'
  | gz_step_empty_free_cache st zone st' :
      gzalloc_empty_free_cache cfg st zone = Done st' ->
      gz_step track cfg st st'.

(** The map entry a guarded allocation of an [esize]-byte element creates
    at [kma_addr] (lines 359-362). *)
Definition alloc_entry (cfg : gzalloc_tunables) (esize kma_addr : Z)
    : vm_map_entry :=
  {| vme_start := kma_addr;
     vme_end := kma_addr + wrap64 (rounded_size cfg esize + PAGE_SIZE cfg);
     vme_atomic := true; vme_protection := VM_PROT_DEFAULT;
     vme_guard := gzalloc_guard cfg |}.

(** What [vm_map_protect] does to one entry of the map. *)
Definition protect_entry (start end_ : Z) (prot : vm_prot_t)
    (e : vm_map_entry) : vm_map_entry :=
  if (vme_start e =? start) && (vme_end e =? end_) then
    {| vme_start := vme_start e; vme_end := vme_end e;
       vme_atomic := vme_atomic e; vme_protection := prot;
       vme_guard := vme_guard e |}
  else e.

(** The double free scan of [gzalloc_free] (lines 441-452), for the range
    start [saddr]. *)
Definition gzalloc_free_dfree_scan (cfg : gzalloc_tunables) (z : struct_zone)
    (saddr : Z) : outcome unit :=
  if negb (gzfc_size cfg =? 0) && gzalloc_dfree_check cfg
  then gzfc_scan (gzfc (gz z)) (gzfc_index (gz z)) saddr
         (Z.to_nat (gzfc_size cfg)) 0
  else Done ().

(** The slots of a free cache that [gzalloc_empty_free_cache] releases:
    those that are not null and lie in the arena (line 207). *)
Definition gzfc_cached (range : kmem_range) (ring : list Z) : list Z :=
  filter (λ a, a ≠ 0 /\ kmem_range_contains range a = true) ring.

End Gzalloc.

(** * SOSRingUtils.c: ring identity *)

Module SOSRing.

(** The Core Foundation objects a ring dictionary holds. *)
Inductive CFTypeRef :=
  | CFString (s : string)
  | CFNumber (n : Z)
  | CFBoolean (b : bool).

Global Instance CFTypeRef_eq_dec : EqDecision CFTypeRef.
Proof. solve_decision. Defined.

(** [struct __OpaqueSOSRing]; [None] is a [NULL] member. *)
Record OpaqueSOSRing := {
  unSignedInformation : option (gmap string CFTypeRef);
  signedInformation : option (gmap string CFTypeRef);
  signatures : option (gmap string CFTypeRef);
  data : option (gmap string CFTypeRef);
}.

(** signedInformation dictionary keys *)
Definition sNameKey : string := "RingName".
Definition sTypeKey : string := "RingType".
Definition sIdentifierKey : string := "Identifier".
Definition sRingVersionKey : string := "RingVersion".

(** [asString(obj, NULL)] and [asNumber(obj, NULL)]: the object when it
    has that type, [NULL] otherwise. *)
Definition asString (o : option CFTypeRef) : option CFTypeRef :=
  match o with
  | Some (CFString s) => Some (CFString s)
  | _ => None
  end.

Definition asNumber (o : option CFTypeRef) : option CFTypeRef :=
  match o with
  | Some (CFNumber n) => Some (CFNumber n)
  | _ => None
  end.

(** [CFEqualSafe] of utilities/SecCFWrappers.h: pointer comparison when a
    side is [NULL], [CFEqual] otherwise. *)
Definition CFEqualSafe (left right : option CFTypeRef) : bool :=
  match left, right with
  | Some l, Some r => bool_decide (l = r)
  | None, None => true
  | _, _ => false
  end.

(** [CFNumberGetValue(n, kCFNumberSInt32Type, &out)] into a [uint32_t]. *)
Definition CFNumberGetValue32 (n : Z) : Z := n mod 2 ^ 32.

Section ring.

(** [SOSRingAssertStable] is a static inline of SOSRingUtils.h and
    [kSOSRingTypeError] an enumerator of SOSRing.h. *)
Variable SOSRingAssertStable : OpaqueSOSRing -> bool.
Variable kSOSRingTypeError : Z.

(** The getters return [None] when an [assert] on the ring fails or a
    [NULL] dictionary would be read. *)
Definition SOSRingGetName (ring : OpaqueSOSRing) : option (option CFTypeRef) :=
  si ← signedInformation ring;
  Some (asString (si !! sNameKey)).

Definition SOSRingGetType (ring : OpaqueSOSRing) : Z :=
  let retval := kSOSRingTypeError in
  if negb (SOSRingAssertStable ring) then retval else
  match signedInformation ring with
  | None => retval
  | Some si =>
      match asNumber (si !! sTypeKey) with
      | Some (CFNumber n) => CFNumberGetValue32 n
      | _ => retval
      end
  end.

(** The version entry is handed to [CFNumberGetValue] without a type
    check; an entry that is not a number gives no result. *)
Definition SOSRingGetVersion (ring : OpaqueSOSRing) : option Z :=
  si ← signedInformation ring;
  match si !! sRingVersionKey with
  | None => Some 0
  | Some (CFNumber n) => Some (CFNumberGetValue32 n)
  | Some _ => None
  end.

Definition SOSRingGetIdentifier (ring : OpaqueSOSRing)
    : option (option CFTypeRef) :=
  si ← signedInformation ring;
  Some (si !! sIdentifierKey).

Definition SOSRingIsSame (ring1 ring2 : OpaqueSOSRing) : option bool :=
  name1 ← SOSRingGetName ring1;
  name2 ← SOSRingGetName ring2;
  if negb (bool_decide (is_Some name1) && bool_decide (is_Some name2))
  then Some false else
  if negb (CFEqualSafe name1 name2) then Some false else
  let type1 := SOSRingGetType ring1 in
  type2 ← SOSRingGetVersion ring2;
  if negb (negb (type1 =? 0) && negb (type2 =? 0)) then Some false else
  if negb (type1 =? type2) then Some false else
  identifier1 ← SOSRingGetIdentifier ring1;
  identifier2 ← SOSRingGetIdentifier ring2;
  if negb (bool_decide (is_Some identifier1) &&
           bool_decide (is_Some identifier2))
  then Some false else
  if negb (CFEqualSafe identifier1 identifier2) then Some false else
  Some true.

End ring.

(** ** The setters *)

Definition RINGVERSION : Z := 1.

(** [setValueInDict]: a [NULL] value is refused. *)
Definition setValueInDict (thedict : gmap string CFTypeRef) (key : string)
    (value : option CFTypeRef) : gmap string CFTypeRef * bool :=
  match value with
  | None => (thedict, false)
  | Some v => (<[key := v]> thedict, true)
  end.

(** [CFNumberCreate(ALLOCATOR, kCFNumberSInt32Type, &v)]: the number whose
    value is the 32 bits at [&v] read as a signed integer. *)
Definition CFNumberCreate32 (v : Z) : option CFTypeRef :=
  Some (CFNumber ((v + 2 ^ 31) mod 2 ^ 32 - 2 ^ 31)).

(** The ring with its [signedInformation] dictionary updated in place. *)
Definition set_signedInformation (ring : OpaqueSOSRing)
    (si : gmap string CFTypeRef) : OpaqueSOSRing :=
  {| unSignedInformation := unSignedInformation ring;
     signedInformation := Some si;
     signatures := signatures ring;
     data := data ring |}.

Section ring_setters.

(** [kSOSRingTypeCount] is an enumerator of SOSRing.h. *)
Variable kSOSRingTypeCount : Z.

(** The setters return [None] when an [assert] on the ring fails or a
    [NULL] dictionary would be written, and otherwise the ring as they
    leave it together with their result. *)
Definition SOSRingSetName (ring : OpaqueSOSRing) (name : option string)
    : option (OpaqueSOSRing * bool) :=
  si ← signedInformation ring;
  let '(si, retval) := setValueInDict si sNameKey (CFString <$> name) in
  Some (set_signedInformation ring si, retval).

Definition SOSRingCheckType (type : Z) : bool := type <? kSOSRingTypeCount.

Definition SOSRingSetType (ring : OpaqueSOSRing) (ringtype : Z)
    : option (OpaqueSOSRing * bool) :=
  if negb (SOSRingCheckType ringtype) then Some (ring, false) else
  let cfrtype := CFNumberCreate32 ringtype in
  si ← signedInformation ring;
  let '(si, retval) := setValueInDict si sTypeKey cfrtype in
  Some (set_signedInformation ring si, retval).

Definition SOSRingSetVersion (ring : OpaqueSOSRing)
    : option (OpaqueSOSRing * bool) :=
  si ← signedInformation ring;
  match CFNumberCreate32 RINGVERSION with
  | None => Some (ring, false)
  | Some version =>
      Some (set_signedInformation ring (<[sRingVersionKey := version]> si), true)
  end.

(** [uuid] is the string of the identifier [CFUUIDCreate] made, [None]
    when it made none. *)
Definition SOSRingSetIdentifier (ring : OpaqueSOSRing) (uuid : option string)
    : option (OpaqueSOSRing * bool) :=
  si ← signedInformation ring;
  match uuid with
  | None => Some (ring, false)
  | Some identifier =>
      Some (set_signedInformation ring
              (<[sIdentifierKey := CFString identifier]> si), true)
  end.

End ring_setters.

End SOSRing.

(** * Worked configurations

    A machine with 4 KiB pages, one zone at address [0x5000] with its
    statistics at [0x6000], the arena at [[0x100000000, 0x200000000)] and
    the reserve at [0x100000]. *)

Module Scenario.
Import Gzalloc.

Definition tunables (uf consistency : bool) (fc : Z) : gzalloc_tunables :=
  {| PAGE_SHIFT := 12; gzalloc_mode := true;
     gzalloc_min := 64; gzalloc_max := 4080;
     gzalloc_uf_mode := uf; gzalloc_consistency_checks := consistency;
     gzalloc_dfree_check := true; gzalloc_prot := VM_PROT_NONE;
     gzfc_size := fc; gznamedzone := "" |}.

Definition the_zone : Z := 0x5000.
Definition the_stats : Z := 0x6000.
Definition arena_base : Z := 0x100000000.

Definition zone0 (fc : Z) (esize : Z) : struct_zone :=
  {| z_name := "ex"; z_elem_size := esize; z_gzalloc_tracked := true;
     z_elems_free := 0; z_wired_cur := 0; z_va_cur := 0;
     gz := {| gzfc_index := 0; gzfc := replicate (Z.to_nat fc) 0 |} |}.

Definition state0 (kmem_ready : bool) (fc : Z) (esize : Z) : gzstate :=
  {| startup_phase_kmem := kmem_ready; vm_page_zone := 0x7000;
     gztrackzone := 0;
     gzalloc_reserve := 0x100000;
     gzalloc_reserve_size := GZALLOC_RESERVE_SIZE_DEFAULT;
     gzalloc_allocated := 0; gzalloc_freed := 0; gzalloc_early_alloc := 0;
     gzalloc_early_free := 0; gzalloc_wasted := 0;
     pdzalloc_count := 0; pdzfree_count := 0;
     gzalloc_range := {| min_address := arena_base;
                         max_address := 0x200000000 |};
     gzalloc_map := []; gzalloc_map_calls := []; kmem := λ _, 0;
     zones := {[ the_zone := zone0 fc esize ]};
     zstats := {[ the_stats := {| zs_mem_allocated := 0; zs_mem_freed := 0 |} ]}
  |}.

(** The state of a finished call, or [st] when it did not finish; the
    state and the pointer of a finished allocation. *)
Definition state_of (st : gzstate) (o : outcome gzstate) : gzstate :=
  match o with Done s => s | _ => st end.

Definition alloc_state (st : gzstate) (o : outcome (gzstate * Z)) : gzstate :=
  match o with Done (s, _) => s | _ => st end.

Definition alloc_ptr (o : outcome (gzstate * Z)) : Z :=
  match o with Done (_, p) => p | _ => 0 end.

Definition zone_in (st : gzstate) : struct_zone :=
  default (zone0 0 0) (zones st !! the_zone).

(** One allocation at the base of the arena (or from the reserve). *)
Definition alloc1 (cfg : gzalloc_tunables) (st : gzstate)
    : outcome (gzstate * Z) :=
  gzalloc_alloc cfg st the_zone the_stats 0 0 arena_base.

(** One allocation and its free. *)
Definition alloc1_free1 (cfg : gzalloc_tunables) (st : gzstate)
    : outcome gzstate :=
  gzalloc_free cfg (alloc_state st (alloc1 cfg st)) the_zone the_stats 0
    (alloc_ptr (alloc1 cfg st)).




(** Three allocations of 4080-byte elements, two pages apart. *)
Definition alloc3 (cfg : gzalloc_tunables) (st : gzstate)
    : outcome (gzstate * list Z) :=
  '(st, p1) ← gzalloc_alloc cfg st the_zone the_stats 0 0 arena_base;
  '(st, p2) ← gzalloc_alloc cfg st the_zone the_stats 0 0
                (arena_base + 0x2000);
  '(st, p3) ← gzalloc_alloc cfg st the_zone the_stats 0 0
                (arena_base + 0x4000);
  Done (st, [p1; p2; p3]).

Definition alloc3_state (cfg : gzalloc_tunables) (st : gzstate) : gzstate :=
  match alloc3 cfg st with Done (s, _) => s | _ => st end.

Definition alloc3_ptrs (cfg : gzalloc_tunables) (st : gzstate) : list Z :=
  match alloc3 cfg st with Done (_, ps) => ps | _ => [] end.

(** A 200-byte element whose user ran below it and overwrote the size
    field of the header, 8 bytes before the element, with 100. *)
Definition underrun : gzstate :=
  let o := alloc1 (tunables false true 4) (state0 true 4 200) in
  let st := alloc_state (state0 true 4 200) o in
  set_kmem st (mem_store 4 (alloc_ptr o - 8) 100 (kmem st)).

(** A zone that has just been constructed, not yet seen by
    [gzalloc_zone_init]. *)
Definition fresh_zone (esize : Z) : struct_zone :=
  {| z_name := "ex"; z_elem_size := esize; z_gzalloc_tracked := false;
     z_elems_free := 0; z_wired_cur := 0; z_va_cur := 0;
     gz := {| gzfc_index := 0; gzfc := [] |} |}.

Definition fresh_state (esize : Z) : gzstate :=
  set_zones (state0 true 4 esize) {[ the_zone := fresh_zone esize ]}.

(** A ring named "r" with its type, version 1 and an identifier. *)
Definition ring_of_type (type : Z) : SOSRing.OpaqueSOSRing :=
  let si : gmap string SOSRing.CFTypeRef :=
    {[ SOSRing.sNameKey := SOSRing.CFString "r";
       SOSRing.sTypeKey := SOSRing.CFNumber type;
       SOSRing.sRingVersionKey := SOSRing.CFNumber 1;
       SOSRing.sIdentifierKey := SOSRing.CFString "id" ]} in
  {| SOSRing.unSignedInformation := Some ∅;
     SOSRing.signedInformation := Some si;
     SOSRing.signatures := Some ∅;
     SOSRing.data := Some ∅ |}.

Definition kSOSRingTypeError : Z := 0xfbadbeef.

(** The command line [gzalloc_size=4080]. *)
Definition boot_size : boot_args :=
  {| boot_flags := ∅; boot_numbers := {[ "gzalloc_size" := 4080 ]};
     boot_strings := ∅ |}.

(** No zone is singled out by name. *)
Definition no_track : string -> string -> bool := λ _ _, false.

(** One call of [gzalloc_zone_init] on the zone, and the free cache of
    the zone emptied. *)
Definition zone_init1 (cfg : gzalloc_tunables) (st : gzstate)
    : outcome gzstate :=
  gzalloc_zone_init no_track cfg st the_zone.

Definition empty1 (cfg : gzalloc_tunables) (st : gzstate) : outcome gzstate :=
  gzalloc_empty_free_cache cfg st the_zone.

(** A ring whose dictionaries are still empty, as [SOSRingCreate_Internal]
    has it before the setters run, and the ring a setter left. *)
Definition bare_ring : SOSRing.OpaqueSOSRing :=
  {| SOSRing.unSignedInformation := Some ∅;
     SOSRing.signedInformation := Some ∅;
     SOSRing.signatures := Some ∅; SOSRing.data := Some ∅ |}.

Definition ring_after (o : option (SOSRing.OpaqueSOSRing * bool))
    : SOSRing.OpaqueSOSRing :=
  match o with Some (r, _) => r | None => bare_ring end.

Definition kSOSRingTypeCount : Z := 6.

(** The identity of a ring of type [t] named "r", as the four setters
    write it. *)
Definition named_ring (t : Z) : SOSRing.OpaqueSOSRing :=
  let r1 := ring_after (SOSRing.SOSRingSetName bare_ring (Some "r")) in
  let r2 := ring_after (SOSRing.SOSRingSetType kSOSRingTypeCount r1 t) in
  let r3 := ring_after (SOSRing.SOSRingSetVersion r2) in
  ring_after (SOSRing.SOSRingSetIdentifier r3 (Some "id")).

End Scenario.

(** * Properties of the guard-mode allocator *)

Module GzallocSpec.
Import Gzalloc.

(** ** Page arithmetic *)

Lemma PAGE_SIZE_pos cfg : 0 < PAGE_SIZE cfg.
Proof. unfold PAGE_SIZE. apply Z.pow_pos_nonneg; lia. Qed.

Lemma land_lnot_PAGE_MASK cfg x :
  Z.land x (Z.lnot (PAGE_MASK cfg)) = PAGE_SIZE cfg * (x / PAGE_SIZE cfg).
Proof.
  unfold PAGE_MASK, PAGE_SIZE.
  set (k := Z.of_N (PAGE_SHIFT cfg)).
  assert (Hk : 0 <= k) by (subst k; lia).
  replace (2 ^ k - 1) with (Z.ones k) by (rewrite Z.ones_equiv; lia).
  rewrite <- Z.ldiff_land, Z.ldiff_ones_r by done.
  rewrite Z.shiftl_mul_pow2, Z.shiftr_div_pow2 by done. lia.
Qed.

Lemma trunc_page_64_spec cfg x :
  0 <= x < 2 ^ 64 ->
  trunc_page_64 cfg x = PAGE_SIZE cfg * (x / PAGE_SIZE cfg).
Proof.
  intros Hx. unfold trunc_page_64, wrap64.
  rewrite Z.mod_small by done. apply land_lnot_PAGE_MASK.
Qed.

Lemma round_page_spec cfg x :
  0 <= x -> x + PAGE_SIZE cfg <= 2 ^ 64 ->
  round_page cfg x = PAGE_SIZE cfg * ((x + PAGE_SIZE cfg - 1) / PAGE_SIZE cfg).
Proof.
  intros Hx Hb. pose proof (PAGE_SIZE_pos cfg) as Hp.
  unfold round_page, wrap64. rewrite land_lnot_PAGE_MASK.
  unfold PAGE_MASK. rewrite Z.mod_small by lia.
  f_equal. f_equal. lia.
Qed.

Lemma round_page_bounds cfg x :
  0 <= x -> x + PAGE_SIZE cfg <= 2 ^ 64 ->
  x <= round_page cfg x < x + PAGE_SIZE cfg /\
  round_page cfg x mod PAGE_SIZE cfg = 0.
Proof.
  intros Hx Hb. pose proof (PAGE_SIZE_pos cfg) as Hp.
  rewrite round_page_spec by done.
  set (P := PAGE_SIZE cfg) in *.
  pose proof (Z.div_mod (x + P - 1) P ltac:(lia)) as Hdm.
  pose proof (Z.mod_pos_bound (x + P - 1) P Hp) as Hmb.
  split; [lia|].
  rewrite Z.mul_comm. apply Z.mod_mul. lia.
Qed.

Lemma rounded_size_bounds cfg esize :
  0 <= esize < 2 ^ 32 -> PAGE_SIZE cfg <= 2 ^ 32 ->
  esize + GZHEADER_SIZE <= rounded_size cfg esize
    < esize + GZHEADER_SIZE + PAGE_SIZE cfg /\
  rounded_size cfg esize mod PAGE_SIZE cfg = 0.
Proof.
  intros He Hp. unfold rounded_size, wrap64.
  assert (HH : GZHEADER_SIZE = 16) by reflexivity.
  rewrite Z.mod_small by lia.
  apply round_page_bounds; lia.
Qed.

Lemma residue_spec cfg esize :
  0 <= esize < 2 ^ 32 -> PAGE_SIZE cfg <= 2 ^ 32 ->
  residue cfg esize = rounded_size cfg esize - esize.
Proof.
  intros He Hp. unfold residue, wrap64.
  pose proof (rounded_size_bounds cfg esize He Hp) as [Hb _].
  assert (HH : GZHEADER_SIZE = 16) by reflexivity.
  apply Z.mod_small. lia.
Qed.


(** C2, as the specification states it, fails: for a 64-byte zone on
    4 KiB pages the residue is 4032 and 4032 + 64 + 16 is not 4096. *)
Lemma residue_plus_header_counterexample :
  residue (Scenario.tunables false true 4) 64 + 64 + GZHEADER_SIZE
    ≠ rounded_size (Scenario.tunables false true 4) 64.
Proof. vm_compute. discriminate. Qed.

(** C2 (amended): with [P = round_page(E + H)] and [residue = P - E] as
    the allocator computes it, [residue + E = P]; the header lies inside
    the residue, so the fill bytes [residue - H], the header and the
    element add up to [P]. *)
Theorem residue_identity cfg esize :
  0 <= esize < 2 ^ 32 -> PAGE_SIZE cfg <= 2 ^ 32 ->
  residue cfg esize + esize = rounded_size cfg esize /\
  GZHEADER_SIZE <= residue cfg esize /\
  (residue cfg esize - GZHEADER_SIZE) + GZHEADER_SIZE + esize
    = rounded_size cfg esize.
Proof.
  intros He Hp.
  pose proof (rounded_size_bounds cfg esize He Hp) as [Hb _].
  rewrite residue_spec by done. lia.
Qed.

Lemma residue_identity_witness :
  residue (Scenario.tunables false true 4) 64 + 64
    = rounded_size (Scenario.tunables false true 4) 64 /\
  GZHEADER_SIZE <= residue (Scenario.tunables false true 4) 64 /\
  (residue (Scenario.tunables false true 4) 64 - GZHEADER_SIZE)
    + GZHEADER_SIZE + 64
    = rounded_size (Scenario.tunables false true 4) 64.
Proof.
  apply (residue_identity (Scenario.tunables false true 4) 64);
    [vm_compute; split; congruence | vm_compute; congruence].
Defined.

(** ** Memory *)

Lemma mem_store_out n : forall a v m x,
  x < a \/ a + Z.of_nat n <= x -> mem_store n a v m x = m x.
Proof.
  induction n as [|n IH]; intros a v m x Hx; simpl; [done|].
  rewrite IH by lia. destruct (Z.eqb_spec x a); [lia|done].
Qed.

Lemma mem_load_ext n : forall a m m',
  (forall x, a <= x < a + Z.of_nat n -> m x = m' x) ->
  mem_load n a m = mem_load n a m'.
Proof.
  induction n as [|n IH]; intros a m m' H; simpl; [done|].
  rewrite (H a) by lia. rewrite (IH (a + 1) m m'); [done|].
  intros x Hx. apply H. lia.
Qed.

Lemma mem_load_range n : forall a m, 0 <= mem_load n a m < 256 ^ Z.of_nat n.
Proof.
  induction n as [|n IH]; intros a m.
  - simpl. lia.
  - change (mem_load (S n) a m) with (m a mod 256 + 256 * mem_load n (a + 1) m).
    rewrite Nat2Z.inj_succ, Z.pow_succ_r by lia.
    pose proof (IH (a + 1) m). pose proof (Z.mod_pos_bound (m a) 256).
    lia.
Qed.

Lemma mem_load_store_same n : forall a v m,
  mem_load n a (mem_store n a v m) = v mod 256 ^ Z.of_nat n.
Proof.
  induction n as [|n IH]; intros a v m.
  - simpl. by rewrite Z.mod_1_r.
  - change (mem_load (S n) a (mem_store (S n) a v m)) with
      (mem_store n (a + 1) (v / 256) (λ x, if x =? a then v mod 256 else m x) a mod 256
       + 256 * mem_load n (a + 1)
           (mem_store n (a + 1) (v / 256) (λ x, if x =? a then v mod 256 else m x))).
    rewrite IH, mem_store_out by lia.
    rewrite Z.eqb_refl, Z.mod_mod by lia.
    rewrite Nat2Z.inj_succ, Z.pow_succ_r by lia.
    rewrite Z.rem_mul_r; [done | lia | ].
    apply Z.pow_pos_nonneg; lia.
Qed.

Lemma mem_load_store_other n n' : forall a a' v m,
  a' + Z.of_nat n' <= a \/ a + Z.of_nat n <= a' ->
  mem_load n' a' (mem_store n a v m) = mem_load n' a' m.
Proof.
  intros a a' v m H. apply mem_load_ext. intros x Hx.
  apply mem_store_out. lia.
Qed.

Lemma gzhdr_load_store m a h :
  gzhdr_load (gzhdr_store m a h) a =
  {| gzone := gzone h mod 2 ^ 64; gzsize := gzsize h mod 2 ^ 32;
     gzsig := gzsig h mod 2 ^ 32 |}.
Proof.
  unfold gzhdr_load, gzhdr_store. f_equal.
  - rewrite !(mem_load_store_other 4 8) by lia. apply mem_load_store_same.
  - rewrite (mem_load_store_other 4 4) by lia. apply mem_load_store_same.
  - apply mem_load_store_same.
Qed.

Lemma gzhdr_load_store_other m a b h :
  a + 16 <= b \/ b + 16 <= a ->
  gzhdr_load (gzhdr_store m b h) a = gzhdr_load m a.
Proof.
  intros H. unfold gzhdr_load, gzhdr_store.
  f_equal; rewrite !mem_load_store_other; try done; lia.
Qed.

Lemma gzhdr_load_copy m a b :
  a = b \/ a + 16 <= b \/ b + 16 <= a ->
  gzhdr_load (gzhdr_store m b (gzhdr_load m a)) a = gzhdr_load m a.
Proof.
  intros [->|H]; [|by apply gzhdr_load_store_other].
  rewrite gzhdr_load_store. unfold gzhdr_load; simpl.
  pose proof (mem_load_range 8 b m). pose proof (mem_load_range 4 (b + 8) m).
  pose proof (mem_load_range 4 (b + 12) m).
  f_equal; apply Z.mod_small; done.
Qed.


#[local] Arguments wrap64 : simpl never.
#[local] Arguments wrap32 : simpl never.
#[local] Arguments rounded_size : simpl never.
#[local] Arguments residue : simpl never.
#[local] Arguments PAGE_SIZE : simpl never.
#[local] Arguments mem_store : simpl never.
#[local] Arguments mem_load : simpl never.
#[local] Arguments gzhdr_store : simpl never.
#[local] Arguments gzhdr_load : simpl never.
#[local] Arguments OSAddAtomic64 : simpl never.
#[local] Arguments SInt32 : simpl never.

Lemma wrap64_small x : 0 <= x < 2 ^ 64 -> wrap64 x = x.
Proof. apply Z.mod_small. Qed.

Lemma wrap32_small x : 0 <= x < 2 ^ 32 -> wrap32 x = x.
Proof. apply Z.mod_small. Qed.

(** The header the allocation leaves at [alloc_gzh]. *)
Lemma gzalloc_alloc_write_header cfg m owner esize gzaddr :
  0 <= owner < 2 ^ 64 -> 0 <= esize < 2 ^ 32 -> PAGE_SIZE cfg <= 2 ^ 32 ->
  0 <= gzaddr -> gzaddr + rounded_size cfg esize + PAGE_SIZE cfg < 2 ^ 64 ->
  (gzalloc_uf_mode cfg = true ->
   rounded_size cfg esize = esize + GZHEADER_SIZE \/
   esize + 2 * GZHEADER_SIZE <= rounded_size cfg esize) ->
  gzhdr_load (gzalloc_alloc_write cfg m owner esize gzaddr)
    (alloc_gzh cfg esize gzaddr) =
  {| gzone := owner; gzsize := esize; gzsig := GZALLOC_SIGNATURE |}.
Proof.
  intros Ho He Hp Hb0 Hb1 Huf.
  pose proof (PAGE_SIZE_pos cfg) as Hpp.
  pose proof (rounded_size_bounds cfg esize He Hp) as [HPb _].
  assert (HH : GZHEADER_SIZE = 16) by reflexivity.
  assert (Hhdr : forall m0 gzh,
    gzhdr_load (mem_store 4 (gzh + 12) GZALLOC_SIGNATURE
                  (mem_store 4 (gzh + 8) (wrap32 esize)
                     (mem_store 8 gzh owner m0))) gzh =
    {| gzone := owner; gzsize := esize; gzsig := GZALLOC_SIGNATURE |}).
  { intros m0 gzh.
    change (mem_store 4 (gzh + 12) GZALLOC_SIGNATURE _) with
      (gzhdr_store m0 gzh {| gzone := owner; gzsize := wrap32 esize;
                             gzsig := GZALLOC_SIGNATURE |}).
    rewrite gzhdr_load_store. simpl.
    rewrite (wrap32_small esize) by done.
    rewrite !Z.mod_small; [done | done | done | done]. }
  unfold gzalloc_alloc_write, alloc_gzhcopy.
  destruct (gzalloc_uf_mode cfg) eqn:Hm; [|apply Hhdr].
  rewrite gzhdr_load_copy; [apply Hhdr|].
  specialize (Huf eq_refl).
  unfold alloc_gzh, alloc_gzaddr. rewrite Hm.
  rewrite (wrap64_small (gzaddr + PAGE_SIZE cfg)) by lia.
  rewrite !wrap64_small by lia. lia.
Qed.

(** [gzalloc_free] looks for the header where [gzalloc_alloc] put it. *)
Lemma free_gzh_alloc_addr cfg esize gzaddr :
  0 <= esize < 2 ^ 32 -> PAGE_SIZE cfg <= 2 ^ 32 ->
  0 <= gzaddr -> gzaddr + rounded_size cfg esize + PAGE_SIZE cfg < 2 ^ 64 ->
  free_gzh cfg esize (alloc_addr cfg esize gzaddr) = alloc_gzh cfg esize gzaddr.
Proof.
  intros He Hp Hb0 Hb1.
  pose proof (PAGE_SIZE_pos cfg) as Hpp.
  pose proof (rounded_size_bounds cfg esize He Hp) as [HPb _].
  pose proof (residue_spec cfg esize He Hp) as HR.
  assert (HH : GZHEADER_SIZE = 16) by reflexivity.
  unfold free_gzh, alloc_addr, alloc_gzh, alloc_gzaddr.
  destruct (gzalloc_uf_mode cfg); [done|].
  rewrite (wrap64_small (gzaddr + residue cfg esize)) by lia.
  f_equal.
Qed.


Lemma gzalloc_alloc_va_done cfg st P kma_addr :
  0 <= P + PAGE_SIZE cfg < 2 ^ 64 ->
  (alloc_early st = true -> P + PAGE_SIZE cfg <= gzalloc_reserve_size st) ->
  exists st0 new_va,
    gzalloc_alloc_va cfg st P kma_addr =
      Done (st0, if alloc_early st then gzalloc_reserve st else kma_addr, new_va) /\
    zstats st0 = zstats st /\ vm_page_zone st0 = vm_page_zone st.
Proof.
  intros HP Hres. unfold gzalloc_alloc_va, alloc_early in *.
  destruct (negb (startup_phase_kmem st) || (vm_page_zone st =? 0)).
  - rewrite wrap64_small by done.
    destruct (Z.ltb_spec (gzalloc_reserve_size st) (P + PAGE_SIZE cfg)) as [Hlt|_].
    + specialize (Hres eq_refl). lia.
    + by eexists _, _.
  - by eexists _, _.
Qed.

Lemma gzalloc_alloc_account_done cfg st zone zstats_p z new_va zs :
  zstats st !! zstats_p = Some zs ->
  exists st', gzalloc_alloc_account cfg st zone zstats_p z new_va = Done st' /\
              kmem st' = kmem st.
Proof.
  intros Hzs. unfold gzalloc_alloc_account, zstats_deref. rewrite Hzs.
  by eexists.
Qed.

(** C3 (amended): for a tracked zone with element size [E] and either
    layout mode, a call of [gzalloc_alloc] that is not cut short by
    [Z_NOWAIT] returns a pointer [p], and the header read from [p] (at
    [p - H] in overflow mode, at [p + E] in underflow mode) has
    [gzsize = E], [gzsig = 0xABADCAFE] and, as owner, the zone when kmem is
    ready and [vm_page_zone] is set, the sentinel [GZDEADZONE] for an
    early allocation.  In underflow mode the header and its copy at the
    edge of the range must coincide or be disjoint. *)
Theorem gzalloc_alloc_header cfg st zone zstats_p flags pl kma_addr z zs :
  zones st !! zone = Some z -> z_gzalloc_tracked z = true ->
  zstats st !! zstats_p = Some zs ->
  pl = 0 \/ Z.land flags Z_NOWAIT = 0 ->
  0 <= zone < 2 ^ 64 ->
  0 <= zone_elem_size z < 2 ^ 32 -> PAGE_SIZE cfg <= 2 ^ 32 ->
  let E := zone_elem_size z in
  let P := rounded_size cfg E in
  let base := if alloc_early st then gzalloc_reserve st else kma_addr in
  0 <= base -> base + P + PAGE_SIZE cfg < 2 ^ 64 ->
  (alloc_early st = true -> P + PAGE_SIZE cfg <= gzalloc_reserve_size st) ->
  (gzalloc_uf_mode cfg = true -> P = E + GZHEADER_SIZE \/ E + 2 * GZHEADER_SIZE <= P) ->
  exists st' p,
    gzalloc_alloc cfg st zone zstats_p flags pl kma_addr = Done (st', p) /\
    p = (if gzalloc_uf_mode cfg then base + PAGE_SIZE cfg else base + residue cfg E) /\
    gzhdr_load (kmem st') (free_gzh cfg E p) =
      {| gzone := if alloc_early st then GZDEADZONE else zone;
         gzsize := E; gzsig := GZALLOC_SIGNATURE |}.
Proof.
  intros Hz Htr Hzs Hnw Hzone HE HP E P base Hb0 Hb1 Hres Huf.
  pose proof (PAGE_SIZE_pos cfg) as Hpp.
  pose proof (rounded_size_bounds cfg E HE HP) as [HPb _].
  pose proof (residue_spec cfg E HE HP) as HR.
  assert (HH : GZHEADER_SIZE = 16) by reflexivity.
  fold P in HPb, HR.
  unfold gzalloc_alloc, zone_deref. rewrite Hz. simpl. rewrite Htr. simpl.
  replace (negb (pl =? 0) && negb (Z.land flags Z_NOWAIT =? 0)) with false.
  2:{ destruct Hnw as [-> | ->]; simpl; [done|]. by rewrite andb_false_r. }
  fold E. fold P.
  set (st1 := if negb (pl =? 0) then _ else st).
  assert (Hst1 : startup_phase_kmem st1 = startup_phase_kmem st /\
                 vm_page_zone st1 = vm_page_zone st /\
                 gzalloc_reserve st1 = gzalloc_reserve st /\
                 gzalloc_reserve_size st1 = gzalloc_reserve_size st /\
                 zstats st1 = zstats st).
  { subst st1. by destruct (negb (pl =? 0)). }
  destruct Hst1 as (Hs1 & Hs2 & Hs3 & Hs4 & Hs5).
  assert (He1 : alloc_early st1 = alloc_early st).
  { unfold alloc_early. by rewrite Hs1, Hs2. }
  destruct (gzalloc_alloc_va_done cfg st1 P kma_addr) as (st0 & nv & Hva & Hzs0 & Hvp0).
  { lia. }
  { rewrite He1, Hs4. done. }
  rewrite Hva, He1, Hs3. fold base. simpl. rewrite Hs1, Hvp0, Hs2.
  set (owner := if startup_phase_kmem st && negb (vm_page_zone st =? 0) then zone else GZDEADZONE).
  destruct (gzalloc_alloc_account_done cfg
              (set_kmem st0 (gzalloc_alloc_write cfg (kmem st0) owner E base))
              zone zstats_p z nv zs) as (st' & Hacc & Hk).
  { simpl. by rewrite Hzs0, Hs5. }
  rewrite Hacc. simpl. exists st', (alloc_addr cfg E base).
  split; [done|]. split.
  - unfold alloc_addr, alloc_gzaddr. destruct (gzalloc_uf_mode cfg); rewrite wrap64_small; lia.
  - rewrite Hk. simpl. rewrite free_gzh_alloc_addr by (done || lia).
    rewrite gzalloc_alloc_write_header; try done.
    + f_equal. subst owner. unfold alloc_early.
      by destruct (startup_phase_kmem st), (vm_page_zone st =? 0).
    + subst owner. destruct (_ && _); [done|]. by vm_compute.
Qed.

(** C3, as the specification states it, fails for an allocation made
    before the VM is ready: the owner in the header is the sentinel, not
    the zone. *)
Lemma early_alloc_owner_counterexample :
  match gzalloc_alloc (Scenario.tunables false true 4)
          (Scenario.state0 false 4 64) Scenario.the_zone Scenario.the_stats
          0 0 Scenario.arena_base with
  | Done (st', p) =>
      gzone (gzhdr_load (kmem st')
               (free_gzh (Scenario.tunables false true 4) 64 p))
        ≠ Scenario.the_zone
  | _ => False
  end.
Proof. vm_compute. discriminate. Qed.

(** In underflow mode an element of 4072 bytes leaves 8 bytes between
    the header and the end of the page: the copy at the edge starts
    inside the header and overwrites its size and signature with the
    owner pointer. *)
Lemma uf_header_copy_overlap :
  let cfg := Scenario.tunables true true 4 in
  let o := Scenario.alloc1 cfg (Scenario.state0 true 4 4072) in
  gzhdr_load (kmem (Scenario.alloc_state (Scenario.state0 true 4 4072) o))
    (free_gzh cfg 4072 (Scenario.alloc_ptr o)) =
  {| gzone := Scenario.the_zone; gzsize := Scenario.the_zone; gzsig := 0 |}.
Proof. vm_compute. reflexivity. Qed.

Lemma gzalloc_alloc_header_witness :
  exists st' p,
    gzalloc_alloc (Scenario.tunables true true 4) (Scenario.state0 true 4 64)
      Scenario.the_zone Scenario.the_stats 0 0 Scenario.arena_base
      = Done (st', p) /\
    gzhdr_load (kmem st') (free_gzh (Scenario.tunables true true 4) 64 p) =
      {| gzone := Scenario.the_zone; gzsize := 64;
         gzsig := GZALLOC_SIGNATURE |}.
Proof.
  destruct (gzalloc_alloc_header (Scenario.tunables true true 4)
              (Scenario.state0 true 4 64) Scenario.the_zone
              Scenario.the_stats 0 0 Scenario.arena_base
              (Scenario.zone0 4 64)
              {| zs_mem_allocated := 0; zs_mem_freed := 0 |})
    as (st' & p & Hrun & _ & Hhdr).
  - reflexivity.
  - reflexivity.
  - reflexivity.
  - by left.
  - by vm_compute.
  - by vm_compute.
  - by vm_compute.
  - by vm_compute.
  - by vm_compute.
  - by vm_compute.
  - right. by vm_compute.
  - exists st', p. split; [exact Hrun | exact Hhdr].
Defined.

(** ** Outcomes *)

Lemma bind_Done {A B} (m : outcome A) (f : A -> outcome B) b :
  m ≫= f = Done b -> exists a, m = Done a /\ f a = Done b.
Proof. destruct m as [a|p|a]; simpl; [eauto | done | done]. Qed.


(** ** gzalloc_zone_init *)

#[local] Arguments round_page : simpl never.

(** C6: a zone passed to [gzalloc_zone_init] ends up marked tracked if
    and only if the engine is enabled and (its name matches the
    configured named zone, or [min <= E <= max]).  The zone comes as its
    constructor passes it: unmarked while the engine is disabled, and, if
    it is the zone remembered in [gztrackzone], still bearing the
    configured name.  The call returns, except that it panics with
    "gzalloc reserve exhausted" for such a tracked zone when kmem is not
    ready and the reserve cannot hold the free cache. *)
Theorem gzalloc_zone_init_tracked track cfg st z zr :
  zones st !! z = Some zr ->
  (gzalloc_mode cfg = false -> z_gzalloc_tracked zr = false) ->
  (gztrackzone st = z -> track (z_name zr) (gznamedzone cfg) = true) ->
  zone_init_post track cfg st z zr (gzalloc_zone_init track cfg st z).
Proof.
  intros Hz Hfresh Hne.
  unfold zone_init_post, gzalloc_zone_init, zone_init_expected, zone_deref.
  destruct (gzalloc_mode cfg) eqn:Hmode; simpl.
  2:{ exists zr. split; [done|]. rewrite Hfresh by done. intuition congruence. }
  rewrite Hz. simpl.
  set (E := z_elem_size zr).
  assert (Hflag : forall st0 : gzstate,
    ((z =? gztrackzone (if track (z_name zr) (gznamedzone cfg) then set_gztrackzone st z else st))
       || ((gzalloc_min cfg <=? E) && (E <=? gzalloc_max cfg))) = true <->
    true = true /\ (track (z_name zr) (gznamedzone cfg) = true \/
      gzalloc_min cfg <= zone_elem_size zr <= gzalloc_max cfg)).
  { intros _. unfold zone_elem_size. fold E.
    destruct (track (z_name zr) (gznamedzone cfg)); simpl.
    - rewrite Z.eqb_refl. simpl. tauto.
    - destruct (Z.eqb_spec z (gztrackzone st)) as [Heq|_];
        [by specialize (Hne (eq_sym Heq))|]. simpl.
      rewrite andb_true_iff, !Z.leb_le. intuition congruence. }
  specialize (Hflag st).
  set (flag := (z =? _) || _) in *.
  destruct (negb (gzfc_size cfg =? 0) && flag) eqn:Hring; simpl.
  - apply andb_true_iff in Hring as [_ Hf].
    destruct (startup_phase_kmem _) eqn:Hk; simpl.
    + eexists. rewrite lookup_insert_eq. split; [done|]. simpl. done.
    + destruct (_ <? _) eqn:Hlt.
      * apply Z.ltb_lt in Hlt. split; [done|].
        assert (Hsk : startup_phase_kmem st = false).
        { by destruct (track _ _). }
        split; [done|]. split; [by apply Hflag|].
        by destruct (track _ _).
      * eexists. simpl. rewrite lookup_insert_eq. split; [done|]. simpl. done.
  - eexists. rewrite lookup_insert_eq. split; [done|]. simpl. done.
Qed.

Lemma gzalloc_zone_init_tracked_witness :
  zone_init_post String.eqb (Scenario.tunables false true 4)
    (Scenario.fresh_state 64) Scenario.the_zone (Scenario.fresh_zone 64)
    (gzalloc_zone_init String.eqb (Scenario.tunables false true 4)
       (Scenario.fresh_state 64) Scenario.the_zone).
Proof.
  apply (gzalloc_zone_init_tracked String.eqb (Scenario.tunables false true 4)
           (Scenario.fresh_state 64) Scenario.the_zone (Scenario.fresh_zone 64)).
  - reflexivity.
  - discriminate.
  - vm_compute. discriminate.
Defined.

#[local] Arguments OSAddAtomic64 : simpl never.
#[local] Arguments SInt32 : simpl never.

Lemma round_page_nonneg cfg x : 0 <= round_page cfg x.
Proof.
  unfold round_page. apply Z.land_nonneg. left.
  unfold wrap64. apply Z.mod_pos_bound. lia.
Qed.





(** ** empty_free_cache *)

Lemma gzfc_release_zero cfg esize acc : gzfc_release cfg esize acc 0 = acc.
Proof. done. Qed.

Lemma foldl_gzfc_release_zeros cfg esize k : forall acc,
  foldl (gzfc_release cfg esize) acc (replicate k 0) = acc.
Proof. induction k as [|k IH]; intros acc; simpl; [done|]. apply IH. Qed.

Lemma gzfc_release_zones cfg esize acc a :
  zones (gzfc_release cfg esize acc a).1 = zones acc.1.
Proof. unfold gzfc_release. by destruct (_ && _). Qed.

Lemma foldl_gzfc_release_zones cfg esize l : forall acc,
  zones (foldl (gzfc_release cfg esize) acc l).1 = zones acc.1.
Proof.
  induction l as [|a l IH]; intros acc; simpl; [done|].
  by rewrite IH, gzfc_release_zones.
Qed.

(** C8: for a tracked zone, [gzalloc_empty_free_cache] returns, and a
    second call right after it returns the very state the first call
    left: it releases no range (the calls on the arena map are the
    same) and leaves [z_elems_free], [z_wired_cur], [gzalloc_freed] and
    [gzalloc_wasted] as they were, the first call having zeroed the ring
    and reset its index. *)
Theorem gzalloc_empty_free_cache_twice cfg st zone z :
  zones st !! zone = Some z -> z_gzalloc_tracked z = true ->
  (Z.to_nat (gzfc_size cfg) <= length (gzfc (gz z)))%nat ->
  exists st1,
    gzalloc_empty_free_cache cfg st zone = Done st1 /\
    gzalloc_empty_free_cache cfg st1 zone = Done st1.
Proof.
  intros Hz Htr Hlen.
  unfold gzalloc_empty_free_cache at 1. unfold zone_deref at 1 2.
  rewrite Hz. simpl. rewrite Htr. simpl.
  destruct (Nat.ltb_spec (length (gzfc (gz z))) (Z.to_nat (gzfc_size cfg))) as [?|_]; [lia|].
  set (z0 := set_gz z _).
  set (st0 := set_zones st _).
  destruct (foldl _ (st0, 0) _) as [stf n] eqn:Hfold.
  assert (Hzf : zones stf = <[zone := z0]> (zones st)).
  { change stf with (stf, n).1. rewrite <- Hfold. by rewrite foldl_gzfc_release_zones. }
  rewrite Hzf, lookup_insert_eq. simpl.
  eexists. split; [done|].
  unfold gzalloc_empty_free_cache, zone_deref. simpl.
  rewrite lookup_insert_eq. simpl. rewrite Htr. simpl.
  rewrite !length_replicate.
  destruct (Nat.ltb_spec (length (gzfc (gz z))) (Z.to_nat (gzfc_size cfg))) as [?|_]; [lia|].
  rewrite take_replicate, foldl_gzfc_release_zeros. simpl.
  rewrite lookup_insert_eq. simpl.
  rewrite !insert_insert_eq.
  unfold wrap32. rewrite Z.add_0_r, Z.sub_0_r, !Z.mod_mod by lia.
  done.
Qed.

Lemma gzalloc_empty_free_cache_twice_witness :
  let cfg := Scenario.tunables false true 4 in
  let st := Scenario.state_of (Scenario.state0 true 4 4080)
              (Scenario.alloc1_free1 cfg (Scenario.state0 true 4 4080)) in
  gzfc (gz (Scenario.zone_in st)) = [Scenario.arena_base; 0; 0; 0] /\
  exists st1,
    gzalloc_empty_free_cache cfg st Scenario.the_zone = Done st1 /\
    gzalloc_empty_free_cache cfg st1 Scenario.the_zone = Done st1.
Proof.
  split; [by vm_compute|].
  apply (gzalloc_empty_free_cache_twice (Scenario.tunables false true 4)
           (Scenario.state_of (Scenario.state0 true 4 4080)
              (Scenario.alloc1_free1 (Scenario.tunables false true 4)
                 (Scenario.state0 true 4 4080)))
           Scenario.the_zone
           (Scenario.zone_in
              (Scenario.state_of (Scenario.state0 true 4 4080)
                 (Scenario.alloc1_free1 (Scenario.tunables false true 4)
                    (Scenario.state0 true 4 4080))))).
  - vm_compute. reflexivity.
  - vm_compute. reflexivity.
  - vm_compute. lia.
Defined.

(** ** The double free scan *)

Lemma no_dfree_bind {A B} (m : outcome A) (f : A -> outcome B) :
  no_dfree_panic m -> (forall a, no_dfree_panic (f a)) ->
  no_dfree_panic (m ≫= f).
Proof.
  intros Hm Hf. destruct m as [a|p|a]; simpl.
  - apply Hf.
  - intros s i g [= ->]. by eapply Hm.
  - done.
Qed.

Lemma no_dfree_done {A} (a : A) : no_dfree_panic (Done a).
Proof. done. Qed.

Lemma no_dfree_fault {A} a : no_dfree_panic (@Fault A a).
Proof. done. Qed.

Lemma no_dfree_load cfg st n a : no_dfree_panic (load cfg st n a).
Proof. unfold load. by destruct (forallb _ _). Qed.

Lemma no_dfree_fill_scan cfg st addr n : forall gzc,
  no_dfree_panic (fill_scan cfg st addr n gzc).
Proof.
  induction n as [|n IH]; intros gzc; simpl; [done|].
  apply no_dfree_bind; [apply no_dfree_load|].
  intros c. destruct (c =? _); [apply IH | done].
Qed.

Lemma no_dfree_consistency cfg st zone esize gzh addr :
  no_dfree_panic (gzalloc_free_consistency cfg st zone esize gzh addr).
Proof.
  unfold gzalloc_free_consistency.
  apply no_dfree_bind; [apply no_dfree_load|]. intros sig.
  destruct (negb _); [done|].
  apply no_dfree_bind; [apply no_dfree_load|]. intros gzone.
  destruct (_ && _); [done|].
  apply no_dfree_bind; [apply no_dfree_load|]. intros gzsize.
  destruct (negb _); [done|].
  apply no_dfree_fill_scan.
Qed.

Lemma no_dfree_release cfg st zone zstats_p z pl saddr :
  no_dfree_panic (gzalloc_free_release cfg st zone zstats_p z pl saddr).
Proof.
  unfold gzalloc_free_release.
  apply no_dfree_bind.
  { destruct (negb _); [|done]. destruct (vm_map_protect _ _ _ _) as [st' kr].
    by destruct (negb _). }
  intros [st' free_addr]. apply no_dfree_bind.
  { destruct (negb _); [|done]. apply no_dfree_bind; [|done].
    unfold gzfc_slot. by destruct (_ !! _). }
  intros [z' free_addr']. apply no_dfree_bind.
  { unfold zstats_deref. by destruct (_ !! _). }
  intros zs. by destruct (negb _).
Qed.

(** C10: when the free cache has no capacity or the double free check
    is turned off, [gzalloc_free] validates without the scan of the ring
    and never ends in the double free panic, whatever the state and the
    address. *)
Theorem gzalloc_free_dfree_scan_gated cfg st zone zstats_p pl addr :
  gzfc_size cfg = 0 \/ gzalloc_dfree_check cfg = false ->
  no_dfree_panic (gzalloc_free cfg st zone zstats_p pl addr) /\
  forall z, gzalloc_free_validate cfg st zone z addr =
            gzalloc_free_validate_noscan cfg st zone z addr.
Proof.
  intros Hoff.
  assert (Hgate : negb (gzfc_size cfg =? 0) && gzalloc_dfree_check cfg = false).
  { destruct Hoff as [-> | ->]; [done | apply andb_false_r]. }
  assert (Hval : forall z, gzalloc_free_validate cfg st zone z addr =
            gzalloc_free_validate_noscan cfg st zone z addr).
  { intros z. unfold gzalloc_free_validate, gzalloc_free_validate_noscan.
    rewrite Hgate. simpl. done. }
  split; [|done]. clear Hgate Hoff.
  unfold gzalloc_free. apply no_dfree_bind.
  { unfold zone_deref. by destruct (_ !! _). }
  intros z. destruct (negb (z_gzalloc_tracked z)); [done|].
  apply no_dfree_bind.
  { rewrite Hval. unfold gzalloc_free_validate_noscan.
    destruct (negb _); [done|]. destruct (gzalloc_consistency_checks cfg); [|done].
    apply no_dfree_consistency. }
  intros _. apply no_dfree_bind.
  { unfold gzalloc_free_early. destruct (negb _); [done|].
    apply no_dfree_bind; [apply no_dfree_load | done]. }
  intros early. destruct early; [done|]. apply no_dfree_release.
Qed.

Lemma gzalloc_free_dfree_scan_gated_witness :
  let cfg := Scenario.tunables false true 0 in
  let st := Scenario.state_of (Scenario.state0 true 0 4080)
              (Scenario.alloc1_free1 cfg (Scenario.state0 true 0 4080)) in
  let p := Scenario.alloc_ptr (Scenario.alloc1 cfg (Scenario.state0 true 0 4080)) in
  gzalloc_dfree_check cfg = true /\
  released (gzalloc_map_calls st) = [(Scenario.arena_base, 8192)] /\
  no_dfree_panic (gzalloc_free cfg st Scenario.the_zone Scenario.the_stats 0 p) /\
  forall z, gzalloc_free_validate cfg st Scenario.the_zone z p =
            gzalloc_free_validate_noscan cfg st Scenario.the_zone z p.
Proof.
  split; [reflexivity|]. split; [by vm_compute|].
  apply (gzalloc_free_dfree_scan_gated (Scenario.tunables false true 0)).
  left. reflexivity.
Defined.

(** With no free cache the second free of a pointer faults on the header
    of the range the first free released; with a cache of four entries it
    is caught by the scan. *)
Lemma double_free_uncached_faults :
  let cfg := Scenario.tunables false true 0 in
  let st := Scenario.state_of (Scenario.state0 true 0 4080)
              (Scenario.alloc1_free1 cfg (Scenario.state0 true 0 4080)) in
  let p := Scenario.alloc_ptr (Scenario.alloc1 cfg (Scenario.state0 true 0 4080)) in
  gzalloc_free cfg st Scenario.the_zone Scenario.the_stats 0 p
    = Fault (free_gzh cfg 4080 p + 12).
Proof. by vm_compute. Qed.

Lemma double_free_cached_panics :
  let cfg := Scenario.tunables false true 4 in
  let st := Scenario.state_of (Scenario.state0 true 4 4080)
              (Scenario.alloc1_free1 cfg (Scenario.state0 true 4 4080)) in
  let p := Scenario.alloc_ptr (Scenario.alloc1 cfg (Scenario.state0 true 4 4080)) in
  gzalloc_free cfg st Scenario.the_zone Scenario.the_stats 0 p
    = Panic (PanicDoubleFree Scenario.arena_base 1 0).
Proof. by vm_compute. Qed.

(** ** Reverse lookup *)

(** C5, as the specification states it, fails: the size reported is not
    the one recorded in the header.  After an underrun has overwritten
    the size field with 100, the lookup still reports 200, the element
    size of the owner zone. *)
Lemma element_size_ignores_recorded_size :
  let cfg := Scenario.tunables false true 4 in
  let p := Scenario.alloc_ptr (Scenario.alloc1 cfg (Scenario.state0 true 4 200)) in
  gzalloc_element_size cfg Scenario.underrun p
    = Done (Some (Scenario.the_zone, 200)) /\
  gzsize (gzhdr_load (kmem Scenario.underrun) (free_gzh cfg 200 p)) = 100.
Proof. vm_compute. split; reflexivity. Qed.

(** A lookup from the middle of a 200-byte element in underflow mode
    finds the zone and its element size through the trailing copy. *)
Lemma element_size_mid_element :
  let cfg := Scenario.tunables true true 4 in
  let o := Scenario.alloc1 cfg (Scenario.state0 true 4 200) in
  gzalloc_element_size cfg (Scenario.alloc_state (Scenario.state0 true 4 200) o)
    (Scenario.alloc_ptr o + 100) = Done (Some (Scenario.the_zone, 200)).
Proof. by vm_compute. Qed.

(** A scan that stops before the end of the entry, given a unit of fuel
    per word of the entry, stopped at the first word that holds the
    signature. *)
Lemma sig_scan_found cfg st vme_end : forall n p0 p,
  vme_end <= p0 + 4 * Z.of_nat n ->
  sig_scan cfg st vme_end n p0 = Done p -> p < vme_end ->
  exists k : nat,
    p = p0 + 4 * Z.of_nat k /\
    (forall j : nat, (j < k)%nat ->
       exists w, load cfg st 4 (p0 + 4 * Z.of_nat j) = Done w /\
                 w ≠ GZALLOC_SIGNATURE) /\
    load cfg st 4 p = Done GZALLOC_SIGNATURE.
Proof.
  induction n as [|n IH]; intros p0 p Hfuel Hscan Hp; simpl in Hscan.
  - injection Hscan as <-. lia.
  - destruct (Z.ltb_spec p0 vme_end) as [Hlt|Hge]; [|injection Hscan as <-; lia].
    apply bind_Done in Hscan as (w & Hw & Hscan).
    destruct (Z.eqb_spec w GZALLOC_SIGNATURE) as [->|Hne].
    + injection Hscan as <-. exists 0%nat.
      split; [lia|]. split; [intros j Hj; lia|done].
    + destruct (IH (p0 + 4) p ltac:(lia) Hscan Hp) as (k & -> & Hbefore & Hsig).
      exists (S k). split; [lia|]. split.
      * intros [|j] Hj.
        -- exists w. by rewrite Z.add_0_r.
        -- destruct (Hbefore j ltac:(lia)) as (w' & Hw' & Hne').
           exists w'. split; [|done]. rewrite <- Hw'. f_equal. lia.
      * exact Hsig.
Qed.

(** The scan stops at the first word that holds the signature. *)
Lemma sig_scan_first cfg st vme_end (k : nat) : forall n p0,
  (k < n)%nat ->
  p0 + 4 * Z.of_nat k < vme_end ->
  (forall j : nat, (j < k)%nat ->
     exists w, load cfg st 4 (p0 + 4 * Z.of_nat j) = Done w /\
               w ≠ GZALLOC_SIGNATURE) ->
  load cfg st 4 (p0 + 4 * Z.of_nat k) = Done GZALLOC_SIGNATURE ->
  sig_scan cfg st vme_end n p0 = Done (p0 + 4 * Z.of_nat k).
Proof.
  induction k as [|k IH]; intros n p0 Hn Hlt Hbefore Hsig;
    (destruct n as [|n]; [lia|]); simpl;
    (destruct (Z.ltb_spec p0 vme_end); [|lia]).
  - rewrite Z.add_0_r in Hsig |- *. rewrite Hsig. done.
  - destruct (Hbefore 0%nat ltac:(lia)) as (w & Hw & Hne).
    rewrite Z.add_0_r in Hw. rewrite Hw. simpl.
    destruct (Z.eqb_spec w GZALLOC_SIGNATURE); [done|].
    rewrite (IH n (p0 + 4)).
    + f_equal. lia.
    + lia.
    + lia.
    + intros j Hj. destruct (Hbefore (S j) ltac:(lia)) as (w' & Hw' & Hne').
      exists w'. split; [|done]. rewrite <- Hw'. f_equal. lia.
    + rewrite <- Hsig. f_equal. lia.
Qed.

(** The fuel [gzalloc_element_size] gives the scan covers the entry. *)
Lemma sig_scan_fuel s e :
  e <= s + 4 * Z.of_nat (Z.to_nat ((e - s + 3) / 4)).
Proof.
  destruct (Z.le_gt_cases (e - s) 0) as [Hle|Hgt]; [lia|].
  pose proof (Z.div_mod (e - s + 3) 4 ltac:(lia)) as Hdm.
  pose proof (Z.mod_pos_bound (e - s + 3) 4 ltac:(lia)) as Hmb.
  assert (0 <= (e - s + 3) / 4) by (apply Z.div_pos; lia).
  lia.
Qed.

(** C5 (amended): [gzalloc_element_size] returns [FALSE] if and only if
    the engine is disabled or the address lies outside the arena range.
    It returns a zone and a size exactly when the engine is enabled, the
    address lies in the arena range and is covered by an atomic map
    entry, the header of that entry carries the signature, and the zone
    that header names is still tracked; the result is then that zone and
    the element size of that zone, the size field of the header not
    being read.  The header of the entry is, in underflow mode, the copy
    that ends where the entry ends; in the default mode, the 16 bytes
    that end with the first 4-byte word holding the signature, the words
    being read from the start of the entry in steps of 4 bytes and the
    signature found before the end of the entry. *)
Theorem gzalloc_element_size_spec cfg st a :
  (gzalloc_element_size cfg st a = Done None <->
   gzalloc_mode cfg = false \/
   kmem_range_contains (gzalloc_range st) a = false) /\
  (forall zone gzsz,
     gzalloc_element_size cfg st a = Done (Some (zone, gzsz)) <->
     gzalloc_mode cfg = true /\
     kmem_range_contains (gzalloc_range st) a = true /\
     exists gzvme gzh z,
       vm_map_lookup_entry (gzalloc_map st) a = Some gzvme /\
       vme_atomic gzvme = true /\
       (gzalloc_uf_mode cfg = true ->
        gzh = wrap64 (vme_end gzvme - GZHEADER_SIZE)) /\
       (gzalloc_uf_mode cfg = false ->
        exists k : nat,
          let p := vme_start gzvme + 4 * Z.of_nat k in
          p < vme_end gzvme /\
          (forall j : nat, (j < k)%nat ->
             exists w,
               load cfg st 4 (vme_start gzvme + 4 * Z.of_nat j) = Done w /\
               w ≠ GZALLOC_SIGNATURE) /\
          load cfg st 4 p = Done GZALLOC_SIGNATURE /\
          gzh = wrap64 (p + 4 - GZHEADER_SIZE)) /\
       load cfg st 4 (gzh + 12) = Done GZALLOC_SIGNATURE /\
       load cfg st 8 gzh = Done zone /\
       zones st !! zone = Some z /\ z_gzalloc_tracked z = true /\
       gzsz = zone_elem_size z).
Proof.
  unfold gzalloc_element_size.
  destruct (gzalloc_mode cfg && kmem_range_contains (gzalloc_range st) a) eqn:Hin.
  2:{ apply andb_false_iff in Hin. split.
      - split; [done|done].
      - intros zone gzsz. split; [done|].
        intros (Hm & Hr & _). destruct Hin; congruence. }
  apply andb_true_iff in Hin as [Hmode Hrange].
  split.
  { split; [|rewrite Hmode, Hrange; by intros [?|?]].
    intros Hr.
    destruct (vm_map_lookup_entry (gzalloc_map st) a) as [gzvme|]; [|done].
    destruct (vme_atomic gzvme); [|done]. simpl in Hr.
    apply bind_Done in Hr as (gzh & _ & Hr).
    apply bind_Done in Hr as (sig & _ & Hr).
    destruct (negb (sig =? GZALLOC_SIGNATURE)); [done|].
    apply bind_Done in Hr as (gzone & _ & Hr).
    apply bind_Done in Hr as (z & _ & Hr).
    by destruct (negb (z_gzalloc_tracked z)). }
  intros zone gzsz. split.
  - intros Hr. split; [done|]. split; [done|].
    destruct (vm_map_lookup_entry (gzalloc_map st) a) as [gzvme|]; [|done].
    destruct (vme_atomic gzvme) eqn:Hat; [|done]. simpl in Hr.
    apply bind_Done in Hr as (gzh & Hgzh & Hr).
    apply bind_Done in Hr as (sig & Hsig & Hr).
    destruct (Z.eqb_spec sig GZALLOC_SIGNATURE) as [->|]; [|done]. simpl in Hr.
    apply bind_Done in Hr as (gzone & Hgzone & Hr).
    apply bind_Done in Hr as (z & Hz & Hr).
    destruct (z_gzalloc_tracked z) eqn:Htr; [|done]. simpl in Hr.
    injection Hr as <- <-.
    unfold zone_deref in Hz. destruct (zones st !! gzone) as [z0|] eqn:Hz0; [|done].
    injection Hz as ->.
    exists gzvme, gzh, z. repeat split; try done.
    + intros Huf. rewrite Huf in Hgzh. by injection Hgzh.
    + intros Huf. rewrite Huf in Hgzh.
      apply bind_Done in Hgzh as (p & Hscan & Hgzh).
      destruct (Z.leb_spec (vme_end gzvme) p) as [|Hp]; [done|].
      injection Hgzh as <-.
      destruct (sig_scan_found cfg st (vme_end gzvme) _ _ p
                  (sig_scan_fuel (vme_start gzvme) (vme_end gzvme)) Hscan Hp)
        as (k & -> & Hbefore & Hfound).
      exists k. simpl. done.
  - intros (_ & _ & gzvme & gzh & z & Hlk & Hat & Huf & Hof & Hsig & Hgzone &
            Hz & Htr & ->).
    rewrite Hlk, Hat. simpl.
    assert (Hloc :
      (if gzalloc_uf_mode cfg
       then Done (wrap64 (vme_end gzvme - GZHEADER_SIZE))
       else
         sig_scan cfg st (vme_end gzvme)
           (Z.to_nat ((vme_end gzvme - vme_start gzvme + 3) / 4))
           (vme_start gzvme)
         ≫= λ p, if vme_end gzvme <=? p then Panic (PanicSignatureMissing a)
                 else Done (wrap64 (p + 4 - GZHEADER_SIZE))) = Done gzh).
    { destruct (gzalloc_uf_mode cfg).
      - by rewrite (Huf eq_refl).
      - destruct (Hof eq_refl) as (k & Hp & Hbefore & Hfound & ->).
        simpl in Hp, Hfound.
        rewrite (sig_scan_first cfg st (vme_end gzvme) k); try done.
        + simpl. destruct (Z.leb_spec (vme_end gzvme)
                             (vme_start gzvme + 4 * Z.of_nat k)); [lia|done].
        + pose proof (Z.div_mod (vme_end gzvme - vme_start gzvme + 3) 4
                        ltac:(lia)) as Hdm.
          pose proof (Z.mod_pos_bound (vme_end gzvme - vme_start gzvme + 3) 4
                        ltac:(lia)) as Hmb.
          lia. }
    rewrite Hloc. simpl. rewrite Hsig. simpl. rewrite Hgzone. simpl.
    unfold zone_deref. rewrite Hz. simpl. rewrite Htr. done.
Qed.

(** ** The free cache *)

Lemma ring_order_insert (ring : list Z) (i : nat) (b q : Z) (Q : list Z) :
  (i < length ring)%nat ->
  ring_order ring i = q :: Q ->
  ring !! i = Some q /\
  ring_order (<[i := b]> ring)
    (if (length ring <=? S i)%nat then 0 else S i)%nat = Q ++ [b].
Proof.
  intros Hi Hq. unfold ring_order in *.
  destruct (lookup_lt_is_Some_2 ring i Hi) as [x Hx].
  rewrite (drop_S ring x i Hx) in Hq. simpl in Hq.
  injection Hq as -> HQ. split; [done|].
  rewrite insert_take_drop by done.
  assert (Hti : length (take i ring) = i) by (rewrite length_take; lia).
  destruct (Nat.leb_spec (length ring) (S i)) as [Hle|Hlt].
  - rewrite drop_0, take_0, app_nil_r.
    rewrite drop_ge in HQ |- * by lia. simpl in HQ. by subst Q.
  - rewrite (cons_middle b), app_assoc.
    rewrite drop_app_length', take_app_length'
      by (rewrite length_app, Hti; simpl; lia).
    rewrite <- HQ. by rewrite <- app_assoc.
Qed.

Lemma load_Done cfg st n a v :
  load cfg st n a = Done v -> v = mem_load n a (kmem st).
Proof. unfold load. destruct (forallb _ _); [|done]. by intros [= <-]. Qed.

Lemma vm_map_protect_fields st s e p :
  zones (vm_map_protect st s e p).1 = zones st /\
  zstats (vm_map_protect st s e p).1 = zstats st /\
  kmem (vm_map_protect st s e p).1 = kmem st /\
  startup_phase_kmem (vm_map_protect st s e p).1 = startup_phase_kmem st /\
  gzalloc_map_calls (vm_map_protect st s e p).1 =
    gzalloc_map_calls st ++ [VmMapProtect s e p].
Proof. unfold vm_map_protect. by destruct (existsb _ _). Qed.

Lemma released_app l1 l2 : released (l1 ++ l2) = released l1 ++ released l2.
Proof. apply omap_app. Qed.

Lemma gzalloc_free_cached_step cfg st zone zstats_p pl addr z st' :
  zones st !! zone = Some z ->
  0 < gzfc_size cfg < 2 ^ 32 ->
  length (gzfc (gz z)) = Z.to_nat (gzfc_size cfg) ->
  0 <= gzfc_index (gz z) ->
  startup_phase_kmem st = true ->
  mem_load 8 (free_gzh cfg (zone_elem_size z) addr) (kmem st) ≠ GZDEADZONE ->
  gzalloc_free cfg st zone zstats_p pl addr = Done st' ->
  let i := if gzfc_size cfg <=? gzfc_index (gz z) then 0
           else gzfc_index (gz z) in
  exists z' q,
    zones st' !! zone = Some z' /\
    gzfc (gz z) !! Z.to_nat i = Some q /\
    zone_elem_size z' = zone_elem_size z /\
    gzfc (gz z') =
      <[Z.to_nat i := free_saddr cfg (zone_elem_size z) addr]> (gzfc (gz z)) /\
    gzfc_index (gz z') = i + 1 /\
    kmem st' = kmem st /\ startup_phase_kmem st' = true /\
    released (gzalloc_map_calls st') =
      released (gzalloc_map_calls st) ++
      (if q =? 0 then []
       else [(q, wrap64 (rounded_size cfg (zone_elem_size z) + PAGE_SIZE cfg))]).
Proof.
  intros Hz HN Hlen Hidx Hk Hown Hrun i.
  unfold gzalloc_free, zone_deref in Hrun. rewrite Hz in Hrun. simpl in Hrun.
  destruct (z_gzalloc_tracked z) eqn:Htr; [|done]. simpl in Hrun.
  apply bind_Done in Hrun as ([] & _ & Hrun).
  apply bind_Done in Hrun as (early & Hearly & Hrun).
  unfold gzalloc_free_early in Hearly. rewrite Hk in Hearly. simpl in Hearly.
  apply bind_Done in Hearly as (g & Hg & [= <-]).
  apply load_Done in Hg. subst g.
  destruct (Z.eqb_spec (mem_load 8 (free_gzh cfg (zone_elem_size z) addr) (kmem st))
              GZDEADZONE) as [?|_]; [done|].
  unfold gzalloc_free_release in Hrun.
  set (st1 := if negb (pl =? 0) then _ else st) in Hrun.
  assert (Hst1 : zones st1 = zones st /\ zstats st1 = zstats st /\
                 kmem st1 = kmem st /\ startup_phase_kmem st1 = startup_phase_kmem st /\
                 gzalloc_map_calls st1 = gzalloc_map_calls st).
  { subst st1. by destruct (negb (pl =? 0)). }
  destruct Hst1 as (Hz1 & Hzs1 & Hk1 & Hs1 & Hc1).
  destruct (Z.eqb_spec (gzfc_size cfg) 0) as [?|_]; [lia|]. simpl in Hrun.
  set (saddr := free_saddr cfg (zone_elem_size z) addr) in *.
  set (P := rounded_size cfg (zone_elem_size z)) in *.
  pose proof (vm_map_protect_fields st1 saddr (wrap64 (saddr + P + 1 * PAGE_SIZE cfg))
                (gzalloc_prot cfg)) as (Hz2 & Hzs2 & Hk2 & Hs2 & Hc2).
  destruct (vm_map_protect st1 saddr _ _) as [st2 kr]. simpl in *.
  destruct (negb (kr =? KERN_SUCCESS)); [done|]. simpl in Hrun.
  fold i in Hrun.
  apply bind_Done in Hrun as ([z1 q] & Hslot & Hrun).
  apply bind_Done in Hslot as (q' & Hq & [= <- <-]).
  unfold gzfc_slot in Hq.
  destruct (gzfc (gz z) !! Z.to_nat i) as [q0|] eqn:Hqi; [|done].
  injection Hq as ->.
  apply bind_Done in Hrun as (zs & _ & Hrun).
  assert (Hi : 0 <= i < gzfc_size cfg).
  { subst i. destruct (Z.leb_spec (gzfc_size cfg) (gzfc_index (gz z))); lia. }
  assert (Hw : wrap32 (i + 1) = i + 1) by (apply Z.mod_small; lia).
  destruct (Z.eqb_spec q' 0) as [->|Hq0]; simpl in Hrun; injection Hrun as <-; simpl.
  - eexists _, 0. rewrite lookup_insert_eq. simpl.
    rewrite Hk2, Hk1, Hs2, Hs1, Hc2, Hc1, Hw, released_app. simpl.
    rewrite !app_nil_r. done.
  - eexists _, q'. rewrite lookup_insert_eq. simpl.
    destruct (Z.eqb_spec q' 0) as [?|_]; [done|].
    rewrite Hk2, Hk1, Hs2, Hs1, Hc2, Hc1, Hw, !released_app. simpl.
    rewrite !app_nil_r. done.
Qed.

Lemma ring_order_length ring i : length (ring_order ring i) = length ring.
Proof.
  unfold ring_order. rewrite length_app, length_drop, length_take. lia.
Qed.

Lemma ring_order_perm ring i : ring_order ring i ≡ₚ ring.
Proof.
  unfold ring_order. rewrite Permutation_app_comm. by rewrite take_drop.
Qed.

Lemma gzalloc_free_all_queue cfg zone zstats_p pl : forall addrs st z st' Q,
  zones st !! zone = Some z ->
  0 < gzfc_size cfg < 2 ^ 32 ->
  length (gzfc (gz z)) = Z.to_nat (gzfc_size cfg) ->
  0 <= gzfc_index (gz z) ->
  ring_order (gzfc (gz z)) (gzfc_next cfg z) = Q ->
  startup_phase_kmem st = true ->
  Forall (λ a, mem_load 8 (free_gzh cfg (zone_elem_size z) a) (kmem st)
               ≠ GZDEADZONE) addrs ->
  gzalloc_free_all cfg st zone zstats_p pl addrs = Done st' ->
  let bases := free_saddr cfg (zone_elem_size z) <$> addrs in
  let sz := wrap64 (rounded_size cfg (zone_elem_size z) + PAGE_SIZE cfg) in
  exists z',
    zones st' !! zone = Some z' /\
    length (gzfc (gz z')) = Z.to_nat (gzfc_size cfg) /\
    ring_order (gzfc (gz z')) (gzfc_next cfg z')
      = drop (length addrs) (Q ++ bases) /\
    released (gzalloc_map_calls st') =
      released (gzalloc_map_calls st) ++
      ((λ b, (b, sz)) <$> filter (λ b, b ≠ 0) (take (length addrs) (Q ++ bases))).
Proof.
  induction addrs as [|addr addrs IH]; intros st z st' Q Hz HN Hlen Hidx HQ Hk Hown Hrun.
  - injection Hrun as <-. exists z. simpl. rewrite !app_nil_r. done.
  - simpl in Hrun. apply bind_Done in Hrun as (st1 & Hstep & Hrun).
    apply Forall_cons in Hown as [Hown1 Hown].
    destruct (gzalloc_free_cached_step cfg st zone zstats_p pl addr z st1
                Hz HN Hlen Hidx Hk Hown1 Hstep)
      as (z1 & q & Hz1 & Hq & HE1 & Hring1 & Hidx1 & Hk1 & Hs1 & Hrel1).
    fold (gzfc_next cfg z) in Hq, Hring1.
    assert (Hnext : (gzfc_next cfg z < length (gzfc (gz z)))%nat).
    { by apply lookup_lt_Some in Hq. }
    destruct Q as [|q0 Q].
    { apply (f_equal length) in HQ. rewrite ring_order_length in HQ.
      simpl in HQ. lia. }
    destruct (ring_order_insert (gzfc (gz z)) (gzfc_next cfg z)
                (free_saddr cfg (zone_elem_size z) addr) q0 Q Hnext HQ)
      as [Hq0 Hord].
    assert (q0 = q) as -> by congruence.
    assert (Hnext1 : gzfc_next cfg z1 =
              (if (length (gzfc (gz z)) <=? S (gzfc_next cfg z))%nat
               then 0 else S (gzfc_next cfg z))%nat).
    { unfold gzfc_next at 1. rewrite Hidx1, Hlen.
      unfold gzfc_next in *.
      set (i := if gzfc_size cfg <=? gzfc_index (gz z) then 0 else gzfc_index (gz z)) in *.
      assert (0 <= i < gzfc_size cfg).
      { subst i. destruct (Z.leb_spec (gzfc_size cfg) (gzfc_index (gz z))); lia. }
      destruct (Z.leb_spec (gzfc_size cfg) (i + 1));
        destruct (Nat.leb_spec (Z.to_nat (gzfc_size cfg)) (S (Z.to_nat i))); lia. }
    destruct (IH st1 z1 st' (Q ++ [free_saddr cfg (zone_elem_size z) addr]))
      as (z' & Hz' & Hlen' & Hord' & Hrel'); try done.
    + rewrite Hring1, length_insert. done.
    + rewrite Hidx1. unfold gzfc_next in Hnext. 
      destruct (gzfc_size cfg <=? gzfc_index (gz z)); lia.
    + rewrite Hnext1, Hring1. done.
    + rewrite HE1, Hk1. done.
    + exists z'. rewrite HE1 in *. split; [done|]. split; [done|]. split.
      * rewrite Hord'. simpl. by rewrite <- app_assoc.
      * rewrite Hrel', Hrel1. simpl. rewrite <- !app_assoc. simpl.
        rewrite filter_cons. destruct (Z.eqb_spec q 0) as [->|Hq0'].
        -- rewrite decide_False by (intros H; by apply H). done.
        -- rewrite decide_True by done. done.
Qed.


Lemma filter_nonzero_zeros (n : nat) :
  filter (λ b : Z, b ≠ 0) (replicate n 0) = [].
Proof.
  induction n as [|n IH]; [done|]. simpl.
  by rewrite filter_cons, decide_False by (intros H; by apply H).
Qed.



(** ** The fill pattern scan in underflow mode *)

(** C1: in underflow mode the scan of [gzalloc_free] does not start at
    the end of the header.  A 64-byte element is allocated and freed at
    once: the free panics on the byte at [gzh + 8], the first byte of the
    header's own size field (0x40), because [checkstart] is the header
    start plus the size of a pointer, 8 bytes short of the header
    end. *)
Theorem uf_fill_scan_starts_inside_header :
  let cfg := Scenario.tunables true true 4 in
  let st := Scenario.alloc_state (Scenario.state0 true 4 64)
              (Scenario.alloc1 cfg (Scenario.state0 true 4 64)) in
  let p := Scenario.alloc_ptr (Scenario.alloc1 cfg (Scenario.state0 true 4 64)) in
  let gzh := free_gzh cfg 64 p in
  gzalloc_free cfg st Scenario.the_zone Scenario.the_stats 0 p
    = Panic (PanicOverUnderflow (gzh + sizeof_pointer) p 64) /\
  checkstart cfg gzh p = gzh + sizeof_pointer /\
  gzh + sizeof_pointer < gzh + GZHEADER_SIZE /\
  mem_load 4 (gzh + 8) (kmem st) = 64.
Proof. vm_compute. repeat split; reflexivity. Qed.

End GzallocSpec.

(** * Properties of SOSRingIsSame *)

Module SOSRingSpec.
Import SOSRing.

(** C9: [SOSRingIsSame] compares the type of [ring1] against the
    version of [ring2].  For two rings whose names are both present and
    equal, when [SOSRingGetType(ring1)] and [SOSRingGetVersion(ring2)] are
    both non-zero and differ, the result is [false], whatever the type
    of [ring2]. *)
Theorem SOSRingIsSame_type_against_version stable type_error ring1 ring2 n v :
  SOSRingGetName ring1 = Some (Some n) ->
  SOSRingGetName ring2 = Some (Some n) ->
  SOSRingGetVersion ring2 = Some v ->
  SOSRingGetType stable type_error ring1 ≠ 0 ->
  v ≠ 0 ->
  SOSRingGetType stable type_error ring1 ≠ v ->
  SOSRingIsSame stable type_error ring1 ring2 = Some false.
Proof.
  intros Hn1 Hn2 Hv Ht Hv0 Hne. unfold SOSRingIsSame.
  rewrite Hn1, Hn2, Hv. simpl.
  rewrite !bool_decide_eq_true_2 by eauto. simpl.
  unfold CFEqualSafe. rewrite ?bool_decide_eq_true_2 by done. simpl.
  destruct (Z.eqb_spec (SOSRingGetType stable type_error ring1) 0); [done|].
  destruct (Z.eqb_spec v 0); [done|]. simpl.
  destruct (Z.eqb_spec (SOSRingGetType stable type_error ring1) v); done.
Qed.

(** Two rings of the same type 2 (here one and the same ring) are not
    the same, their version being 1. *)
Lemma SOSRingIsSame_type_against_version_witness :
  SOSRingIsSame (λ _, true) Scenario.kSOSRingTypeError
    (Scenario.ring_of_type 2) (Scenario.ring_of_type 2) = Some false.
Proof.
  apply (SOSRingIsSame_type_against_version (λ _, true)
           Scenario.kSOSRingTypeError (Scenario.ring_of_type 2)
           (Scenario.ring_of_type 2) (CFString "r") 1).
  - by vm_compute.
  - by vm_compute.
  - by vm_compute.
  - by vm_compute.
  - done.
  - by vm_compute.
Defined.

(** The type of [ring2] plays no part: rings of type 1 and version 1 are
    the same as a ring of type 1 whatever type the second ring has. *)
Lemma SOSRingIsSame_ignores_second_type :
  SOSRingIsSame (λ _, true) Scenario.kSOSRingTypeError
    (Scenario.ring_of_type 1) (Scenario.ring_of_type 5) = Some true.
Proof. by vm_compute. Qed.

End SOSRingSpec.

(** * Further properties of the allocator

    Properties of the entry points read off the code: the boot
    configuration, the reserve, the layout of a guarded element, the free
    cache and the reverse lookup. *)

Module GzallocMore.
Import Gzalloc GzallocSpec.

#[local] Arguments wrap64 : simpl never.
#[local] Arguments wrap32 : simpl never.
#[local] Arguments round_page : simpl never.
#[local] Arguments rounded_size : simpl never.
#[local] Arguments residue : simpl never.
#[local] Arguments PAGE_SIZE : simpl never.
#[local] Arguments OSAddAtomic64 : simpl never.
#[local] Arguments SInt32 : simpl never.

(** ** gzalloc_configure *)

Lemma configure_tunings_fields args g :
  g_gzalloc_mode (configure_tunings args g) = g_gzalloc_mode g /\
  g_gzalloc_min (configure_tunings args g) = g_gzalloc_min g /\
  g_gzalloc_max (configure_tunings args g) = g_gzalloc_max g /\
  g_gznamedzone (configure_tunings args g) = g_gznamedzone g.
Proof.
  unfold configure_tunings, configure_noconsistency, configure_zscale,
    configure_no_dfree_check, configure_uf_mode, configure_wp,
    configure_fc_size.
  destruct (PE_parse_boot_argn_flag args "-gzalloc_noconsistency"),
    (PE_parse_boot_argn_u32 args "gzalloc_zscale"),
    (PE_parse_boot_argn_flag args "-gzalloc_no_dfree_check"),
    (PE_parse_boot_argn_flag args "-gzalloc_uf_mode"),
    (PE_parse_boot_argn_flag args "-gzalloc_wp"),
    (PE_parse_boot_argn_u32 args "gzalloc_fc_size"); done.
Qed.

Lemma gzalloc_configure_unfold debug args stolen :
  gzalloc_configure debug args stolen =
  configure_reserve stolen
    (configure_nogzalloc_mode args
       (configure_debug debug
          (configure_gzname args
             (configure_tunings args
                (configure_gzalloc_size args
                   (configure_gzalloc_max args
                      (configure_gzalloc_min args
                         (configure_gzalloc_mode args
                            gzalloc_globals_init)))))))).
Proof. reflexivity. Qed.

Lemma PE_parse_boot_argn_u32_Some args name :
  is_Some (PE_parse_boot_argn_u32 args name) <->
  is_Some (boot_numbers args !! name).
Proof. unfold PE_parse_boot_argn_u32. apply fmap_is_Some. Qed.

(** The mode the sizing arguments leave. *)
Lemma configure_sizing_mode args :
  g_gzalloc_mode
    (configure_gzalloc_size args
       (configure_gzalloc_max args
          (configure_gzalloc_min args
             (configure_gzalloc_mode args gzalloc_globals_init)))) = true <->
  "-gzalloc_mode" ∈ boot_flags args \/
  is_Some (boot_numbers args !! "gzalloc_min") \/
  is_Some (boot_numbers args !! "gzalloc_max") \/
  is_Some (boot_numbers args !! "gzalloc_size").
Proof.
  rewrite <- !PE_parse_boot_argn_u32_Some.
  unfold configure_gzalloc_size, configure_gzalloc_max, configure_gzalloc_min,
    configure_gzalloc_mode, PE_parse_boot_argn_flag.
  destruct (PE_parse_boot_argn_u32 args "gzalloc_size") as [vs|];
    [simpl; split; [eauto 6|done]|].
  destruct (PE_parse_boot_argn_u32 args "gzalloc_max") as [vx|].
  { simpl. destruct (_ =? _); simpl; split; eauto 6. }
  destruct (PE_parse_boot_argn_u32 args "gzalloc_min") as [vn|];
    [simpl; split; [eauto 6|done]|].
  case_bool_decide; simpl; [split; [eauto|done]|].
  split; [done|]. intros [?|[[? [=]]|[[? [=]]|[? [=]]]]]. done.
Qed.

Lemma configure_step_frame debug args g :
  reserve_and_guard (configure_gzalloc_mode args g) = reserve_and_guard g /\
  reserve_and_guard (configure_gzalloc_min args g) = reserve_and_guard g /\
  reserve_and_guard (configure_gzalloc_max args g) = reserve_and_guard g /\
  reserve_and_guard (configure_gzalloc_size args g) = reserve_and_guard g /\
  reserve_and_guard (configure_fc_size args g) = reserve_and_guard g /\
  reserve_and_guard (configure_wp args g) = reserve_and_guard g /\
  reserve_and_guard (configure_no_dfree_check args g) = reserve_and_guard g /\
  reserve_and_guard (configure_zscale args g) = reserve_and_guard g /\
  reserve_and_guard (configure_noconsistency args g) = reserve_and_guard g /\
  reserve_and_guard (configure_gzname args g) = reserve_and_guard g /\
  reserve_and_guard (configure_debug debug g) = reserve_and_guard g /\
  reserve_and_guard (configure_nogzalloc_mode args g) = reserve_and_guard g.
Proof.
  unfold configure_nogzalloc_mode, configure_debug,
    configure_gzname, configure_noconsistency, configure_zscale,
    configure_no_dfree_check, configure_wp, configure_fc_size,
    configure_gzalloc_size, configure_gzalloc_max, configure_gzalloc_min,
    configure_gzalloc_mode.
  repeat split; repeat case_match; done.
Qed.

Ltac configure_frame_step debug args :=
  match goal with
  | |- context [reserve_and_guard (?f ?a ?g)] =>
      let H := fresh "H" in
      pose proof (configure_step_frame debug args g) as H;
      destruct H as (H1 & H2 & H3 & H4 & H5 & H6 & H7 & H8 & H9 & H10 & H11 & H12);
      first [rewrite H1 | rewrite H2 | rewrite H3 | rewrite H4 | rewrite H5
            | rewrite H6 | rewrite H7 | rewrite H8 | rewrite H9 | rewrite H10
            | rewrite H11 | rewrite H12];
      clear H1 H2 H3 H4 H5 H6 H7 H8 H9 H10 H11 H12
  end.

(** The reserve and the layout mode before the named step. *)
Lemma configure_frame_before_uf_mode args :
  reserve_and_guard
    (configure_wp args (configure_fc_size args
       (configure_gzalloc_size args (configure_gzalloc_max args
          (configure_gzalloc_min args
             (configure_gzalloc_mode args gzalloc_globals_init)))))) =
  (0, 0, false, KMA_GUARD_LAST).
Proof. repeat configure_frame_step false args. reflexivity. Qed.

Lemma configure_frame_after_uf_mode debug args g :
  reserve_and_guard
    (configure_nogzalloc_mode args (configure_debug debug
       (configure_gzname args (configure_noconsistency args
          (configure_zscale args (configure_no_dfree_check args g)))))) =
  reserve_and_guard g.
Proof. repeat configure_frame_step debug args. reflexivity. Qed.

Lemma configure_uf_mode_reserve args g :
  g_gzalloc_reserve (configure_uf_mode args g) = g_gzalloc_reserve g /\
  g_gzalloc_reserve_size (configure_uf_mode args g) = g_gzalloc_reserve_size g.
Proof. unfold configure_uf_mode. by case_match. Qed.

(** X1: after [gzalloc_configure] the allocator is enabled exactly when
    [-nogzalloc_mode] is absent and either the kernel is a [DEBUG] build
    or one of [-gzalloc_mode], [gzalloc_min], [gzalloc_max],
    [gzalloc_size], [gzname] is on the command line.  When it is enabled
    the reserve is the 2 MiB stolen from the pmap layer; when it is not,
    there is no reserve and the arena registers a size of 0. *)
Theorem gzalloc_configure_enabled debug args stolen zone_map_size :
  let g := gzalloc_configure debug args stolen in
  (g_gzalloc_mode g = true <->
   ("-nogzalloc_mode" ∉ boot_flags args) /\
   (debug = true \/ boot_enables args)) /\
  (g_gzalloc_mode g = true ->
   g_gzalloc_reserve g = stolen /\
   g_gzalloc_reserve_size g = GZALLOC_RESERVE_SIZE_DEFAULT) /\
  (g_gzalloc_mode g = false ->
   g_gzalloc_reserve g = 0 /\ g_gzalloc_reserve_size g = 0 /\
   gzalloc_map_size g zone_map_size = 0).
Proof.
  intros g. subst g. rewrite gzalloc_configure_unfold.
  set (g4 := configure_gzalloc_size _ _).
  pose proof (configure_sizing_mode args) as Hsz. fold g4 in Hsz.
  pose proof (configure_tunings_fields args g4) as (Ht & _).
  set (g10 := configure_tunings args g4) in *.
  assert (Hname : g_gzalloc_mode (configure_gzname args g10) = true <->
                  g_gzalloc_mode g10 = true \/
                  is_Some (boot_strings args !! "gzname")).
  { unfold configure_gzname, PE_parse_boot_argn_str.
    destruct (boot_strings args !! "gzname"); simpl.
    - split; eauto.
    - split; [eauto|]. intros [?|[? [=]]]. done. }
  set (g11 := configure_gzname args g10) in *.
  assert (Hdbg : g_gzalloc_mode (configure_debug debug g11) = true <->
                 debug = true \/ g_gzalloc_mode g11 = true).
  { unfold configure_debug. destruct debug, (g_gzalloc_mode g11) eqn:E; simpl;
      rewrite ?E; intuition congruence. }
  set (g12 := configure_debug debug g11) in *.
  assert (Hres : forall g, g_gzalloc_reserve (configure_nogzalloc_mode args g) = g_gzalloc_reserve g /\
            g_gzalloc_reserve_size (configure_nogzalloc_mode args g) = g_gzalloc_reserve_size g /\
            (g_gzalloc_mode (configure_nogzalloc_mode args g) = true <->
             ("-nogzalloc_mode" ∉ boot_flags args) /\ g_gzalloc_mode g = true)).
  { intros g. unfold configure_nogzalloc_mode, PE_parse_boot_argn_flag.
    case_bool_decide; simpl; intuition congruence. }
  destruct (Hres g12) as (Hr1 & Hr2 & Hoff).
  set (g13 := configure_nogzalloc_mode args g12) in *.
  assert (Hr0 : g_gzalloc_reserve g12 = 0 /\ g_gzalloc_reserve_size g12 = 0).
  { subst g12 g11 g10. unfold configure_tunings.
    pose proof (configure_step_frame debug args
                  (configure_gzname args
                     (configure_noconsistency args (configure_zscale args
                        (configure_no_dfree_check args
                           (configure_uf_mode args
                              (configure_wp args (configure_fc_size args g4))))))))
      as (_ & _ & _ & _ & _ & _ & _ & _ & _ & _ & Hd & _).
    pose proof (configure_step_frame debug args
                  (configure_noconsistency args (configure_zscale args
                     (configure_no_dfree_check args
                        (configure_uf_mode args
                           (configure_wp args (configure_fc_size args g4)))))))
      as (_ & _ & _ & _ & _ & _ & _ & _ & _ & Hn & _).
    pose proof (configure_step_frame debug args
                  (configure_zscale args
                     (configure_no_dfree_check args
                        (configure_uf_mode args
                           (configure_wp args (configure_fc_size args g4))))))
      as (_ & _ & _ & _ & _ & _ & _ & _ & Hc & _).
    pose proof (configure_step_frame debug args
                  (configure_no_dfree_check args
                     (configure_uf_mode args
                        (configure_wp args (configure_fc_size args g4)))))
      as (_ & _ & _ & _ & _ & _ & _ & Hz & _).
    pose proof (configure_step_frame debug args
                  (configure_uf_mode args
                     (configure_wp args (configure_fc_size args g4))))
      as (_ & _ & _ & _ & _ & _ & Hf & _).
    pose proof (configure_uf_mode_reserve args
                  (configure_wp args (configure_fc_size args g4))) as [Hu1 Hu2].
    pose proof (configure_frame_before_uf_mode args) as Hb. fold g4 in Hb.
    rewrite Hn, Hc, Hz, Hf in Hd.
    unfold reserve_and_guard in Hd, Hb.
    injection Hd as Hd1 Hd2 _ _. injection Hb as Hb1 Hb2 _ _.
    split; congruence. }
  unfold configure_reserve, gzalloc_map_size.
  destruct (g_gzalloc_mode g13) eqn:Hm; simpl; rewrite ?Hm.
  - split; [|split; [done|done]]. split; [|done]. intros _.
    destruct (proj1 Hoff eq_refl) as [Hn Hm']. split; [done|].
    apply Hdbg in Hm' as [?|Hm']; [by left|right].
    apply Hname in Hm'. rewrite Ht, Hsz in Hm'. unfold boot_enables. tauto.
  - split; [|split; [done|]].
    + split; [done|]. intros [Hn He].
      enough (false = true) by done. apply Hoff. split; [done|].
      apply Hdbg. destruct He as [Hd|He]; [by left|right].
      apply Hname. rewrite Ht, Hsz. unfold boot_enables in He. tauto.
    + intros _. rewrite Hr1, Hr2. tauto.
Qed.

(** X2: [gzalloc_configure] leaves underflow mode on exactly when
    [-gzalloc_uf_mode] is given, and the guard page flag it leaves agrees
    with the mode: [KMA_GUARD_FIRST] in underflow mode, [KMA_GUARD_LAST]
    otherwise. *)
Theorem gzalloc_configure_guard page_shift debug args stolen :
  let g := gzalloc_configure debug args stolen in
  (g_gzalloc_uf_mode g = true <-> "-gzalloc_uf_mode" ∈ boot_flags args) /\
  g_gzalloc_guard g = gzalloc_guard (tunables_of page_shift g).
Proof.
  intros g. subst g. rewrite gzalloc_configure_unfold. unfold configure_tunings.
  pose proof (configure_frame_before_uf_mode args) as H5.
  set (g5 := configure_wp _ _) in *.
  unfold reserve_and_guard in H5. injection H5 as _ _ Hu5 Hg5.
  pose proof (configure_frame_after_uf_mode debug args
                (configure_uf_mode args g5)) as Ha.
  set (g12 := configure_nogzalloc_mode _ _) in *.
  unfold reserve_and_guard in Ha. injection Ha as _ _ Hu Hg.
  assert (Hr : g_gzalloc_uf_mode (configure_reserve stolen g12) =
               g_gzalloc_uf_mode g12 /\
               g_gzalloc_guard (configure_reserve stolen g12) =
               g_gzalloc_guard g12).
  { unfold configure_reserve. by case_match. }
  destruct Hr as [Hr1 Hr2].
  unfold gzalloc_guard. simpl. rewrite Hr1, Hr2, Hu, Hg.
  unfold configure_uf_mode, PE_parse_boot_argn_flag.
  case_bool_decide; simpl; rewrite ?Hu5, ?Hg5; split; done.
Qed.

(** ** gzalloc_zone_init *)

Lemma gzalloc_zone_init_done track cfg st z zr st' :
  zones st !! z = Some zr ->
  gzalloc_mode cfg = true ->
  gzalloc_zone_init track cfg st z = Done st' ->
  let flag := zone_init_flag track cfg st z zr in
  zones st' =
    <[z := set_gz (set_z_gzalloc_tracked zr flag)
             {| gzfc_index := 0;
                gzfc := if negb (gzfc_size cfg =? 0) && flag
                        then replicate (Z.to_nat (gzfc_size cfg)) 0
                        else [] |}]> (zones st) /\
  gztrackzone st' =
    (if track (z_name zr) (gznamedzone cfg) then z else gztrackzone st) /\
  kmem st' = kmem st /\ gzalloc_map st' = gzalloc_map st /\
  gzalloc_map_calls st' = gzalloc_map_calls st /\
  zstats st' = zstats st /\
  startup_phase_kmem st' = startup_phase_kmem st.
Proof.
  intros Hz Hmode Hrun flag.
  unfold gzalloc_zone_init, zone_deref in Hrun.
  rewrite Hmode, Hz in Hrun. simpl in Hrun.
  assert (Hflag :
    (z =? gztrackzone (if track (z_name zr) (gznamedzone cfg)
                       then set_gztrackzone st z else st))
    || ((gzalloc_min cfg <=? zone_elem_size zr)
        && (zone_elem_size zr <=? gzalloc_max cfg)) = flag).
  { subst flag. unfold zone_init_flag.
    destruct (track (z_name zr) (gznamedzone cfg)); simpl; [|done].
    by rewrite Z.eqb_refl. }
  unfold zone_elem_size in *. rewrite Hflag in Hrun.
  destruct (negb (gzfc_size cfg =? 0) && flag) eqn:Hc; simpl in Hrun.
  - destruct (startup_phase_kmem _) eqn:Hk; simpl in Hrun.
    + injection Hrun as <-. simpl.
      destruct (track (z_name zr) (gznamedzone cfg)); simpl in *; rewrite ?Hk; done.
    + destruct (_ <? _); [done|]. injection Hrun as <-. simpl.
      destruct (track (z_name zr) (gznamedzone cfg)); simpl in *; rewrite ?Hk; done.
  - injection Hrun as <-. simpl.
    destruct (track (z_name zr) (gznamedzone cfg)); simpl in *; done.
Qed.

(** X3: with the allocator enabled, a call of [gzalloc_zone_init] that
    returns leaves the zone with insertion index 0 and a free cache of
    [gzfc_size] null slots when the zone is tracked and the cache is
    enabled, no cache otherwise; the name, the element size and the
    counters of the zone are untouched, and so is every other zone. *)
Theorem gzalloc_zone_init_free_cache track cfg st z zr st' :
  zones st !! z = Some zr ->
  gzalloc_mode cfg = true ->
  gzalloc_zone_init track cfg st z = Done st' ->
  (exists zr',
     zones st' !! z = Some zr' /\
     gzfc_index (gz zr') = 0 /\
     gzfc (gz zr') =
       (if z_gzalloc_tracked zr' && negb (gzfc_size cfg =? 0)
        then replicate (Z.to_nat (gzfc_size cfg)) 0 else []) /\
     z_name zr' = z_name zr /\ zone_elem_size zr' = zone_elem_size zr /\
     z_elems_free zr' = z_elems_free zr /\ z_wired_cur zr' = z_wired_cur zr /\
     z_va_cur zr' = z_va_cur zr) /\
  (forall z2, z2 ≠ z -> zones st' !! z2 = zones st !! z2).
Proof.
  intros Hz Hmode Hrun.
  destruct (gzalloc_zone_init_done track cfg st z zr st' Hz Hmode Hrun)
    as (Hzones & _).
  rewrite Hzones. split.
  - eexists. rewrite lookup_insert_eq. split; [done|]. simpl.
    by rewrite andb_comm.
  - intros z2 Hne. by rewrite lookup_insert_ne.
Qed.

Lemma gzalloc_zone_init_free_cache_witness :
  let cfg := Scenario.tunables false true 4 in
  let st := Scenario.fresh_state 4080 in
  exists zr',
    zones (Scenario.state_of st (Scenario.zone_init1 cfg st)) !! Scenario.the_zone
      = Some zr' /\
    z_gzalloc_tracked zr' = true /\
    gzfc (gz zr') = [0; 0; 0; 0] /\ gzfc_index (gz zr') = 0.
Proof.
  intros cfg st.
  destruct (gzalloc_zone_init_free_cache Scenario.no_track cfg st Scenario.the_zone
              (Scenario.fresh_zone 4080) (Scenario.state_of st (Scenario.zone_init1 cfg st)))
    as ((zr' & Hz & Hidx & Hring & _) & _).
  - vm_compute. reflexivity.
  - reflexivity.
  - vm_compute. reflexivity.
  - exists zr'. split; [exact Hz|].
    assert (Htr : z_gzalloc_tracked zr' = true).
    { vm_compute in Hz. injection Hz as <-. reflexivity. }
    rewrite Htr in Hring. split; [exact Htr|]. split; [exact Hring|exact Hidx].
Defined.

Lemma gzalloc_configure_size_fields debug args stolen n :
  boot_numbers args !! "gzalloc_size" = Some n ->
  boot_strings args !! "gzname" = None ->
  let g := gzalloc_configure debug args stolen in
  g_gzalloc_min g = wrap32 n /\ g_gzalloc_max g = wrap32 n /\
  g_gznamedzone g = "" /\
  g_gzalloc_mode g = negb (PE_parse_boot_argn_flag args "-nogzalloc_mode").
Proof.
  intros Hsize Hname g. subst g. rewrite gzalloc_configure_unfold.
  set (g3 := configure_gzalloc_max _ _).
  assert (Hn3 : g_gznamedzone g3 = "").
  { subst g3. unfold configure_gzalloc_max, configure_gzalloc_min,
      configure_gzalloc_mode.
    destruct (PE_parse_boot_argn_u32 args "gzalloc_max"),
      (PE_parse_boot_argn_u32 args "gzalloc_min"),
      (PE_parse_boot_argn_flag args "-gzalloc_mode"); simpl;
      try destruct (_ =? _); done. }
  assert (H4 : g_gzalloc_min (configure_gzalloc_size args g3) = wrap32 n /\
               g_gzalloc_max (configure_gzalloc_size args g3) = wrap32 n /\
               g_gznamedzone (configure_gzalloc_size args g3) = "" /\
               g_gzalloc_mode (configure_gzalloc_size args g3) = true).
  { unfold configure_gzalloc_size, PE_parse_boot_argn_u32. rewrite Hsize. done. }
  set (g4 := configure_gzalloc_size args g3) in *.
  destruct H4 as (Hmin & Hmax & Hnm & Hmode).
  pose proof (configure_tunings_fields args g4) as (Ht1 & Ht2 & Ht3 & Ht4).
  set (g10 := configure_tunings args g4) in *.
  unfold configure_gzname, PE_parse_boot_argn_str. rewrite Hname.
  unfold configure_debug. rewrite Ht1, Hmode, andb_false_r.
  unfold configure_nogzalloc_mode, configure_reserve.
  destruct (PE_parse_boot_argn_flag args "-nogzalloc_mode"); simpl;
    rewrite ?Ht1, ?Hmode; simpl; rewrite ?Ht1, ?Ht2, ?Ht3, ?Ht4; done.
Qed.

(** X4: booted with [gzalloc_size=n] (no [gzname], no [-nogzalloc_mode]),
    [gzalloc_zone_init] tracks a zone that is not singled out by name if
    and only if its element size is exactly [n] (as a [uint32_t]). *)
Theorem gzalloc_size_targets_exact_size track page_shift debug args stolen
    st z zr st' n :
  boot_numbers args !! "gzalloc_size" = Some n ->
  boot_strings args !! "gzname" = None ->
  "-nogzalloc_mode" ∉ boot_flags args ->
  track (z_name zr) "" = false ->
  gztrackzone st ≠ z ->
  zones st !! z = Some zr ->
  gzalloc_zone_init track
    (tunables_of page_shift (gzalloc_configure debug args stolen)) st z
    = Done st' ->
  exists zr', zones st' !! z = Some zr' /\
    (z_gzalloc_tracked zr' = true <-> zone_elem_size zr = wrap32 n).
Proof.
  intros Hsize Hname Hon Htrack Hne Hz Hrun.
  destruct (gzalloc_configure_size_fields debug args stolen n Hsize Hname)
    as (Hmin & Hmax & Hnm & Hmode).
  unfold PE_parse_boot_argn_flag in Hmode.
  rewrite bool_decide_eq_false_2 in Hmode by done. simpl in Hmode.
  destruct (gzalloc_zone_init_done track
              (tunables_of page_shift (gzalloc_configure debug args stolen))
              st z zr st' Hz Hmode Hrun)
    as (Hzones & _).
  rewrite Hzones. eexists. rewrite lookup_insert_eq. split; [done|].
  simpl. unfold zone_init_flag. simpl. rewrite Hmin, Hmax, Hnm, Htrack.
  destruct (Z.eqb_spec z (gztrackzone st)) as [?|_]; [by subst|]. simpl.
  rewrite andb_true_iff, !Z.leb_le. lia.
Qed.

Lemma gzalloc_size_targets_exact_size_witness :
  let cfg := tunables_of 12 (gzalloc_configure false Scenario.boot_size 0x100000) in
  exists zr',
    zones (Scenario.state_of (Scenario.fresh_state 4080)
             (Scenario.zone_init1 cfg (Scenario.fresh_state 4080)))
      !! Scenario.the_zone = Some zr' /\
    (z_gzalloc_tracked zr' = true <-> 4080 = wrap32 4080).
Proof.
  apply (gzalloc_size_targets_exact_size Scenario.no_track 12 false Scenario.boot_size 0x100000
           (Scenario.fresh_state 4080) Scenario.the_zone
           (Scenario.fresh_zone 4080)).
  - vm_compute. reflexivity.
  - vm_compute. reflexivity.
  - apply (bool_decide_unpack _). vm_compute. reflexivity.
  - reflexivity.
  - vm_compute. discriminate.
  - vm_compute. reflexivity.
  - vm_compute. reflexivity.
Defined.

(** ** The early reserve *)

Lemma gzalloc_free_release_frame cfg st zone zstats_p z pl saddr st' :
  gzalloc_free_release cfg st zone zstats_p z pl saddr = Done st' ->
  gzalloc_reserve st' = gzalloc_reserve st /\
  gzalloc_reserve_size st' = gzalloc_reserve_size st /\
  kmem st' = kmem st /\
  startup_phase_kmem st' = startup_phase_kmem st /\
  vm_page_zone st' = vm_page_zone st /\
  gzalloc_range st' = gzalloc_range st /\
  gztrackzone st' = gztrackzone st /\
  gzalloc_early_free st' = gzalloc_early_free st /\
  gzalloc_allocated st' = gzalloc_allocated st.
Proof.
  unfold gzalloc_free_release. intros Hrun.
  set (st1 := if negb (pl =? 0) then _ else st) in Hrun.
  assert (Hst1 : gzalloc_reserve st1 = gzalloc_reserve st /\
    gzalloc_reserve_size st1 = gzalloc_reserve_size st /\
    kmem st1 = kmem st /\ startup_phase_kmem st1 = startup_phase_kmem st /\
    vm_page_zone st1 = vm_page_zone st /\ gzalloc_range st1 = gzalloc_range st /\
    gztrackzone st1 = gztrackzone st /\
    gzalloc_early_free st1 = gzalloc_early_free st /\
    gzalloc_allocated st1 = gzalloc_allocated st).
  { subst st1. by destruct (negb (pl =? 0)). }
  apply bind_Done in Hrun as ([st2 fa] & Hprot & Hrun).
  assert (Hst2 : gzalloc_reserve st2 = gzalloc_reserve st1 /\
    gzalloc_reserve_size st2 = gzalloc_reserve_size st1 /\
    kmem st2 = kmem st1 /\ startup_phase_kmem st2 = startup_phase_kmem st1 /\
    vm_page_zone st2 = vm_page_zone st1 /\ gzalloc_range st2 = gzalloc_range st1 /\
    gztrackzone st2 = gztrackzone st1 /\
    gzalloc_early_free st2 = gzalloc_early_free st1 /\
    gzalloc_allocated st2 = gzalloc_allocated st1).
  { destruct (negb (gzfc_size cfg =? 0)); [|by injection Hprot as <- <-].
    unfold vm_map_protect in Hprot.
    destruct (existsb _ _); simpl in Hprot; [|done].
    by injection Hprot as <- <-. }
  apply bind_Done in Hrun as ([z1 fa1] & _ & Hrun).
  apply bind_Done in Hrun as (zs & _ & Hrun).
  destruct (negb (fa1 =? 0)); injection Hrun as <-; simpl;
    intuition congruence.
Qed.

Lemma gzalloc_free_frame cfg st zone zstats_p pl addr st' :
  gzalloc_free cfg st zone zstats_p pl addr = Done st' ->
  gzalloc_reserve st' = gzalloc_reserve st /\
  gzalloc_reserve_size st' = gzalloc_reserve_size st /\
  kmem st' = kmem st /\
  startup_phase_kmem st' = startup_phase_kmem st /\
  vm_page_zone st' = vm_page_zone st /\
  gzalloc_range st' = gzalloc_range st /\
  gztrackzone st' = gztrackzone st /\
  gzalloc_allocated st' = gzalloc_allocated st.
Proof.
  unfold gzalloc_free. intros Hrun.
  apply bind_Done in Hrun as (z & _ & Hrun).
  destruct (negb (z_gzalloc_tracked z)); [done|].
  apply bind_Done in Hrun as ([] & _ & Hrun).
  apply bind_Done in Hrun as (early & _ & Hrun).
  destruct early.
  - by injection Hrun as <-.
  - apply gzalloc_free_release_frame in Hrun. tauto.
Qed.

Lemma foldl_gzfc_release_frame cfg esize l : forall acc,
  let st' := (foldl (gzfc_release cfg esize) acc l).1 in
  gzalloc_reserve st' = gzalloc_reserve acc.1 /\
  gzalloc_reserve_size st' = gzalloc_reserve_size acc.1 /\
  kmem st' = kmem acc.1 /\
  startup_phase_kmem st' = startup_phase_kmem acc.1 /\
  vm_page_zone st' = vm_page_zone acc.1 /\
  gzalloc_range st' = gzalloc_range acc.1 /\
  gztrackzone st' = gztrackzone acc.1 /\
  zstats st' = zstats acc.1.
Proof.
  induction l as [|a l IH]; intros acc; simpl; [done|].
  destruct (IH (gzfc_release cfg esize acc a)) as (H1&H2&H3&H4&H5&H6&H7&H8).
  rewrite H1, H2, H3, H4, H5, H6, H7, H8.
  unfold gzfc_release. by destruct (_ && _).
Qed.

Lemma gzalloc_empty_free_cache_frame cfg st zone st' :
  gzalloc_empty_free_cache cfg st zone = Done st' ->
  gzalloc_reserve st' = gzalloc_reserve st /\
  gzalloc_reserve_size st' = gzalloc_reserve_size st /\
  kmem st' = kmem st /\
  startup_phase_kmem st' = startup_phase_kmem st /\
  vm_page_zone st' = vm_page_zone st /\
  gzalloc_range st' = gzalloc_range st /\
  gztrackzone st' = gztrackzone st /\
  zstats st' = zstats st.
Proof.
  unfold gzalloc_empty_free_cache. intros Hrun.
  apply bind_Done in Hrun as (z & _ & Hrun).
  destruct (negb (z_gzalloc_tracked z)); [done|].
  destruct (_ <? _)%nat; [done|].
  match type of Hrun with
  | context [foldl ?f ?a ?l] =>
      pose proof (foldl_gzfc_release_frame cfg (zone_elem_size
        (set_gz z {| gzfc_index := 0; gzfc := replicate (length (gzfc (gz z))) 0 |}))
        l a) as Hf;
      destruct (foldl f a l) as [stf n]
  end.
  simpl in Hf.
  apply bind_Done in Hrun as (z1 & _ & Hrun). injection Hrun as <-. simpl.
  done.
Qed.

Lemma reserve_step_refl st : reserve_ok st -> reserve_step st st.
Proof. intros H. repeat split; try apply H; lia. Qed.

Lemma reserve_step_eq st st' :
  reserve_ok st ->
  gzalloc_reserve st' = gzalloc_reserve st ->
  gzalloc_reserve_size st' = gzalloc_reserve_size st ->
  reserve_step st st'.
Proof.
  intros (H1 & H2 & H3) Hr Hs. unfold reserve_step, reserve_ok.
  rewrite Hr, Hs. lia.
Qed.

(** Carving [n] bytes off the reserve, as both early paths do. *)
Lemma reserve_carve r s n :
  0 <= r -> 0 <= s -> r + s < 2 ^ 64 -> 0 <= wrap64 n <= s ->
  0 <= wrap64 (r + n) /\ 0 <= wrap64 (s - n) /\
  wrap64 (r + n) + wrap64 (s - n) = r + s /\ r <= wrap64 (r + n).
Proof.
  intros Hr Hs Hb Hn. unfold wrap64 in *.
  assert (H1 : (r + n) mod 2 ^ 64 = r + n mod 2 ^ 64).
  { rewrite <- Zplus_mod_idemp_r. apply Z.mod_small. lia. }
  assert (H2 : (s - n) mod 2 ^ 64 = s - n mod 2 ^ 64).
  { rewrite <- Zminus_mod_idemp_r. apply Z.mod_small. lia. }
  rewrite H1, H2. lia.
Qed.

Lemma gzalloc_alloc_reserve cfg st zone zstats_p flags pl kma_addr st' p :
  reserve_ok st ->
  gzalloc_alloc cfg st zone zstats_p flags pl kma_addr = Done (st', p) ->
  reserve_step st st'.
Proof.
  intros Hok Hrun. unfold gzalloc_alloc in Hrun.
  apply bind_Done in Hrun as (z & _ & Hrun).
  destruct (negb (z_gzalloc_tracked z)); [done|].
  destruct (negb (pl =? 0) && negb (Z.land flags Z_NOWAIT =? 0)).
  { injection Hrun as <- <-. by apply reserve_step_refl. }
  set (st1 := if negb (pl =? 0) then _ else st) in Hrun.
  assert (Hst1 : gzalloc_reserve st1 = gzalloc_reserve st /\
    gzalloc_reserve_size st1 = gzalloc_reserve_size st).
  { subst st1. by destruct (negb (pl =? 0)). }
  destruct Hst1 as (Hr1 & Hs1).
  apply bind_Done in Hrun as ([[st2 gzaddr] new_va] & Hva & Hrun).
  apply bind_Done in Hrun as (st3 & Hacc & [= <- <-]).
  unfold gzalloc_alloc_account in Hacc.
  apply bind_Done in Hacc as (zs & _ & [= <-]).
  unfold gzalloc_alloc_va in Hva.
  destruct (alloc_early st1).
  - rewrite Hr1, Hs1 in Hva.
    set (n := rounded_size cfg (zone_elem_size z) + PAGE_SIZE cfg) in *.
    destruct (Z.ltb_spec (gzalloc_reserve_size st) (wrap64 n)); [done|].
    injection Hva as <- <- <-.
    destruct Hok as (H1 & H2 & H3).
    destruct (reserve_carve (gzalloc_reserve st) (gzalloc_reserve_size st) n)
      as (C1 & C2 & C3 & C4); try done.
    { pose proof (Z.mod_pos_bound n (2 ^ 64) ltac:(lia)). unfold wrap64 in *. lia. }
    unfold reserve_step, reserve_ok. simpl. rewrite ?Hr1, ?Hs1. lia.
  - injection Hva as <- <- <-. apply reserve_step_eq; simpl; try done.
Qed.

Lemma gzalloc_zone_init_reserve track cfg st z st' :
  reserve_ok st ->
  gzalloc_zone_init track cfg st z = Done st' ->
  reserve_step st st'.
Proof.
  intros Hok Hrun. unfold gzalloc_zone_init in Hrun.
  destruct (negb (gzalloc_mode cfg)).
  { injection Hrun as <-. by apply reserve_step_refl. }
  apply bind_Done in Hrun as (zr & _ & Hrun).
  set (st1 := if track _ _ then _ else st) in Hrun.
  assert (Hst1 : gzalloc_reserve st1 = gzalloc_reserve st /\
    gzalloc_reserve_size st1 = gzalloc_reserve_size st).
  { subst st1. by destruct (track _ _). }
  destruct Hst1 as (Hr1 & Hs1).
  destruct (negb (gzfc_size cfg =? 0) && _).
  - destruct (negb (startup_phase_kmem st1)).
    + rewrite Hr1, Hs1 in Hrun.
      set (n := round_page cfg (wrap64 (8 * gzfc_size cfg))) in *.
      destruct (Z.ltb_spec (gzalloc_reserve_size st) n); [done|].
      injection Hrun as <-.
      destruct Hok as (H1 & H2 & H3).
      pose proof (round_page_nonneg cfg (wrap64 (8 * gzfc_size cfg))) as Hn0.
      fold n in Hn0.
      destruct (reserve_carve (gzalloc_reserve st) (gzalloc_reserve_size st) n)
        as (C1 & C2 & C3 & C4); try done.
      { rewrite wrap64_small; lia. }
      unfold reserve_step, reserve_ok. simpl. rewrite ?Hr1, ?Hs1. lia.
    + injection Hrun as <-. apply reserve_step_eq; simpl; try done.
  - injection Hrun as <-. apply reserve_step_eq; simpl; try done.
Qed.

Lemma gz_step_reserve track cfg st st' :
  gz_step track cfg st st' -> reserve_ok st -> reserve_step st st'.
Proof.
  intros Hstep Hok. destruct Hstep as [st z st' H|st ? ? ? ? ? st' p H|st ? ? ? ? st' H|st ? st' H].
  - by eapply gzalloc_zone_init_reserve.
  - by eapply gzalloc_alloc_reserve.
  - apply gzalloc_free_frame in H as (Hr & Hs & _). by apply reserve_step_eq.
  - apply gzalloc_empty_free_cache_frame in H as (Hr & Hs & _).
    by apply reserve_step_eq.
Qed.

(** X5: the early reserve is a bump allocator.  Whatever calls of
    [gzalloc_zone_init], [gzalloc_alloc], [gzalloc_free] and
    [gzalloc_empty_free_cache] return, in whatever order, the start of
    the reserve only moves forward, its end stays where it was, and no
    call gives reserve memory back. *)
Theorem gzalloc_reserve_bump track cfg st st' :
  rtc (gz_step track cfg) st st' ->
  reserve_ok st ->
  reserve_ok st' /\
  gzalloc_reserve st <= gzalloc_reserve st' /\
  gzalloc_reserve st' + gzalloc_reserve_size st' =
    gzalloc_reserve st + gzalloc_reserve_size st.
Proof.
  induction 1 as [st|st st1 st2 Hstep _ IH]; intros Hok.
  - by apply reserve_step_refl.
  - destruct (gz_step_reserve track cfg st st1 Hstep Hok) as (Hok1 & Hle & Hsum).
    destruct (IH Hok1) as (Hok2 & Hle2 & Hsum2).
    split; [done|]. lia.
Qed.

Lemma gzalloc_reserve_bump_witness :
  let cfg := Scenario.tunables false true 4 in
  let st := Scenario.state0 false 4 4080 in
  let st' := Scenario.alloc_state st (Scenario.alloc1 cfg st) in
  reserve_ok st' /\
  gzalloc_reserve st <= gzalloc_reserve st' /\
  gzalloc_reserve st' + gzalloc_reserve_size st' =
    gzalloc_reserve st + gzalloc_reserve_size st.
Proof.
  intros cfg st st'.
  apply (gzalloc_reserve_bump Scenario.no_track cfg st st').
  - apply rtc_once.
    apply (gz_step_alloc Scenario.no_track cfg st Scenario.the_zone Scenario.the_stats
             0 0 Scenario.arena_base st'
             (Scenario.alloc_ptr (Scenario.alloc1 cfg st))).
    vm_compute. reflexivity.
  - unfold reserve_ok. simpl. vm_compute. repeat split; discriminate.
Defined.

(** ** gzalloc_empty_free_cache *)

Lemma gzfc_release_range cfg esize acc a :
  gzalloc_range (gzfc_release cfg esize acc a).1 = gzalloc_range acc.1.
Proof. unfold gzfc_release. by destruct (_ && _). Qed.

Lemma gzfc_release_spec cfg esize acc a :
  let r := gzfc_release cfg esize acc a in
  if decide (a ≠ 0 /\ kmem_range_contains (gzalloc_range acc.1) a = true) then
    released (gzalloc_map_calls r.1) =
      released (gzalloc_map_calls acc.1) ++
      [(a, wrap64 (rounded_size cfg esize + PAGE_SIZE cfg))] /\
    r.2 = acc.2 + 1 /\
    gzalloc_map r.1 = filter (λ e, vme_start e ≠ a) (gzalloc_map acc.1)
  else r = acc.
Proof.
  unfold gzfc_release.
  destruct (decide _) as [[Ha Hin]|Hn].
  - rewrite Hin. destruct (Z.eqb_spec a 0); [done|]. simpl.
    by rewrite released_app.
  - destruct (Z.eqb_spec a 0); [done|]. simpl.
    destruct (kmem_range_contains _ a); [|done]. tauto.
Qed.

Lemma foldl_gzfc_release_spec cfg esize l : forall acc,
  let r := foldl (gzfc_release cfg esize) acc l in
  let c := gzfc_cached (gzalloc_range acc.1) l in
  released (gzalloc_map_calls r.1) =
    released (gzalloc_map_calls acc.1) ++
    ((λ a, (a, wrap64 (rounded_size cfg esize + PAGE_SIZE cfg))) <$> c) /\
  r.2 = acc.2 + Z.of_nat (length c) /\
  (forall e, e ∈ gzalloc_map r.1 <-> e ∈ gzalloc_map acc.1 /\ vme_start e ∉ c).
Proof.
  induction l as [|a l IH]; intros acc; simpl.
  - rewrite app_nil_r. split; [done|]. split; [lia|].
    intros e. split; [|tauto]. intros He. split; [done|]. apply not_elem_of_nil.
  - destruct (IH (gzfc_release cfg esize acc a)) as (Hrel & Hn & Hmap).
    rewrite gzfc_release_range in Hrel, Hn, Hmap.
    rewrite Hrel, Hn. unfold gzfc_cached in *.
    pose proof (gzfc_release_spec cfg esize acc a) as Hstep. simpl in Hstep.
    destruct (decide _) as [Hq|Hq].
    + destruct Hstep as (Hr1 & Hn1 & Hm1).
      rewrite filter_cons_True by done. simpl.
      rewrite Hr1, Hn1, <- app_assoc. simpl.
      split; [done|]. split; [lia|].
      intros e. rewrite Hmap, Hm1.
      rewrite list_elem_of_filter, not_elem_of_cons. tauto.
    + rewrite Hstep in *. rewrite filter_cons_False by done.
      split; [done|]. split; [done|]. intros e. rewrite Hmap. done.
Qed.

(** What a completed [gzalloc_empty_free_cache] leaves. *)
Lemma gzalloc_empty_free_cache_done cfg st zone z st' :
  zones st !! zone = Some z ->
  gzalloc_empty_free_cache cfg st zone = Done st' ->
  let cached := gzfc_cached (gzalloc_range st)
                  (take (Z.to_nat (gzfc_size cfg)) (gzfc (gz z))) in
  let sz := wrap64 (rounded_size cfg (zone_elem_size z) + PAGE_SIZE cfg) in
  released (gzalloc_map_calls st') =
    released (gzalloc_map_calls st) ++ ((λ a, (a, sz)) <$> cached) /\
  (forall e, e ∈ gzalloc_map st' <->
             e ∈ gzalloc_map st /\ vme_start e ∉ cached) /\
  exists z', zones st' !! zone = Some z' /\
    gzfc (gz z') = replicate (length (gzfc (gz z))) 0 /\
    gzfc_index (gz z') = 0 /\
    z_elems_free z' = wrap32 (z_elems_free z + Z.of_nat (length cached)) /\
    z_wired_cur z' = wrap32 (z_wired_cur z - Z.of_nat (length cached)).
Proof.
  intros Hz Hrun cached sz.
  unfold gzalloc_empty_free_cache, zone_deref in Hrun. rewrite Hz in Hrun.
  simpl in Hrun.
  destruct (negb (z_gzalloc_tracked z)); [done|].
  destruct (_ <? _)%nat; [done|].
  set (z0 := set_gz z _) in Hrun.
  set (st0 := set_zones st _) in Hrun.
  pose proof (foldl_gzfc_release_spec cfg (zone_elem_size z0)
                (take (Z.to_nat (gzfc_size cfg)) (gzfc (gz z))) (st0, 0))
    as (Hrel & Hn & Hmap).
  pose proof (foldl_gzfc_release_zones cfg (zone_elem_size z0)
                (take (Z.to_nat (gzfc_size cfg)) (gzfc (gz z))) (st0, 0)) as Hzs.
  destruct (foldl _ (st0, 0) _) as [stf n]. simpl in Hrel, Hn, Hmap, Hzs.
  rewrite Hzs in Hrun. rewrite lookup_insert_eq in Hrun. simpl in Hrun.
  injection Hrun as <-. simpl.
  split; [exact Hrel|]. split; [exact Hmap|].
  eexists. rewrite lookup_insert_eq. split; [done|]. simpl.
  rewrite Hn. done.
Qed.

(** X6: a call of [gzalloc_empty_free_cache] that returns hands back to
    the arena exactly the ranges in the first [gzfc_size] slots of the
    free cache that are not null and lie in the arena, in slot order and
    each with [P + PAGE_SIZE] bytes; their map entries are gone and no
    other entry is; the cache is all null slots with index 0;
    [z_elems_free] has grown and [z_wired_cur] shrunk by the number of
    ranges released; memory and the zone statistics are untouched. *)
Theorem gzalloc_empty_free_cache_releases cfg st zone z st' :
  zones st !! zone = Some z ->
  gzalloc_empty_free_cache cfg st zone = Done st' ->
  let cached := gzfc_cached (gzalloc_range st)
                  (take (Z.to_nat (gzfc_size cfg)) (gzfc (gz z))) in
  let sz := wrap64 (rounded_size cfg (zone_elem_size z) + PAGE_SIZE cfg) in
  released (gzalloc_map_calls st') =
    released (gzalloc_map_calls st) ++ ((λ a, (a, sz)) <$> cached) /\
  (forall e, e ∈ gzalloc_map st' <->
             e ∈ gzalloc_map st /\ vme_start e ∉ cached) /\
  (exists z', zones st' !! zone = Some z' /\
     gzfc (gz z') = replicate (length (gzfc (gz z))) 0 /\
     gzfc_index (gz z') = 0 /\
     z_elems_free z' = wrap32 (z_elems_free z + Z.of_nat (length cached)) /\
     z_wired_cur z' = wrap32 (z_wired_cur z - Z.of_nat (length cached))) /\
  kmem st' = kmem st /\ zstats st' = zstats st.
Proof.
  intros Hz Hrun cached sz.
  destruct (gzalloc_empty_free_cache_done cfg st zone z st' Hz Hrun)
    as (Hrel & Hmap & Hzone).
  destruct (gzalloc_empty_free_cache_frame cfg st zone st' Hrun)
    as (_ & _ & Hk & _ & _ & _ & _ & Hzs).
  split; [exact Hrel|]. split; [exact Hmap|]. split; [exact Hzone|].
  split; [exact Hk|exact Hzs].
Qed.

Lemma gzalloc_empty_free_cache_releases_witness :
  let cfg := Scenario.tunables false true 4 in
  let st0 := Scenario.state0 true 4 4080 in
  let st := Scenario.state_of st0 (Scenario.alloc1_free1 cfg st0) in
  let st' := Scenario.state_of st (Scenario.empty1 cfg st) in
  released (gzalloc_map_calls st') = [(Scenario.arena_base, 8192)] /\
  gzalloc_map st' = [] /\
  z_wired_cur (Scenario.zone_in st') = 0.
Proof.
  intros cfg st0 st st'.
  destruct (gzalloc_empty_free_cache_releases cfg st Scenario.the_zone
              (Scenario.zone_in st) st')
    as (Hrel & Hmap & (z' & Hz' & _ & _ & _ & Hw) & _).
  - vm_compute. reflexivity.
  - vm_compute. reflexivity.
  - split; [exact Hrel|]. split.
    + destruct (gzalloc_map st') as [|e l] eqn:Hm; [reflexivity|].
      exfalso. destruct (proj1 (Hmap e) ltac:(left)) as [Hin Hout].
      apply Hout. vm_compute in Hin.
      apply list_elem_of_singleton in Hin. subst e. vm_compute. left.
    + unfold Scenario.zone_in. rewrite Hz'. exact Hw.
Defined.

Lemma gzalloc_free_zone cfg st zone zstats_p pl addr z st' :
  zones st !! zone = Some z ->
  gzalloc_free cfg st zone zstats_p pl addr = Done st' ->
  exists z', zones st' !! zone = Some z' /\
    zone_elem_size z' = zone_elem_size z.
Proof.
  intros Hz Hrun. unfold gzalloc_free, zone_deref in Hrun.
  rewrite Hz in Hrun. simpl in Hrun.
  destruct (negb (z_gzalloc_tracked z)); [done|].
  apply bind_Done in Hrun as ([] & _ & Hrun).
  apply bind_Done in Hrun as (early & _ & Hrun).
  destruct early.
  { injection Hrun as <-. by exists z. }
  unfold gzalloc_free_release in Hrun.
  apply bind_Done in Hrun as ([st2 fa] & _ & Hrun).
  apply bind_Done in Hrun as ([z1 fa1] & Hslot & Hrun).
  assert (Hz1 : zone_elem_size z1 = zone_elem_size z).
  { destruct (negb (gzfc_size cfg =? 0)).
    - apply bind_Done in Hslot as (q & _ & [= <- <-]). done.
    - by injection Hslot as <- <-. }
  apply bind_Done in Hrun as (zs & _ & Hrun).
  destruct (negb (fa1 =? 0)); injection Hrun as <-; simpl;
    rewrite lookup_insert_eq; by eexists.
Qed.

Lemma gzalloc_free_all_frame cfg zone zstats_p pl : forall addrs st z st',
  zones st !! zone = Some z ->
  gzalloc_free_all cfg st zone zstats_p pl addrs = Done st' ->
  gzalloc_range st' = gzalloc_range st /\
  exists z', zones st' !! zone = Some z' /\
    zone_elem_size z' = zone_elem_size z.
Proof.
  induction addrs as [|a addrs IH]; intros st z st' Hz Hrun; simpl in Hrun.
  - injection Hrun as <-. split; [done|]. by exists z.
  - apply bind_Done in Hrun as (st1 & Hstep & Hrun).
    destruct (gzalloc_free_zone _ _ _ _ _ _ _ _ Hz Hstep) as (z1 & Hz1 & HE1).
    apply gzalloc_free_frame in Hstep as (_ & _ & _ & _ & _ & Hr & _).
    destruct (IH st1 z1 st' Hz1 Hrun) as (Hr' & z' & Hz' & HE').
    split; [congruence|]. exists z'. split; [done|congruence].
Qed.

Lemma filter_Forall_iff {A} (P Q : A -> Prop) `{!forall x, Decision (P x)}
    `{!forall x, Decision (Q x)} (l : list A) :
  Forall (λ x, P x <-> Q x) l -> filter P l = filter Q l.
Proof.
  induction 1 as [|x l Hx _ IH]; [done|].
  destruct (decide (P x)) as [HP|HP].
  - rewrite !filter_cons_True by tauto. by rewrite IH.
  - rewrite !filter_cons_False by tauto. done.
Qed.

Lemma filter_Forall_id {A} (P : A -> Prop) `{!forall x, Decision (P x)}
    (l : list A) :
  Forall P l -> filter P l = l.
Proof.
  induction 1 as [|x l Hx _ IH]; [done|].
  rewrite filter_cons_True by done. by rewrite IH.
Qed.

(** X7: no range is lost in the free cache.  Starting from an empty
    cache, after any run of completed frees of guarded elements (non-null
    bases inside the arena) followed by [gzalloc_empty_free_cache], the
    ranges handed back to the arena since the start are, up to order,
    exactly the ranges freed, each once. *)
Theorem gzalloc_cache_life_cycle cfg st zone zstats_p pl addrs z st1 st2 :
  zones st !! zone = Some z ->
  0 < gzfc_size cfg < 2 ^ 32 ->
  gzfc (gz z) = replicate (Z.to_nat (gzfc_size cfg)) 0 ->
  gzfc_index (gz z) = 0 ->
  startup_phase_kmem st = true ->
  Forall (λ a, mem_load 8 (free_gzh cfg (zone_elem_size z) a) (kmem st)
               ≠ GZDEADZONE) addrs ->
  let bases := free_saddr cfg (zone_elem_size z) <$> addrs in
  let sz := wrap64 (rounded_size cfg (zone_elem_size z) + PAGE_SIZE cfg) in
  Forall (λ b, b ≠ 0 /\ kmem_range_contains (gzalloc_range st) b = true) bases ->
  gzalloc_free_all cfg st zone zstats_p pl addrs = Done st1 ->
  gzalloc_empty_free_cache cfg st1 zone = Done st2 ->
  released (gzalloc_map_calls st2) ≡ₚ
    released (gzalloc_map_calls st) ++ ((λ b, (b, sz)) <$> bases).
Proof.
  intros Hz HN Hring Hidx Hk Hown bases sz Hb Hfree Hempty.
  set (N := Z.to_nat (gzfc_size cfg)) in *.
  set (m := length addrs).
  destruct (gzalloc_free_all_queue cfg zone zstats_p pl addrs st z st1
              (replicate N 0)) as (z1 & Hz1 & Hlen1 & Hord & Hrel1); try done.
  { by rewrite Hring, length_replicate. }
  { lia. }
  { unfold gzfc_next. rewrite Hidx.
    destruct (Z.leb_spec (gzfc_size cfg) 0); [lia|].
    unfold ring_order. by rewrite drop_0, take_0, app_nil_r. }
  fold bases sz m in Hord, Hrel1.
  destruct (gzalloc_free_all_frame cfg zone zstats_p pl addrs st z st1 Hz Hfree)
    as (Hr1 & z1' & Hz1' & HE1).
  rewrite Hz1 in Hz1'. injection Hz1' as <-.
  destruct (gzalloc_empty_free_cache_done cfg st1 zone z1 st2 Hz1 Hempty)
    as (Hrel2 & _).
  rewrite HE1, Hr1 in Hrel2. fold sz N in Hrel2.
  rewrite take_ge in Hrel2 by lia.
  rewrite Hrel2, Hrel1, <- app_assoc.
  apply Permutation_app_head.
  rewrite <- fmap_app. apply fmap_Permutation.
  set (L := replicate N 0 ++ bases) in *.
  set (pr := λ a : Z, a ≠ 0 /\ kmem_range_contains (gzalloc_range st) a = true).
  assert (HL : Forall (λ x, x ≠ 0 <-> pr x) L).
  { subst L. apply Forall_app. split.
    - apply Forall_forall. intros x Hx. apply elem_of_replicate in Hx as [-> _].
      subst pr. simpl. tauto.
    - eapply Forall_impl; [exact Hb|]. intros x [Hx0 Hxr]. subst pr. simpl. tauto. }
  rewrite (filter_Forall_iff (λ b, b ≠ 0) pr (take m L))
    by (by apply Forall_take).
  assert (Hperm : gzfc_cached (gzalloc_range st) (gzfc (gz z1)) ≡ₚ
                  filter pr (drop m L)).
  { unfold gzfc_cached. fold pr. rewrite <- Hord.
    by rewrite ring_order_perm. }
  rewrite Hperm, <- filter_app, take_drop.
  subst L. rewrite filter_app.
  assert (Hz0 : filter pr (replicate N 0) = []).
  { rewrite <- (filter_Forall_iff (λ b, b ≠ 0) pr).
    - apply filter_nonzero_zeros.
    - apply Forall_forall. intros x Hx. apply elem_of_replicate in Hx as [-> _].
      subst pr. simpl. tauto. }
  rewrite Hz0. simpl.
  rewrite (filter_Forall_id pr bases) by done. done.
Qed.

Lemma gzalloc_cache_life_cycle_witness :
  let cfg := Scenario.tunables false true 2 in
  let st := Scenario.alloc3_state cfg (Scenario.state0 true 2 4080) in
  let st1 := Scenario.state_of st
               (gzalloc_free_all cfg st Scenario.the_zone Scenario.the_stats 0
                  (Scenario.alloc3_ptrs cfg (Scenario.state0 true 2 4080))) in
  let st2 := Scenario.state_of st1 (Scenario.empty1 cfg st1) in
  released (gzalloc_map_calls st2) ≡ₚ
    [(Scenario.arena_base, 8192); (Scenario.arena_base + 0x2000, 8192);
     (Scenario.arena_base + 0x4000, 8192)].
Proof.
  intros cfg st st1 st2.
  apply (gzalloc_cache_life_cycle cfg st Scenario.the_zone Scenario.the_stats 0
           (Scenario.alloc3_ptrs cfg (Scenario.state0 true 2 4080))
           (Scenario.zone_in st) st1 st2).
  - vm_compute. reflexivity.
  - vm_compute. split; reflexivity.
  - vm_compute. reflexivity.
  - vm_compute. reflexivity.
  - reflexivity.
  - let ps := eval vm_compute in
        (Scenario.alloc3_ptrs cfg (Scenario.state0 true 2 4080)) in
    change (Scenario.alloc3_ptrs cfg (Scenario.state0 true 2 4080)) with ps.
    repeat (constructor; [vm_compute; discriminate|]). constructor.
  - let bs := eval vm_compute in
        (free_saddr cfg (zone_elem_size (Scenario.zone_in st)) <$>
           Scenario.alloc3_ptrs cfg (Scenario.state0 true 2 4080)) in
    change (free_saddr cfg (zone_elem_size (Scenario.zone_in st)) <$>
              Scenario.alloc3_ptrs cfg (Scenario.state0 true 2 4080)) with bs.
    repeat (constructor; [split; [discriminate|vm_compute; reflexivity]|]).
    constructor.
  - vm_compute. reflexivity.
  - vm_compute. reflexivity.
Defined.

(** ** The layout of a guarded element *)

#[local] Arguments gzalloc_alloc_write : simpl never.
#[local] Arguments mem_store : simpl never.
#[local] Arguments mem_load : simpl never.
#[local] Arguments gzhdr_store : simpl never.
#[local] Arguments gzhdr_load : simpl never.
#[local] Arguments bzero : simpl never.

(** What a guarded (not early) allocation that returns leaves behind. *)
Lemma gzalloc_alloc_guarded cfg st zone zstats_p flags pl kma_addr z st' p :
  zones st !! zone = Some z ->
  pl = 0 \/ Z.land flags Z_NOWAIT = 0 ->
  alloc_early st = false ->
  gzalloc_alloc cfg st zone zstats_p flags pl kma_addr = Done (st', p) ->
  let E := zone_elem_size z in
  z_gzalloc_tracked z = true /\
  p = alloc_addr cfg E kma_addr /\
  kmem st' = gzalloc_alloc_write cfg
               (bzero (kmem st) kma_addr (wrap64 (rounded_size cfg E + PAGE_SIZE cfg)))
               zone E kma_addr /\
  gzalloc_map st' = alloc_entry cfg E kma_addr :: gzalloc_map st /\
  gzalloc_range st' = gzalloc_range st /\
  startup_phase_kmem st' = true /\
  (exists z', zones st' = <[zone := z']> (zones st) /\
     zone_elem_size z' = E /\ z_gzalloc_tracked z' = true /\ gz z' = gz z /\
     z_name z' = z_name z /\
     z_elems_free z' = wrap32 (z_elems_free z - 1) /\
     z_wired_cur z' = wrap32 (z_wired_cur z + 1) /\
     z_va_cur z' = wrap32 (z_va_cur z + 1) /\
     is_Some (zstats st' !! zstats_p) /\
     gzalloc_map_calls st' =
       gzalloc_map_calls st ++
       [KernelMemoryAllocate kma_addr
          (wrap64 (rounded_size cfg E + PAGE_SIZE cfg))]).
Proof.
  intros Hz Hnw Hearly Hrun E.
  unfold gzalloc_alloc, zone_deref in Hrun. rewrite Hz in Hrun. simpl in Hrun.
  destruct (z_gzalloc_tracked z) eqn:Htr; [|done]. simpl in Hrun.
  assert (Hgate : negb (pl =? 0) && negb (Z.land flags Z_NOWAIT =? 0) = false).
  { destruct Hnw as [-> | ->]; [done|]. by rewrite andb_false_r. }
  rewrite Hgate in Hrun.
  set (st1 := if negb (pl =? 0) then _ else st) in Hrun.
  assert (Hst1 : alloc_early st1 = alloc_early st /\ kmem st1 = kmem st /\
    gzalloc_map st1 = gzalloc_map st /\ gzalloc_range st1 = gzalloc_range st /\
    startup_phase_kmem st1 = startup_phase_kmem st /\
    vm_page_zone st1 = vm_page_zone st /\ zones st1 = zones st /\
    gzalloc_map_calls st1 = gzalloc_map_calls st).
  { subst st1. by destruct (negb (pl =? 0)). }
  destruct Hst1 as (He1 & Hk1 & Hm1 & Hr1 & Hs1 & Hv1 & Hz1 & Hc1).
  unfold gzalloc_alloc_va in Hrun. rewrite He1, Hearly in Hrun. simpl in Hrun.
  unfold alloc_early in Hearly. rewrite orb_false_iff, negb_false_iff in Hearly.
  destruct Hearly as [Hk Hv].
  rewrite Hs1, Hk, Hv1, Hv in Hrun. simpl in Hrun.
  unfold gzalloc_alloc_account in Hrun.
  apply bind_Done in Hrun as (st2 & Hacc & [= <- <-]).
  apply bind_Done in Hacc as (zs & _ & [= <-]). simpl.
  rewrite Hk1, Hm1, Hr1, Hs1, Hz1, Hc1.
  repeat split; try done.
  eexists. split; [done|]. simpl. rewrite lookup_insert_eq.
  repeat split; try done.
Qed.

(** The entry at the head of the map covers the whole new range. *)
Lemma lookup_alloc_entry cfg esize kma_addr map a :
  kma_addr <= a < kma_addr + wrap64 (rounded_size cfg esize + PAGE_SIZE cfg) ->
  vm_map_lookup_entry (alloc_entry cfg esize kma_addr :: map) a =
    Some (alloc_entry cfg esize kma_addr).
Proof.
  intros Ha. unfold vm_map_lookup_entry. simpl.
  destruct (Z.leb_spec kma_addr a); [|lia].
  destruct (Z.ltb_spec a (kma_addr + wrap64 (rounded_size cfg esize + PAGE_SIZE cfg))); [|lia].
  done.
Qed.

Lemma gzalloc_alloc_write_out cfg m owner esize gzaddr x :
  0 <= esize < 2 ^ 32 -> PAGE_SIZE cfg <= 2 ^ 32 ->
  0 <= gzaddr -> gzaddr + rounded_size cfg esize + PAGE_SIZE cfg < 2 ^ 64 ->
  alloc_addr cfg esize gzaddr <= x < alloc_addr cfg esize gzaddr + esize ->
  gzalloc_alloc_write cfg m owner esize gzaddr x = 0.
Proof.
  intros He Hp Hb0 Hb1 Hx.
  pose proof (PAGE_SIZE_pos cfg) as Hpp.
  pose proof (rounded_size_bounds cfg esize He Hp) as [HPb _].
  pose proof (residue_spec cfg esize He Hp) as HR.
  assert (HH : GZHEADER_SIZE = 16) by reflexivity.
  unfold gzalloc_alloc_write, alloc_gzhcopy, alloc_addr, alloc_gzh, alloc_gzaddr in *.
  destruct (gzalloc_uf_mode cfg).
  - rewrite (wrap64_small (gzaddr + PAGE_SIZE cfg)) in * by lia.
    rewrite !wrap64_small by lia.
    unfold gzhdr_store.
    rewrite !mem_store_out by (simpl; lia).
    unfold bzero.
    destruct (Z.leb_spec (gzaddr + PAGE_SIZE cfg) x); [|lia].
    destruct (Z.leb_spec (gzaddr + PAGE_SIZE cfg + rounded_size cfg esize) x); [lia|].
    done.
  - rewrite (wrap64_small (gzaddr + residue cfg esize)) in * by lia.
    rewrite !wrap64_small by lia.
    rewrite !mem_store_out by (simpl; lia).
    unfold bzero.
    destruct (Z.leb_spec gzaddr x); [|lia].
    destruct (Z.leb_spec (gzaddr + rounded_size cfg esize) x); [lia|].
    done.
Qed.

(** What any allocation that returns a pointer leaves in memory. *)
Lemma gzalloc_alloc_done cfg st zone zstats_p flags pl kma_addr z st' p :
  zones st !! zone = Some z ->
  pl = 0 \/ Z.land flags Z_NOWAIT = 0 ->
  gzalloc_alloc cfg st zone zstats_p flags pl kma_addr = Done (st', p) ->
  let E := zone_elem_size z in
  let base := if alloc_early st then gzalloc_reserve st else kma_addr in
  p = alloc_addr cfg E base /\
  (alloc_early st = true ->
   wrap64 (rounded_size cfg E + PAGE_SIZE cfg) <= gzalloc_reserve_size st) /\
  exists m0 owner, kmem st' = gzalloc_alloc_write cfg m0 owner E base.
Proof.
  intros Hz Hnw Hrun E base.
  unfold gzalloc_alloc, zone_deref in Hrun. rewrite Hz in Hrun. simpl in Hrun.
  destruct (z_gzalloc_tracked z) eqn:Htr; [|done]. simpl in Hrun.
  assert (Hgate : negb (pl =? 0) && negb (Z.land flags Z_NOWAIT =? 0) = false).
  { destruct Hnw as [-> | ->]; [done|]. by rewrite andb_false_r. }
  rewrite Hgate in Hrun.
  set (st1 := if negb (pl =? 0) then _ else st) in Hrun.
  assert (Hst1 : alloc_early st1 = alloc_early st /\
    gzalloc_reserve st1 = gzalloc_reserve st /\
    gzalloc_reserve_size st1 = gzalloc_reserve_size st).
  { subst st1. by destruct (negb (pl =? 0)). }
  destruct Hst1 as (He1 & Hr1 & Hs1).
  apply bind_Done in Hrun as ([[st2 gzaddr] new_va] & Hva & Hrun).
  apply bind_Done in Hrun as (st3 & Hacc & [= <- <-]).
  unfold gzalloc_alloc_account in Hacc.
  apply bind_Done in Hacc as (zs & _ & [= <-]). simpl.
  unfold gzalloc_alloc_va in Hva. rewrite He1, Hr1, Hs1 in Hva.
  subst base. destruct (alloc_early st).
  - fold E in Hva.
    destruct (Z.ltb_spec (gzalloc_reserve_size st)
                (wrap64 (rounded_size cfg E + PAGE_SIZE cfg))); [done|].
    injection Hva as <- <- <-. split; [done|]. split; [done|]. by eexists _, _.
  - injection Hva as <- <- <-. split; [done|]. split; [done|]. by eexists _, _.
Qed.

(** X8: every element [gzalloc_alloc] returns is zeroed: in either layout
    mode, early or guarded, the [E] bytes from the returned pointer on
    are 0, the header and its copy lying outside them.  The pointer is
    [base + PAGE_SIZE] in underflow mode and [base + P - E] otherwise. *)
Theorem gzalloc_alloc_zeroed cfg st zone zstats_p flags pl kma_addr z st' p :
  zones st !! zone = Some z ->
  pl = 0 \/ Z.land flags Z_NOWAIT = 0 ->
  0 <= zone_elem_size z < 2 ^ 32 -> PAGE_SIZE cfg <= 2 ^ 32 ->
  let E := zone_elem_size z in
  let base := if alloc_early st then gzalloc_reserve st else kma_addr in
  0 <= base -> base + rounded_size cfg E + PAGE_SIZE cfg < 2 ^ 64 ->
  gzalloc_alloc cfg st zone zstats_p flags pl kma_addr = Done (st', p) ->
  p = (if gzalloc_uf_mode cfg then base + PAGE_SIZE cfg
       else base + rounded_size cfg E - E) /\
  forall x, p <= x < p + E -> kmem st' x = 0.
Proof.
  intros Hz Hnw He Hp E base Hb0 Hb1 Hrun.
  pose proof (PAGE_SIZE_pos cfg) as Hpp.
  pose proof (rounded_size_bounds cfg E He Hp) as [HPb _].
  pose proof (residue_spec cfg E He Hp) as HR.
  assert (HH : GZHEADER_SIZE = 16) by reflexivity.
  destruct (gzalloc_alloc_done cfg st zone zstats_p flags pl kma_addr z st' p
              Hz Hnw Hrun) as (Hpa & _ & m0 & owner & Hk).
  fold E base in Hpa, Hk. split.
  - rewrite Hpa. unfold alloc_addr, alloc_gzaddr.
    destruct (gzalloc_uf_mode cfg); rewrite wrap64_small by lia; lia.
  - intros x Hx. rewrite Hk. apply gzalloc_alloc_write_out; try done.
    by rewrite <- Hpa.
Qed.

Lemma gzalloc_alloc_zeroed_witness :
  let cfg := Scenario.tunables true true 4 in
  let st := Scenario.state0 true 4 200 in
  let st' := Scenario.alloc_state st (Scenario.alloc1 cfg st) in
  let p := Scenario.alloc_ptr (Scenario.alloc1 cfg st) in
  p = Scenario.arena_base + 4096 /\
  forall x, p <= x < p + 200 -> kmem st' x = 0.
Proof.
  intros cfg st st' p.
  apply (gzalloc_alloc_zeroed cfg st Scenario.the_zone Scenario.the_stats 0 0
           Scenario.arena_base (Scenario.zone0 4 200) st' p).
  - vm_compute. reflexivity.
  - by left.
  - vm_compute. split; [discriminate|reflexivity].
  - vm_compute. discriminate.
  - vm_compute. discriminate.
  - vm_compute. reflexivity.
  - vm_compute. reflexivity.
Defined.

Lemma load1 cfg st a :
  load cfg st 1 a =
    if mem_readable cfg st a then Done (kmem st a mod 256) else Fault a.
Proof.
  unfold load. simpl. rewrite Z.add_0_r, andb_true_r.
  destruct (mem_readable cfg st a); [|done].
  f_equal. unfold mem_load. lia.
Qed.

(** X9: a guarded element lies against its guard page.  After a guarded
    allocation every byte of the element can be read (and reads 0), and a
    read of any byte of the page next to it faults: the page after the
    element's last byte in overflow mode, the page before its first byte
    in underflow mode. *)
Theorem gzalloc_alloc_guard_page cfg st zone zstats_p flags pl kma_addr z st' p :
  zones st !! zone = Some z ->
  pl = 0 \/ Z.land flags Z_NOWAIT = 0 ->
  alloc_early st = false ->
  0 <= zone_elem_size z < 2 ^ 32 -> PAGE_SIZE cfg <= 2 ^ 32 ->
  let E := zone_elem_size z in
  let P := rounded_size cfg E in
  min_address (gzalloc_range st) <= kma_addr ->
  kma_addr + P + PAGE_SIZE cfg <= max_address (gzalloc_range st) ->
  0 <= kma_addr -> kma_addr + P + PAGE_SIZE cfg < 2 ^ 64 ->
  gzalloc_alloc cfg st zone zstats_p flags pl kma_addr = Done (st', p) ->
  (forall a, p <= a < p + E -> load cfg st' 1 a = Done 0) /\
  (forall a,
     (if gzalloc_uf_mode cfg then p - PAGE_SIZE cfg <= a < p
      else p + E <= a < p + E + PAGE_SIZE cfg) ->
     load cfg st' 1 a = Fault a).
Proof.
  intros Hz Hnw Hearly He Hp E P Hr0 Hr1 Hb0 Hb1 Hrun.
  pose proof (PAGE_SIZE_pos cfg) as Hpp.
  pose proof (rounded_size_bounds cfg E He Hp) as [HPb _].
  pose proof (residue_spec cfg E He Hp) as HR.
  assert (HH : GZHEADER_SIZE = 16) by reflexivity.
  destruct (gzalloc_alloc_guarded cfg st zone zstats_p flags pl kma_addr z st' p
              Hz Hnw Hearly Hrun) as (_ & Hpa & Hk & Hm & Hrg & _).
  fold E P in Hpa, Hk, Hm.
  assert (Hsz : wrap64 (P + PAGE_SIZE cfg) = P + PAGE_SIZE cfg)
    by (apply wrap64_small; lia).
  assert (Hpv : p = if gzalloc_uf_mode cfg then kma_addr + PAGE_SIZE cfg
                    else kma_addr + P - E).
  { rewrite Hpa. unfold alloc_addr, alloc_gzaddr.
    destruct (gzalloc_uf_mode cfg); rewrite wrap64_small by lia; lia. }
  assert (Hrd : forall a, kma_addr <= a < kma_addr + P + PAGE_SIZE cfg ->
    mem_readable cfg st' a =
      if gzalloc_uf_mode cfg then kma_addr + PAGE_SIZE cfg <=? a
      else a <? kma_addr + P).
  { intros a Ha. unfold mem_readable, kmem_range_contains. rewrite Hrg.
    destruct (Z.leb_spec (min_address (gzalloc_range st)) a); [|lia].
    destruct (Z.ltb_spec a (max_address (gzalloc_range st))); [|lia].
    simpl. rewrite Hm, lookup_alloc_entry by (fold E P; lia).
    unfold vme_readable, alloc_entry, gzalloc_guard. simpl. fold E P.
    rewrite Hsz. destruct (gzalloc_uf_mode cfg); simpl; [done|].
    f_equal. lia. }
  split.
  - intros a Ha. rewrite load1, Hrd.
    + rewrite Hk, gzalloc_alloc_write_out; try done; [|by rewrite <- Hpa].
      destruct (gzalloc_uf_mode cfg).
      * destruct (Z.leb_spec (kma_addr + PAGE_SIZE cfg) a); [done|lia].
      * destruct (Z.ltb_spec a (kma_addr + P)); [done|lia].
    + destruct (gzalloc_uf_mode cfg); lia.
  - intros a Ha. rewrite load1, Hrd.
    + destruct (gzalloc_uf_mode cfg).
      * destruct (Z.leb_spec (kma_addr + PAGE_SIZE cfg) a); [lia|done].
      * destruct (Z.ltb_spec a (kma_addr + P)); [lia|done].
    + destruct (gzalloc_uf_mode cfg); lia.
Qed.

Lemma gzalloc_alloc_guard_page_witness :
  let cfg := Scenario.tunables false true 4 in
  let st := Scenario.state0 true 4 200 in
  let st' := Scenario.alloc_state st (Scenario.alloc1 cfg st) in
  let p := Scenario.alloc_ptr (Scenario.alloc1 cfg st) in
  (forall a, p <= a < p + 200 -> load cfg st' 1 a = Done 0) /\
  (forall a, p + 200 <= a < p + 200 + 4096 -> load cfg st' 1 a = Fault a).
Proof.
  intros cfg st st' p.
  apply (gzalloc_alloc_guard_page cfg st Scenario.the_zone Scenario.the_stats
           0 0 Scenario.arena_base (Scenario.zone0 4 200) st' p).
  - vm_compute. reflexivity.
  - by left.
  - reflexivity.
  - vm_compute. split; [discriminate|reflexivity].
  - vm_compute. discriminate.
  - vm_compute. discriminate.
  - vm_compute. discriminate.
  - vm_compute. discriminate.
  - vm_compute. reflexivity.
  - vm_compute. reflexivity.
Defined.

Lemma land_PAGE_MASK cfg x : Z.land x (PAGE_MASK cfg) = x mod PAGE_SIZE cfg.
Proof.
  unfold PAGE_MASK, PAGE_SIZE.
  replace (2 ^ Z.of_N (PAGE_SHIFT cfg) - 1) with (Z.ones (Z.of_N (PAGE_SHIFT cfg)))
    by (rewrite Z.ones_equiv; lia).
  apply Z.land_ones. lia.
Qed.

Lemma load_readable cfg st n a :
  (forall i, 0 <= i < Z.of_nat n -> mem_readable cfg st (a + i) = true) ->
  load cfg st n a = Done (mem_load n a (kmem st)).
Proof.
  intros Hr. unfold load.
  replace (forallb _ _) with true; [done|].
  symmetry. apply forallb_forall. intros i Hi. apply in_seq in Hi.
  apply Hr. lia.
Qed.

(** Reads inside the usable pages of a fresh overflow-mode range. *)
Lemma guarded_readable cfg st st' E kma_addr a :
  gzalloc_map st' = alloc_entry cfg E kma_addr :: gzalloc_map st ->
  gzalloc_uf_mode cfg = false ->
  0 <= rounded_size cfg E -> rounded_size cfg E + PAGE_SIZE cfg < 2 ^ 64 ->
  kma_addr <= a < kma_addr + rounded_size cfg E ->
  mem_readable cfg st' a = true.
Proof.
  intros Hm Huf HP0 HP1 Ha. pose proof (PAGE_SIZE_pos cfg) as Hpp.
  unfold mem_readable. destruct (kmem_range_contains _ _); [|done].
  rewrite Hm, lookup_alloc_entry
    by (rewrite wrap64_small by lia; lia).
  unfold vme_readable, alloc_entry, gzalloc_guard. simpl. rewrite Huf. simpl.
  rewrite wrap64_small by lia.
  destruct (Z.ltb_spec a (kma_addr + (rounded_size cfg E + PAGE_SIZE cfg) - PAGE_SIZE cfg)); [done|lia].
Qed.

(** X10: nothing writes the fill pattern [gzalloc_free] looks for.  In
    overflow mode with the consistency checks on, when the element leaves
    room between the start of its page and the header
    ([H < P - E < PAGE_SIZE]), the free of a guarded element that has just
    been allocated passes the double free scan and then panics on the
    first byte of the range, which [gzalloc_alloc] zeroed. *)
Theorem gzalloc_free_fresh_fill_panics
    cfg st zone zstats_p flags pl kma_addr z st' p pl' :
  zones st !! zone = Some z ->
  pl = 0 \/ Z.land flags Z_NOWAIT = 0 ->
  alloc_early st = false ->
  gzalloc_uf_mode cfg = false -> gzalloc_consistency_checks cfg = true ->
  0 <= zone < 2 ^ 64 ->
  0 <= zone_elem_size z < 2 ^ 32 -> PAGE_SIZE cfg <= 2 ^ 32 ->
  let E := zone_elem_size z in
  let P := rounded_size cfg E in
  GZHEADER_SIZE < P - E < PAGE_SIZE cfg ->
  0 <= kma_addr -> kma_addr + P + PAGE_SIZE cfg < 2 ^ 64 ->
  kma_addr mod PAGE_SIZE cfg = 0 ->
  gzalloc_alloc cfg st zone zstats_p flags pl kma_addr = Done (st', p) ->
  gzalloc_free cfg st' zone zstats_p pl' p =
    (gzalloc_free_dfree_scan cfg z kma_addr ≫= λ _,
     Panic (PanicOverUnderflow kma_addr p 0)).
Proof.
  intros Hz Hnw Hearly Huf Hcc Hzone He Hp E P Hres Hb0 Hb1 Hal Hrun.
  pose proof (PAGE_SIZE_pos cfg) as Hpp.
  pose proof (rounded_size_bounds cfg E He Hp) as [HPb _].
  pose proof (residue_spec cfg E He Hp) as HR.
  assert (HH : GZHEADER_SIZE = 16) by reflexivity.
  destruct (gzalloc_alloc_guarded cfg st zone zstats_p flags pl kma_addr z st' p
              Hz Hnw Hearly Hrun)
    as (Htr & Hpa & Hk & Hm & Hrg & Hs & z' & Hzs & HE' & Htr' & Hgz & _).
  fold E P in Hpa, Hk, Hm, HE', HR.
  assert (Hpv : p = kma_addr + P - E).
  { rewrite Hpa. unfold alloc_addr. rewrite Huf, wrap64_small by lia. lia. }
  assert (Hgzh : free_gzh cfg E p = kma_addr + P - E - 16).
  { unfold free_gzh. rewrite Huf, wrap64_small by lia. lia. }
  assert (Hsaddr : free_saddr cfg E p = kma_addr).
  { unfold free_saddr. rewrite Huf, HR, wrap64_small by lia. lia. }
  assert (Hhdr : gzhdr_load (kmem st') (free_gzh cfg E p) =
    {| gzone := zone; gzsize := E; gzsig := GZALLOC_SIGNATURE |}).
  { rewrite Hk, Hpa, free_gzh_alloc_addr by (done || lia).
    apply gzalloc_alloc_write_header; try done. by rewrite Huf. }
  rewrite Hgzh in Hhdr. unfold gzhdr_load in Hhdr.
  injection Hhdr as Hgzone Hgzsize Hgzsig.
  assert (Hrd : forall a, kma_addr <= a < kma_addr + P -> mem_readable cfg st' a = true).
  { intros a Ha. eapply guarded_readable; try done; fold E P; lia. }
  unfold gzalloc_free, zone_deref. rewrite Hzs, lookup_insert_eq. simpl.
  rewrite Htr'. simpl. rewrite HE'.
  unfold gzalloc_free_validate. rewrite HE', Hsaddr, Hgzh, land_PAGE_MASK, Hal.
  simpl. rewrite Hgz. fold (gzalloc_free_dfree_scan cfg z kma_addr).
  destruct (gzalloc_free_dfree_scan cfg z kma_addr) as [[]| |]; simpl; [|done|done].
  rewrite Hcc. unfold gzalloc_free_consistency.
  rewrite (load_readable cfg st' 4 (kma_addr + P - E - 16 + 12))
    by (intros; apply Hrd; simpl in *; lia).
  rewrite Hgzsig. simpl.
  rewrite (load_readable cfg st' 8 (kma_addr + P - E - 16))
    by (intros; apply Hrd; simpl in *; lia).
  rewrite Hgzone. simpl. rewrite Z.eqb_refl. simpl.
  rewrite (load_readable cfg st' 4 (kma_addr + P - E - 16 + 8))
    by (intros; apply Hrd; simpl in *; lia).
  rewrite Hgzsize. simpl. rewrite Z.eqb_refl. simpl.
  unfold checkstart, checkend. rewrite Huf.
  assert (Htp : trunc_page_64 cfg p = kma_addr).
  { rewrite trunc_page_64_spec by lia.
    apply Z.mod_divide in Hal as [q Hq]; [|lia].
    rewrite Hpv, Hq.
    replace (q * PAGE_SIZE cfg + P - E) with ((P - E) + q * PAGE_SIZE cfg) by lia.
    rewrite Z.div_add, Z.div_small by lia. lia. }
  rewrite Htp.
  destruct (Z.to_nat (kma_addr + P - E - 16 - kma_addr)) as [|n] eqn:Hn; [lia|].
  simpl. rewrite load1, Hrd by lia. simpl.
  assert (Hzero : kmem st' kma_addr = 0).
  { rewrite Hk. unfold gzalloc_alloc_write, alloc_gzhcopy, alloc_gzh, alloc_gzaddr.
    rewrite Huf. fold E P. rewrite HR, wrap64_small by lia.
    rewrite !mem_store_out by (simpl; lia).
    unfold bzero.
    destruct (Z.leb_spec kma_addr kma_addr); [|lia].
    destruct (Z.leb_spec (kma_addr + P) kma_addr); [lia|]. done. }
  rewrite Hzero. done.
Qed.

Lemma gzalloc_free_fresh_fill_panics_witness :
  let cfg := Scenario.tunables false true 4 in
  let st := Scenario.state0 true 4 200 in
  Scenario.alloc1_free1 cfg st =
    Panic (PanicOverUnderflow Scenario.arena_base
             (Scenario.alloc_ptr (Scenario.alloc1 cfg st)) 0).
Proof.
  intros cfg st.
  assert (Hscan : gzalloc_free_dfree_scan cfg (Scenario.zone0 4 200)
                    Scenario.arena_base = Done ()) by (vm_compute; reflexivity).
  unfold Scenario.alloc1_free1.
  rewrite (gzalloc_free_fresh_fill_panics cfg st Scenario.the_zone
             Scenario.the_stats 0 0 Scenario.arena_base (Scenario.zone0 4 200)
             (Scenario.alloc_state st (Scenario.alloc1 cfg st))
             (Scenario.alloc_ptr (Scenario.alloc1 cfg st)) 0).
  - rewrite Hscan. reflexivity.
  - vm_compute. reflexivity.
  - by left.
  - reflexivity.
  - reflexivity.
  - reflexivity.
  - vm_compute. split; [discriminate|reflexivity].
  - vm_compute. split; [discriminate|reflexivity].
  - vm_compute. discriminate.
  - vm_compute. split; reflexivity.
  - vm_compute. discriminate.
  - vm_compute. reflexivity.
  - vm_compute. reflexivity.
  - vm_compute. reflexivity.
Defined.

(** ** The reverse lookup of a fresh element *)




Lemma mem_load_app n1 n2 : forall a m,
  mem_load (n1 + n2) a m =
    mem_load n1 a m + 256 ^ Z.of_nat n1 * mem_load n2 (a + Z.of_nat n1) m.
Proof.
  induction n1 as [|n1 IH]; intros a m.
  - simpl. rewrite Z.add_0_r. unfold mem_load at 2. lia.
  - change (mem_load (S n1 + n2) a m) with
      (m a mod 256 + 256 * mem_load (n1 + n2) (a + 1) m).
    change (mem_load (S n1) a m) with (m a mod 256 + 256 * mem_load n1 (a + 1) m).
    rewrite IH, Nat2Z.inj_succ, Z.pow_succ_r by lia.
    replace (a + 1 + Z.of_nat n1) with (a + Z.succ (Z.of_nat n1)) by lia.
    lia.
Qed.



(** Reads inside the usable pages of a fresh underflow-mode range. *)
Lemma guarded_readable_uf cfg st st' E kma_addr a :
  gzalloc_map st' = alloc_entry cfg E kma_addr :: gzalloc_map st ->
  gzalloc_uf_mode cfg = true ->
  0 <= rounded_size cfg E -> rounded_size cfg E + PAGE_SIZE cfg < 2 ^ 64 ->
  kma_addr + PAGE_SIZE cfg <= a < kma_addr + PAGE_SIZE cfg + rounded_size cfg E ->
  mem_readable cfg st' a = true.
Proof.
  intros Hm Huf HP0 HP1 Ha. pose proof (PAGE_SIZE_pos cfg) as Hpp.
  unfold mem_readable. destruct (kmem_range_contains _ _); [|done].
  rewrite Hm, lookup_alloc_entry
    by (rewrite wrap64_small by lia; lia).
  unfold vme_readable, alloc_entry, gzalloc_guard. simpl. rewrite Huf. simpl.
  destruct (Z.leb_spec (kma_addr + PAGE_SIZE cfg) a); [done|lia].
Qed.



(** ** Freeing *)

(** X12: with the free cache disabled ([gzalloc_fc_size=0]) the free of a
    guarded element that has just been allocated returns, and hands the
    whole range of [P + PAGE_SIZE] bytes straight back to the arena: the
    map entry is gone, [z_wired_cur] and [z_elems_free] are back at their
    values, and [z_va_cur] stays incremented.  The consistency checks
    pass when they are off or when the header starts the page
    ([P - E = H] in overflow mode).  In underflow mode the sizes taken
    are those where the header and its trailing copy coincide or do not
    overlap ([P = E + H] or [E + 2H <= P]). *)
Theorem gzalloc_alloc_free_uncached
    cfg st zone zstats_p flags pl pl' kma_addr z st' p :
  zones st !! zone = Some z ->
  pl = 0 \/ Z.land flags Z_NOWAIT = 0 ->
  alloc_early st = false ->
  gzfc_size cfg = 0 ->
  let E := zone_elem_size z in
  let P := rounded_size cfg E in
  (gzalloc_consistency_checks cfg = true ->
   gzalloc_uf_mode cfg = false /\ P - E = GZHEADER_SIZE) ->
  (gzalloc_uf_mode cfg = true ->
   P = E + GZHEADER_SIZE \/ E + 2 * GZHEADER_SIZE <= P) ->
  0 <= zone < 2 ^ 64 -> zone ≠ GZDEADZONE ->
  0 <= zone_elem_size z < 2 ^ 32 -> PAGE_SIZE cfg <= 2 ^ 32 ->
  0 < kma_addr -> kma_addr + P + PAGE_SIZE cfg < 2 ^ 64 ->
  kma_addr mod PAGE_SIZE cfg = 0 ->
  gzalloc_alloc cfg st zone zstats_p flags pl kma_addr = Done (st', p) ->
  exists st'' z'',
    gzalloc_free cfg st' zone zstats_p pl' p = Done st'' /\
    released (gzalloc_map_calls st'') =
      released (gzalloc_map_calls st) ++ [(kma_addr, P + PAGE_SIZE cfg)] /\
    gzalloc_map st'' = filter (λ e, vme_start e ≠ kma_addr) (gzalloc_map st) /\
    zones st'' !! zone = Some z'' /\
    z_wired_cur z'' = wrap32 (z_wired_cur z) /\
    z_elems_free z'' = wrap32 (z_elems_free z) /\
    z_va_cur z'' = wrap32 (z_va_cur z + 1).
Proof.
  intros Hz Hnw Hearly Hfc E P Hcc Hov Hzone Hdead He Hp Hb0 Hb1 Hal Hrun.
  pose proof (PAGE_SIZE_pos cfg) as Hpp.
  pose proof (rounded_size_bounds cfg E He Hp) as [HPb HPm].
  pose proof (residue_spec cfg E He Hp) as HR.
  assert (HH : GZHEADER_SIZE = 16) by reflexivity.
  destruct (gzalloc_alloc_guarded cfg st zone zstats_p flags pl kma_addr z st' p
              Hz Hnw Hearly Hrun)
    as (Htr & Hpa & Hk & Hm & Hrg & Hs & z' & Hzs & HE' & Htr' & Hgz & _ &
        Hef & Hwc & Hvc & [zs Hzst] & Hcalls).
  fold E P in Hpa, Hk, Hm, HE', HR, HPb, HPm, Hcalls.
  assert (Hsz : wrap64 (P + PAGE_SIZE cfg) = P + PAGE_SIZE cfg)
    by (apply wrap64_small; lia).
  assert (Hsaddr : free_saddr cfg E p = kma_addr).
  { rewrite Hpa. unfold free_saddr, alloc_addr, alloc_gzaddr.
    destruct (gzalloc_uf_mode cfg).
    - rewrite (wrap64_small (kma_addr + PAGE_SIZE cfg)) by lia.
      rewrite wrap64_small by lia. lia.
    - rewrite HR, (wrap64_small (kma_addr + (P - E))) by lia.
      rewrite wrap64_small by lia. lia. }
  assert (Hhdr : gzhdr_load (kmem st') (free_gzh cfg E p) =
    {| gzone := zone; gzsize := E; gzsig := GZALLOC_SIGNATURE |}).
  { rewrite Hk, Hpa, free_gzh_alloc_addr by (done || lia).
    apply gzalloc_alloc_write_header; try done; lia. }
  set (gzh := free_gzh cfg E p) in *.
  assert (Hgzh : if gzalloc_uf_mode cfg then gzh = kma_addr + PAGE_SIZE cfg + E
                 else gzh = kma_addr + P - E - 16).
  { subst gzh. rewrite Hpa. unfold free_gzh, alloc_addr, alloc_gzaddr.
    destruct (gzalloc_uf_mode cfg).
    - rewrite (wrap64_small (kma_addr + PAGE_SIZE cfg)) by lia.
      rewrite wrap64_small by lia. lia.
    - rewrite HR, (wrap64_small (kma_addr + (P - E))) by lia.
      rewrite wrap64_small by lia. lia. }
  assert (Hrd : forall x, gzh <= x < gzh + 16 -> mem_readable cfg st' x = true).
  { intros x Hx. destruct (gzalloc_uf_mode cfg) eqn:Huf.
    - eapply guarded_readable_uf; try done; fold E P; lia.
    - eapply guarded_readable; try done; fold E P; lia. }
  unfold gzhdr_load in Hhdr. injection Hhdr as Hgzone Hgzsize Hgzsig.
  assert (Hval : gzalloc_free_validate cfg st' zone z' p = Done ()).
  { unfold gzalloc_free_validate. rewrite HE', Hsaddr, land_PAGE_MASK, Hal, Hfc.
    simpl. fold gzh.
    destruct (gzalloc_consistency_checks cfg) eqn:Hc; [|done].
    destruct (Hcc eq_refl) as [Huf Hres]. rewrite Huf in Hgzh.
    unfold gzalloc_free_consistency.
    rewrite (load_readable cfg st' 4 (gzh + 12))
      by (intros; apply Hrd; simpl in *; lia).
    rewrite Hgzsig. simpl.
    rewrite (load_readable cfg st' 8 gzh) by (intros; apply Hrd; simpl in *; lia).
    rewrite Hgzone. simpl. rewrite Z.eqb_refl. simpl.
    rewrite (load_readable cfg st' 4 (gzh + 8))
      by (intros; apply Hrd; simpl in *; lia).
    rewrite Hgzsize. simpl. rewrite Z.eqb_refl. simpl.
    unfold checkstart, checkend. rewrite Huf.
    assert (Htp : kma_addr <= trunc_page_64 cfg p).
    { rewrite trunc_page_64_spec
        by (rewrite Hpa; unfold alloc_addr; rewrite Huf, HR, wrap64_small; lia).
      apply Z.mod_divide in Hal as [q Hq]; [|lia].
      assert (Hle : kma_addr <= p).
      { rewrite Hpa. unfold alloc_addr. rewrite Huf, HR, wrap64_small; lia. }
      assert (q <= p / PAGE_SIZE cfg).
      { apply Z.div_le_lower_bound; lia. }
      nia. }
    replace (Z.to_nat (gzh - trunc_page_64 cfg p)) with 0%nat by lia. done. }
  assert (Hfe : gzalloc_free_early cfg st' gzh = Done false).
  { unfold gzalloc_free_early. rewrite Hs. simpl.
    rewrite (load_readable cfg st' 8 gzh) by (intros; apply Hrd; simpl in *; lia).
    rewrite Hgzone. simpl. by destruct (Z.eqb_spec zone GZDEADZONE). }
  unfold gzalloc_free, zone_deref. rewrite Hzs, lookup_insert_eq. simpl.
  rewrite Htr'. simpl. rewrite Hval, HE'. fold gzh. simpl. rewrite Hfe. simpl.
  rewrite Hsaddr. unfold gzalloc_free_release. rewrite Hfc, HE'. simpl.
  destruct (Z.eqb_spec kma_addr 0) as [?|_]; [lia|]. simpl.
  set (st1 := if negb (pl' =? 0) then _ else st').
  assert (Hst1 : zones st1 = zones st' /\ zstats st1 = zstats st' /\
    gzalloc_map st1 = gzalloc_map st' /\
    gzalloc_map_calls st1 = gzalloc_map_calls st').
  { subst st1. by destruct (negb (pl' =? 0)). }
  destruct Hst1 as (Hz1 & Hzs1 & Hm1 & Hc1).
  unfold zstats_deref. rewrite Hzs1, Hzst. simpl.
  eexists _, _. split; [done|]. simpl.
  rewrite Hc1, Hcalls, Hm1, Hm, Hsz, !released_app. simpl.
  rewrite lookup_insert_eq, app_nil_r.
  rewrite filter_cons_False by (simpl; tauto).
  fold E P. repeat split; try done; simpl.
  - by rewrite Hsz.
  - rewrite Hwc. unfold wrap32. rewrite Zminus_mod_idemp_l. f_equal. lia.
  - rewrite Hef. unfold wrap32. rewrite Zplus_mod_idemp_l. f_equal. lia.
Qed.

Lemma gzalloc_alloc_free_uncached_witness :
  let cfg := Scenario.tunables false true 0 in
  let st := Scenario.state0 true 0 4080 in
  exists st'' z'',
    Scenario.alloc1_free1 cfg st = Done st'' /\
    released (gzalloc_map_calls st'') = [(Scenario.arena_base, 8192)] /\
    gzalloc_map st'' = [] /\
    zones st'' !! Scenario.the_zone = Some z'' /\
    z_wired_cur z'' = 0 /\ z_elems_free z'' = 0 /\ z_va_cur z'' = 1.
Proof.
  intros cfg st.
  apply (gzalloc_alloc_free_uncached cfg st Scenario.the_zone
           Scenario.the_stats 0 0 0 Scenario.arena_base (Scenario.zone0 0 4080)
           (Scenario.alloc_state st (Scenario.alloc1 cfg st))
           (Scenario.alloc_ptr (Scenario.alloc1 cfg st))).
  - vm_compute. reflexivity.
  - by left.
  - reflexivity.
  - reflexivity.
  - intros _. vm_compute. split; reflexivity.
  - intros [=].
  - vm_compute. split; [discriminate|reflexivity].
  - vm_compute. discriminate.
  - vm_compute. split; [discriminate|reflexivity].
  - vm_compute. discriminate.
  - vm_compute. reflexivity.
  - vm_compute. reflexivity.
  - vm_compute. reflexivity.
  - vm_compute. reflexivity.
Defined.

(** Everything a completed free of a guarded element into the free
    cache does. *)
Lemma gzalloc_free_cached cfg st zone zstats_p pl addr z st' :
  zones st !! zone = Some z ->
  gzfc_size cfg ≠ 0 ->
  startup_phase_kmem st = true ->
  mem_load 8 (free_gzh cfg (zone_elem_size z) addr) (kmem st) ≠ GZDEADZONE ->
  gzalloc_free cfg st zone zstats_p pl addr = Done st' ->
  let E := zone_elem_size z in
  let saddr := free_saddr cfg E addr in
  let end_ := wrap64 (saddr + rounded_size cfg E + 1 * PAGE_SIZE cfg) in
  let i := if gzfc_size cfg <=? gzfc_index (gz z) then 0
           else gzfc_index (gz z) in
  exists q z',
    z_gzalloc_tracked z = true /\
    Z.land saddr (PAGE_MASK cfg) = 0 /\
    gzalloc_free_dfree_scan cfg z saddr = Done () /\
    gzfc (gz z) !! Z.to_nat i = Some q /\
    zones st' = <[zone := z']> (zones st) /\
    z_gzalloc_tracked z' = true /\ zone_elem_size z' = E /\
    gzfc (gz z') = <[Z.to_nat i := saddr]> (gzfc (gz z)) /\
    gzfc_index (gz z') = wrap32 (i + 1) /\
    existsb (λ e, (vme_start e =? saddr) && (vme_end e =? end_))
      (gzalloc_map st) = true /\
    gzalloc_map st' =
      (if q =? 0 then protect_entry saddr end_ (gzalloc_prot cfg) <$> gzalloc_map st
       else filter (λ e, vme_start e ≠ q)
              (protect_entry saddr end_ (gzalloc_prot cfg) <$> gzalloc_map st)) /\
    gzalloc_range st' = gzalloc_range st /\ kmem st' = kmem st /\
    startup_phase_kmem st' = true.
Proof.
  intros Hz HN Hk Hown Hrun E saddr end_ i.
  unfold gzalloc_free, zone_deref in Hrun. rewrite Hz in Hrun. simpl in Hrun.
  destruct (z_gzalloc_tracked z) eqn:Htr; [|done]. simpl in Hrun.
  apply bind_Done in Hrun as ([] & Hval & Hrun).
  unfold gzalloc_free_validate in Hval. fold E saddr in Hval.
  destruct (Z.eqb_spec (Z.land saddr (PAGE_MASK cfg)) 0) as [Hal|]; [|done].
  simpl in Hval.
  apply bind_Done in Hval as ([] & Hscan & _).
  change (gzalloc_free_dfree_scan cfg z saddr = Done ()) in Hscan.
  apply bind_Done in Hrun as (early & Hearly & Hrun).
  unfold gzalloc_free_early in Hearly. rewrite Hk in Hearly. simpl in Hearly.
  apply bind_Done in Hearly as (g & Hg & [= <-]).
  apply load_Done in Hg. subst g.
  destruct (Z.eqb_spec (mem_load 8 (free_gzh cfg (zone_elem_size z) addr) (kmem st))
              GZDEADZONE) as [?|_]; [done|].
  unfold gzalloc_free_release in Hrun.
  set (st1 := if negb (pl =? 0) then _ else st) in Hrun.
  assert (Hst1 : zones st1 = zones st /\ zstats st1 = zstats st /\
                 kmem st1 = kmem st /\ startup_phase_kmem st1 = startup_phase_kmem st /\
                 gzalloc_map st1 = gzalloc_map st /\
                 gzalloc_range st1 = gzalloc_range st).
  { subst st1. by destruct (negb (pl =? 0)). }
  destruct Hst1 as (Hz1 & Hzs1 & Hk1 & Hs1 & Hm1 & Hr1).
  destruct (Z.eqb_spec (gzfc_size cfg) 0) as [?|_]; [done|]. simpl in Hrun.
  fold E saddr end_ in Hrun.
  unfold vm_map_protect in Hrun. rewrite Hm1 in Hrun.
  destruct (existsb _ (gzalloc_map st)) eqn:Hhit; simpl in Hrun; [|done].
  fold i in Hrun.
  apply bind_Done in Hrun as ([z1 q] & Hslot & Hrun).
  apply bind_Done in Hslot as (q' & Hq & [= <- <-]).
  unfold gzfc_slot in Hq.
  destruct (gzfc (gz z) !! Z.to_nat i) as [q0|] eqn:Hqi; [|done].
  injection Hq as ->.
  apply bind_Done in Hrun as (zs & _ & Hrun).
  exists q', (if negb (q' =? 0)
              then set_z_wired_cur
                     (set_z_elems_free
                        (set_gz z {| gzfc_index := wrap32 (i + 1);
                                     gzfc := <[Z.to_nat i := saddr]> (gzfc (gz z)) |})
                        (wrap32 (z_elems_free z + 1)))
                     (wrap32 (z_wired_cur z - 1))
              else set_gz z {| gzfc_index := wrap32 (i + 1);
                               gzfc := <[Z.to_nat i := saddr]> (gzfc (gz z)) |}).
  destruct (Z.eqb_spec q' 0) as [->|Hq0]; simpl in Hrun; injection Hrun as <-; simpl;
    rewrite ?Hz1, ?Hk1, ?Hs1, ?Hr1; repeat split; try done.
Qed.

Lemma gzfc_scan_hit ring idx saddr (k : nat) : forall n gd,
  0 <= gd ->
  ring !! (Z.to_nat gd + k)%nat = Some saddr -> (k < n)%nat ->
  exists gd', gd <= gd' <= gd + Z.of_nat k /\
    gzfc_scan ring idx saddr n gd = Panic (PanicDoubleFree saddr idx gd').
Proof.
  induction k as [|k IH]; intros n gd Hgd Hlk Hn; (destruct n as [|n]; [lia|]); simpl.
  - rewrite Nat.add_0_r in Hlk. unfold gzfc_slot. rewrite Hlk. simpl.
    rewrite Z.eqb_refl. exists gd. split; [lia|done].
  - assert (Hlen : (Z.to_nat gd < length ring)%nat).
    { apply lookup_lt_Some in Hlk. lia. }
    apply lookup_lt_is_Some in Hlen as [v Hv].
    unfold gzfc_slot. rewrite Hv. simpl.
    destruct (Z.eqb_spec v saddr) as [->|_].
    + exists gd. split; [lia|done].
    + destruct (IH n (gd + 1)) as (gd' & Hgd' & Hscan); [lia| |lia|].
      * rewrite <- Hlk. f_equal. lia.
      * exists gd'. split; [lia|done].
Qed.

(** X13: with the free cache and the double free check on, once a free
    of a guarded element has completed, freeing the same pointer again
    panics with "double free detected": the scan meets the range at or
    before the slot the first free used. *)
Theorem gzalloc_free_twice_detected cfg st zone zstats_p pl pl' addr z st' :
  zones st !! zone = Some z ->
  0 < gzfc_size cfg < 2 ^ 32 -> gzalloc_dfree_check cfg = true ->
  0 <= gzfc_index (gz z) ->
  startup_phase_kmem st = true ->
  mem_load 8 (free_gzh cfg (zone_elem_size z) addr) (kmem st) ≠ GZDEADZONE ->
  gzalloc_free cfg st zone zstats_p pl addr = Done st' ->
  let i := if gzfc_size cfg <=? gzfc_index (gz z) then 0
           else gzfc_index (gz z) in
  exists gd, 0 <= gd <= i /\
    gzalloc_free cfg st' zone zstats_p pl' addr =
      Panic (PanicDoubleFree (free_saddr cfg (zone_elem_size z) addr) (i + 1) gd).
Proof.
  intros Hz HN Hdf Hidx Hk Hown Hrun i.
  destruct (gzalloc_free_cached cfg st zone zstats_p pl addr z st' Hz
              ltac:(lia) Hk Hown Hrun)
    as (q & z' & Htr & Hal & _ & Hq & Hzs & Htr' & HE' & Hring & Hix & _).
  fold i in Hq, Hring, Hix.
  assert (Hi : 0 <= i < gzfc_size cfg).
  { subst i. destruct (Z.leb_spec (gzfc_size cfg) (gzfc_index (gz z))); lia. }
  rewrite wrap32_small in Hix by lia.
  destruct (gzfc_scan_hit (gzfc (gz z')) (i + 1)
              (free_saddr cfg (zone_elem_size z) addr) (Z.to_nat i)
              (Z.to_nat (gzfc_size cfg)) 0) as (gd & Hgd & Hscan); [lia| |lia|].
  { rewrite Hring. simpl. apply list_lookup_insert_eq.
    by apply lookup_lt_Some in Hq. }
  exists gd. split; [lia|].
  unfold gzalloc_free, zone_deref. rewrite Hzs, lookup_insert_eq. simpl.
  rewrite Htr'. simpl. unfold gzalloc_free_validate. rewrite HE', Hal. simpl.
  destruct (Z.eqb_spec (gzfc_size cfg) 0) as [?|_]; [lia|].
  rewrite Hdf. simpl. rewrite Hix, Hscan. done.
Qed.

Lemma gzalloc_free_twice_detected_witness :
  let cfg := Scenario.tunables false true 4 in
  let st0 := Scenario.state0 true 4 4080 in
  let st := Scenario.alloc_state st0 (Scenario.alloc1 cfg st0) in
  let p := Scenario.alloc_ptr (Scenario.alloc1 cfg st0) in
  let st' := Scenario.state_of st (Scenario.alloc1_free1 cfg st0) in
  exists gd, 0 <= gd <= 0 /\
    gzalloc_free cfg st' Scenario.the_zone Scenario.the_stats 0 p =
      Panic (PanicDoubleFree (free_saddr cfg 4080 p) 1 gd).
Proof.
  intros cfg st0 st p st'.
  apply (gzalloc_free_twice_detected cfg st Scenario.the_zone
           Scenario.the_stats 0 0 p (Scenario.zone_in st) st').
  - vm_compute. reflexivity.
  - vm_compute. split; reflexivity.
  - reflexivity.
  - vm_compute. discriminate.
  - reflexivity.
  - vm_compute. discriminate.
  - vm_compute. reflexivity.
Defined.

Lemma gzfc_scan_miss ring idx saddr : forall n gd (j : nat) q,
  0 <= gd ->
  gzfc_scan ring idx saddr n gd = Done () ->
  (Z.to_nat gd <= j < Z.to_nat gd + n)%nat ->
  ring !! j = Some q -> q ≠ saddr.
Proof.
  induction n as [|n IH]; intros gd j q Hgd Hscan Hj Hq; [lia|].
  simpl in Hscan. apply bind_Done in Hscan as (v & Hv & Hscan).
  unfold gzfc_slot in Hv.
  destruct (ring !! Z.to_nat gd) as [v'|] eqn:Hl; [|done]. injection Hv as ->.
  destruct (Z.eqb_spec v saddr) as [|Hne]; [done|].
  destruct (decide (j = Z.to_nat gd)) as [->|].
  - congruence.
  - apply (IH (gd + 1) j q); [lia|done|lia|done].
Qed.

Lemma find_protect_entry start end_ prot a map :
  vm_map_lookup_entry (protect_entry start end_ prot <$> map) a =
    protect_entry start end_ prot <$> vm_map_lookup_entry map a.
Proof.
  unfold vm_map_lookup_entry.
  induction map as [|e map IH]; [done|]. simpl.
  assert (Hs : vme_start (protect_entry start end_ prot e) = vme_start e /\
               vme_end (protect_entry start end_ prot e) = vme_end e).
  { unfold protect_entry. by destruct (_ && _). }
  destruct Hs as [-> ->].
  by destruct ((vme_start e <=? a) && (a <? vme_end e)).
Qed.

Lemma find_filter_keep (f : vm_map_entry -> bool) (P : vm_map_entry -> Prop)
    `{!forall e, Decision (P e)} map e :
  List.find f map = Some e -> P e ->
  List.find f (filter P map) = Some e.
Proof.
  induction map as [|e0 map IH]; [done|]. simpl. intros Hf HP.
  destruct (f e0) eqn:Hf0.
  - injection Hf as ->. rewrite filter_cons_True by done. simpl. by rewrite Hf0.
  - destruct (decide (P e0)).
    + rewrite filter_cons_True by done. simpl. rewrite Hf0. by apply IH.
    + rewrite filter_cons_False by done. by apply IH.
Qed.

(** X14: a freed element stays mapped but cannot be touched while it is
    in the free cache.  With the default protection [VM_PROT_NONE] and
    the double free check on, after a completed free of a guarded
    element the map entry of its range is still there with protection
    [VM_PROT_NONE], and a read of any of its addresses faults. *)
Theorem gzalloc_free_use_after_free cfg st zone zstats_p pl addr z st' e a n :
  zones st !! zone = Some z ->
  0 < gzfc_size cfg -> gzalloc_dfree_check cfg = true ->
  gzalloc_prot cfg = VM_PROT_NONE ->
  0 <= gzfc_index (gz z) ->
  startup_phase_kmem st = true ->
  mem_load 8 (free_gzh cfg (zone_elem_size z) addr) (kmem st) ≠ GZDEADZONE ->
  gzalloc_free cfg st zone zstats_p pl addr = Done st' ->
  let E := zone_elem_size z in
  let saddr := free_saddr cfg E addr in
  kmem_range_contains (gzalloc_range st) a = true ->
  vm_map_lookup_entry (gzalloc_map st) a = Some e ->
  vme_start e = saddr ->
  vme_end e = wrap64 (saddr + rounded_size cfg E + 1 * PAGE_SIZE cfg) ->
  vm_map_lookup_entry (gzalloc_map st') a =
    Some {| vme_start := vme_start e; vme_end := vme_end e;
            vme_atomic := vme_atomic e; vme_protection := VM_PROT_NONE;
            vme_guard := vme_guard e |} /\
  load cfg st' (S n) a = Fault a.
Proof.
  intros Hz HN Hdf Hprot Hidx Hk Hown Hrun E saddr Hrg He Hs He'.
  destruct (gzalloc_free_cached cfg st zone zstats_p pl addr z st' Hz
              ltac:(lia) Hk Hown Hrun)
    as (q & z' & _ & _ & Hscan & Hq & _ & _ & _ & _ & _ & _ & Hm & Hr' & _).
  fold E saddr in Hm, Hscan.
  set (i := if gzfc_size cfg <=? gzfc_index (gz z) then 0
            else gzfc_index (gz z)) in *.
  assert (Hi : 0 <= i < gzfc_size cfg).
  { subst i. destruct (Z.leb_spec (gzfc_size cfg) (gzfc_index (gz z))); lia. }
  assert (Hqs : q ≠ saddr).
  { unfold gzalloc_free_dfree_scan in Hscan. rewrite Hdf in Hscan.
    destruct (Z.eqb_spec (gzfc_size cfg) 0) as [?|_]; [lia|]. simpl in Hscan.
    apply (gzfc_scan_miss _ _ _ _ 0 (Z.to_nat i) q ltac:(lia) Hscan); [lia|done]. }
  set (e' := {| vme_start := vme_start e; vme_end := vme_end e;
                vme_atomic := vme_atomic e; vme_protection := VM_PROT_NONE;
                vme_guard := vme_guard e |}).
  assert (Hpe : protect_entry saddr
                  (wrap64 (saddr + rounded_size cfg E + 1 * PAGE_SIZE cfg))
                  (gzalloc_prot cfg) e = e').
  { unfold protect_entry. rewrite Hs, He', !Z.eqb_refl, Hprot. simpl.
    subst e'. by rewrite Hs, He'. }
  assert (Hlk : vm_map_lookup_entry (gzalloc_map st') a = Some e').
  { rewrite Hm. destruct (q =? 0).
    - by rewrite find_protect_entry, He, <- Hpe.
    - unfold vm_map_lookup_entry. apply find_filter_keep.
      + fold (vm_map_lookup_entry
                (protect_entry saddr
                   (wrap64 (saddr + rounded_size cfg E + 1 * PAGE_SIZE cfg))
                   (gzalloc_prot cfg) <$> gzalloc_map st) a).
        by rewrite find_protect_entry, He, <- Hpe.
      + subst e'. simpl. congruence. }
  split; [done|].
  unfold load. simpl. rewrite Z.add_0_r.
  unfold mem_readable at 1. rewrite Hr', Hrg, Hlk.
  unfold vme_readable. simpl. done.
Qed.

Lemma gzalloc_free_use_after_free_witness :
  let cfg := Scenario.tunables false true 4 in
  let st0 := Scenario.state0 true 4 4080 in
  let p := Scenario.alloc_ptr (Scenario.alloc1 cfg st0) in
  let st' := Scenario.state_of st0 (Scenario.alloc1_free1 cfg st0) in
  vm_map_lookup_entry (gzalloc_map st') p =
    Some {| vme_start := Scenario.arena_base;
            vme_end := Scenario.arena_base + 8192;
            vme_atomic := true; vme_protection := VM_PROT_NONE;
            vme_guard := KMA_GUARD_LAST |} /\
  load cfg st' 1 p = Fault p.
Proof.
  intros cfg st0 p st'.
  apply (gzalloc_free_use_after_free cfg
           (Scenario.alloc_state st0 (Scenario.alloc1 cfg st0))
           Scenario.the_zone Scenario.the_stats 0 p
           (Scenario.zone_in (Scenario.alloc_state st0 (Scenario.alloc1 cfg st0)))
           st' (alloc_entry cfg 4080 Scenario.arena_base) p 0).
  - vm_compute. reflexivity.
  - reflexivity.
  - reflexivity.
  - reflexivity.
  - vm_compute. discriminate.
  - reflexivity.
  - vm_compute. discriminate.
  - vm_compute. reflexivity.
  - vm_compute. reflexivity.
  - vm_compute. reflexivity.
  - vm_compute. reflexivity.
  - vm_compute. reflexivity.
Defined.

Lemma mod_wrap64_PAGE_SIZE cfg x :
  PAGE_SIZE cfg <= 2 ^ 32 -> wrap64 x mod PAGE_SIZE cfg = x mod PAGE_SIZE cfg.
Proof.
  intros Hp. unfold wrap64. apply Z.mod_mod_divide.
  unfold PAGE_SIZE in *.
  assert (Hk : Z.of_N (PAGE_SHIFT cfg) <= 32).
  { apply (Z.pow_le_mono_r_iff 2); lia. }
  exists (2 ^ (64 - Z.of_N (PAGE_SHIFT cfg))).
  rewrite <- Z.pow_add_r by lia. f_equal. lia.
Qed.

(** X15: [gzalloc_free] rejects a pointer that is not the one
    [gzalloc_alloc] returned.  For an element allocated in a page-aligned
    range, the free of the pointer displaced by [d] panics with "invalid
    address supplied" unless [d] is a multiple of the page size, before
    anything is read or changed. *)
Theorem gzalloc_free_interior_pointer cfg st zone zstats_p pl z base d :
  zones st !! zone = Some z -> z_gzalloc_tracked z = true ->
  0 <= zone_elem_size z < 2 ^ 32 -> PAGE_SIZE cfg <= 2 ^ 32 ->
  let E := zone_elem_size z in
  0 <= base -> base + rounded_size cfg E + PAGE_SIZE cfg < 2 ^ 64 ->
  base mod PAGE_SIZE cfg = 0 ->
  d mod PAGE_SIZE cfg ≠ 0 ->
  let p := alloc_addr cfg E base in
  gzalloc_free cfg st zone zstats_p pl (p + d) =
    Panic (PanicInvalidAddress (p + d) (wrap64 (base + d)) E).
Proof.
  intros Hz Htr He Hp E Hb0 Hb1 Hal Hd p.
  pose proof (PAGE_SIZE_pos cfg) as Hpp.
  pose proof (rounded_size_bounds cfg E He Hp) as [HPb _].
  pose proof (residue_spec cfg E He Hp) as HR.
  assert (HH : GZHEADER_SIZE = 16) by reflexivity.
  assert (Hs : free_saddr cfg E (p + d) = wrap64 (base + d)).
  { subst p. unfold free_saddr, alloc_addr, alloc_gzaddr.
    destruct (gzalloc_uf_mode cfg).
    - rewrite (wrap64_small (base + PAGE_SIZE cfg)) by lia. f_equal. lia.
    - rewrite (wrap64_small (base + residue cfg E)) by lia. f_equal. lia. }
  unfold gzalloc_free, zone_deref. rewrite Hz. simpl. rewrite Htr. simpl.
  unfold gzalloc_free_validate. fold E. rewrite Hs, land_PAGE_MASK.
  rewrite mod_wrap64_PAGE_SIZE by done.
  rewrite <- Zplus_mod_idemp_l, Hal, Z.add_0_l.
  destruct (Z.eqb_spec (d mod PAGE_SIZE cfg) 0); [done|]. done.
Qed.

Lemma gzalloc_free_interior_pointer_witness :
  let cfg := Scenario.tunables false true 4 in
  let st := Scenario.state0 true 4 200 in
  let p := alloc_addr cfg 200 Scenario.arena_base in
  gzalloc_free cfg st Scenario.the_zone Scenario.the_stats 0 (p + 8) =
    Panic (PanicInvalidAddress (p + 8) (wrap64 (Scenario.arena_base + 8)) 200).
Proof.
  intros cfg st p.
  apply (gzalloc_free_interior_pointer cfg st Scenario.the_zone
           Scenario.the_stats 0 (Scenario.zone0 4 200) Scenario.arena_base 8).
  - vm_compute. reflexivity.
  - reflexivity.
  - vm_compute. split; [discriminate|reflexivity].
  - vm_compute. discriminate.
  - vm_compute. discriminate.
  - vm_compute. reflexivity.
  - vm_compute. reflexivity.
  - vm_compute. discriminate.
Defined.

(** ** What an allocation leaves alone, and the scan in underflow mode *)

(** The writes of an allocation stay inside its range. *)
Lemma gzalloc_alloc_write_frame cfg m owner esize gzaddr x :
  0 <= esize < 2 ^ 32 -> PAGE_SIZE cfg <= 2 ^ 32 ->
  0 <= gzaddr -> gzaddr + rounded_size cfg esize + PAGE_SIZE cfg < 2 ^ 64 ->
  x < gzaddr \/ gzaddr + rounded_size cfg esize + PAGE_SIZE cfg <= x ->
  gzalloc_alloc_write cfg m owner esize gzaddr x = m x.
Proof.
  intros He Hp Hb0 Hb1 Hx.
  pose proof (PAGE_SIZE_pos cfg) as Hpp.
  pose proof (rounded_size_bounds cfg esize He Hp) as [HPb _].
  pose proof (residue_spec cfg esize He Hp) as HR.
  assert (HH : GZHEADER_SIZE = 16) by reflexivity.
  unfold gzalloc_alloc_write, alloc_gzhcopy, alloc_gzh, alloc_gzaddr.
  destruct (gzalloc_uf_mode cfg).
  - rewrite (wrap64_small (gzaddr + PAGE_SIZE cfg)) by lia.
    rewrite !wrap64_small by lia.
    unfold gzhdr_store.
    rewrite !mem_store_out by (simpl; lia).
    unfold bzero.
    destruct (Z.leb_spec (gzaddr + PAGE_SIZE cfg) x); [|done].
    destruct (Z.leb_spec (gzaddr + PAGE_SIZE cfg + rounded_size cfg esize) x);
      [done|lia].
  - rewrite HR, !wrap64_small by lia.
    rewrite !mem_store_out by (simpl; lia).
    unfold bzero.
    destruct (Z.leb_spec gzaddr x); [|done].
    destruct (Z.leb_spec (gzaddr + rounded_size cfg esize) x); [done|lia].
Qed.

(** X18: an allocation writes only inside the range it takes.  After a
    [gzalloc_alloc] that returns, every byte of memory outside the
    [P + PAGE_SIZE] bytes at the base of the range (the reserve pointer
    for an early allocation, the address the VM chose otherwise) is what
    it was, and the element returned (unless the call was cut short and
    returned 0) lies inside that range. *)
Theorem gzalloc_alloc_writes_own_range
    cfg st zone zstats_p flags pl kma_addr z st' p :
  zones st !! zone = Some z ->
  0 <= zone_elem_size z < 2 ^ 32 -> PAGE_SIZE cfg <= 2 ^ 32 ->
  let E := zone_elem_size z in
  let P := rounded_size cfg E in
  let base := if alloc_early st then gzalloc_reserve st else kma_addr in
  0 <= base -> base + P + PAGE_SIZE cfg < 2 ^ 64 ->
  gzalloc_alloc cfg st zone zstats_p flags pl kma_addr = Done (st', p) ->
  (forall x, x < base \/ base + P + PAGE_SIZE cfg <= x ->
             kmem st' x = kmem st x) /\
  (p = 0 \/ base <= p /\ p + E <= base + P + PAGE_SIZE cfg).
Proof.
  intros Hz He Hp E P base Hb0 Hb1 Hrun.
  pose proof (PAGE_SIZE_pos cfg) as Hpp.
  pose proof (rounded_size_bounds cfg E He Hp) as [HPb _].
  pose proof (residue_spec cfg E He Hp) as HR.
  assert (HH : GZHEADER_SIZE = 16) by reflexivity.
  unfold gzalloc_alloc, zone_deref in Hrun. rewrite Hz in Hrun. simpl in Hrun.
  destruct (z_gzalloc_tracked z) eqn:Htr; [|done]. simpl in Hrun.
  destruct (negb (pl =? 0) && negb (Z.land flags Z_NOWAIT =? 0)).
  { injection Hrun as <- <-. split; [done|by left]. }
  set (st1 := if negb (pl =? 0) then _ else st) in Hrun.
  assert (Hst1 : alloc_early st1 = alloc_early st /\ kmem st1 = kmem st /\
    gzalloc_reserve st1 = gzalloc_reserve st).
  { subst st1. by destruct (negb (pl =? 0)). }
  destruct Hst1 as (He1 & Hk1 & Hr1).
  apply bind_Done in Hrun as ([[st2 gzaddr] new_va] & Hva & Hrun).
  apply bind_Done in Hrun as (st3 & Hacc & [= <- <-]).
  unfold gzalloc_alloc_account in Hacc.
  apply bind_Done in Hacc as (zs & _ & [= <-]). simpl.
  fold E P in Hva |- *.
  assert (Hva' : gzaddr = base /\
    forall x, x < base \/ base + P + PAGE_SIZE cfg <= x -> kmem st2 x = kmem st x).
  { unfold gzalloc_alloc_va in Hva. rewrite He1, Hr1 in Hva. subst base.
    destruct (alloc_early st).
    - destruct (_ <? _); [done|]. injection Hva as <- <- _. simpl.
      split; [done|]. intros x _. by rewrite Hk1.
    - injection Hva as <- <- _. simpl. split; [done|]. intros x Hx.
      rewrite Hk1. unfold bzero. rewrite wrap64_small by lia.
      destruct (Z.leb_spec kma_addr x); [|done].
      destruct (Z.leb_spec (kma_addr + (P + PAGE_SIZE cfg)) x); [done|lia]. }
  destruct Hva' as [-> Hk2]. split.
  - intros x Hx. rewrite gzalloc_alloc_write_frame by (done || lia).
    by apply Hk2.
  - right. unfold alloc_addr, alloc_gzaddr.
    destruct (gzalloc_uf_mode cfg); fold E P in HR |- *;
      rewrite ?HR, wrap64_small by lia; lia.
Qed.

Lemma gzalloc_alloc_writes_own_range_witness :
  let cfg := Scenario.tunables false true 4 in
  let st := Scenario.state0 true 4 200 in
  let st' := Scenario.alloc_state st (Scenario.alloc1 cfg st) in
  let p := Scenario.alloc_ptr (Scenario.alloc1 cfg st) in
  (forall x, x < Scenario.arena_base \/ Scenario.arena_base + 8192 <= x ->
             kmem st' x = kmem st x) /\
  (p = 0 \/ Scenario.arena_base <= p /\ p + 200 <= Scenario.arena_base + 8192).
Proof.
  intros cfg st st' p.
  apply (gzalloc_alloc_writes_own_range cfg st Scenario.the_zone
           Scenario.the_stats 0 0 Scenario.arena_base (Scenario.zone0 4 200) st'
           (Scenario.alloc_ptr (Scenario.alloc1 cfg st))).
  - vm_compute. reflexivity.
  - vm_compute. split; [discriminate|reflexivity].
  - vm_compute. discriminate.
  - vm_compute. discriminate.
  - vm_compute. reflexivity.
  - vm_compute. reflexivity.
Defined.

(** A byte that is not the fill pattern does not print as the fill
    pattern. *)
Lemma char_contents_pattern c :
  0 <= c < 256 -> c ≠ gzalloc_fill_pattern ->
  char_contents c ≠ gzalloc_fill_pattern.
Proof.
  intros Hc Hne. unfold char_contents, gzalloc_fill_pattern in *.
  destruct (Z.leb_spec 128 c).
  - replace (c - 256) with (c + 2 ^ 32 - 256 + (-1) * 2 ^ 32) by lia.
    unfold wrap32. rewrite Z.mod_add by lia. rewrite Z.mod_small; lia.
  - rewrite wrap32_small; lia.
Qed.

(** The byte is reported as the message prints it.  In underflow mode
    the scan of a 4080-byte element stops on the low byte of the size
    the header records, 0xf0, and reports it as 0xfffffff0. *)
Lemma fill_scan_reports_signed_char :
  let cfg := Scenario.tunables true true 4 in
  let st := Scenario.state0 true 4 4080 in
  let p := Scenario.alloc_ptr (Scenario.alloc1 cfg st) in
  load cfg (Scenario.alloc_state st (Scenario.alloc1 cfg st)) 1
    (free_gzh cfg 4080 p + 8) = Done 0xf0 /\
  Scenario.alloc1_free1 cfg st
    = Panic (PanicOverUnderflow (free_gzh cfg 4080 p + 8) p 0xfffffff0).
Proof. vm_compute. split; reflexivity. Qed.

(** The fill pattern scan stops at or before a readable byte that is
    not the pattern. *)
Lemma fill_scan_finds cfg st addr (k : nat) : forall n gzc,
  (k < n)%nat ->
  (forall j, 0 <= j <= Z.of_nat k -> mem_readable cfg st (gzc + j) = true) ->
  kmem st (gzc + Z.of_nat k) mod 256 ≠ gzalloc_fill_pattern ->
  exists j c, 0 <= j <= Z.of_nat k /\ c ≠ gzalloc_fill_pattern /\
    fill_scan cfg st addr n gzc = Panic (PanicOverUnderflow (gzc + j) addr c).
Proof.
  induction k as [|k IH]; intros n gzc Hn Hr Hne; (destruct n as [|n]; [lia|]);
    simpl; rewrite load1;
    pose proof (Hr 0 ltac:(lia)) as Hr0; rewrite Z.add_0_r in Hr0; rewrite Hr0;
    pose proof (Z.mod_pos_bound (kmem st gzc) 256 ltac:(lia)) as Hb.
  - rewrite Z.add_0_r in Hne.
    simpl. destruct (Z.eqb_spec (kmem st gzc mod 256) gzalloc_fill_pattern); [done|].
    exists 0, (char_contents (kmem st gzc mod 256)). rewrite Z.add_0_r.
    split; [lia|]. split; [by apply char_contents_pattern|done].
  - simpl.
    destruct (Z.eqb_spec (kmem st gzc mod 256) gzalloc_fill_pattern) as [_|Hc].
    + destruct (IH n (gzc + 1)) as (j & c & Hj & Hcne & Hscan); [lia| | |].
      * intros j Hj. replace (gzc + 1 + j) with (gzc + (j + 1)) by lia.
        apply Hr. lia.
      * replace (gzc + 1 + Z.of_nat k) with (gzc + Z.of_nat (S k)) by lia. done.
      * exists (j + 1), c. split; [lia|]. split; [done|].
        rewrite Hscan. do 2 f_equal. lia.
    + exists 0, (char_contents (kmem st gzc mod 256)). rewrite Z.add_0_r.
      split; [lia|]. split; [by apply char_contents_pattern|done].
Qed.

(** X19: in underflow mode with the consistency checks on, a guarded
    element of at most [PAGE_SIZE - 2 * H] bytes cannot be freed once it
    has been allocated: after the double free scan the fill pattern scan,
    which starts [sizeof(gzh) = 8] bytes into the 16-byte header, panics
    on a byte of the header's own size field or on the first byte of its
    signature. *)
Theorem gzalloc_free_fresh_uf_panics
    cfg st zone zstats_p flags pl kma_addr z st' p pl' :
  zones st !! zone = Some z ->
  pl = 0 \/ Z.land flags Z_NOWAIT = 0 ->
  alloc_early st = false ->
  gzalloc_uf_mode cfg = true -> gzalloc_consistency_checks cfg = true ->
  0 <= zone < 2 ^ 64 ->
  0 <= zone_elem_size z -> PAGE_SIZE cfg <= 2 ^ 32 ->
  let E := zone_elem_size z in
  E + 2 * GZHEADER_SIZE <= PAGE_SIZE cfg ->
  0 <= kma_addr -> kma_addr + 2 * PAGE_SIZE cfg < 2 ^ 64 ->
  kma_addr mod PAGE_SIZE cfg = 0 ->
  gzalloc_alloc cfg st zone zstats_p flags pl kma_addr = Done (st', p) ->
  exists k c, sizeof_pointer <= k <= GZHEADER_SIZE - 4 /\
    c ≠ gzalloc_fill_pattern /\
    gzalloc_free cfg st' zone zstats_p pl' p =
      (gzalloc_free_dfree_scan cfg z kma_addr ≫= λ _,
       Panic (PanicOverUnderflow (p + E + k) p c)).
Proof.
  intros Hz Hnw Hearly Huf Hcc Hzone He0 Hp E Hsmall Hb0 Hb1 Hal Hrun.
  pose proof (PAGE_SIZE_pos cfg) as Hpp.
  assert (HH : GZHEADER_SIZE = 16) by reflexivity.
  assert (He : 0 <= E < 2 ^ 32) by (subst E; lia).
  pose proof (rounded_size_bounds cfg E He Hp) as [HPb HPm].
  pose proof (residue_spec cfg E He Hp) as HR.
  set (P := rounded_size cfg E) in *.
  assert (HP : P = PAGE_SIZE cfg).
  { apply Z.mod_divide in HPm as [c Hc]; [|lia].
    assert (0 < c) by nia. assert (c < 2) by nia.
    assert (c = 1) by lia. subst c. lia. }
  destruct (gzalloc_alloc_guarded cfg st zone zstats_p flags pl kma_addr z st' p
              Hz Hnw Hearly Hrun)
    as (Htr & Hpa & Hk & Hm & Hrg & Hs & z' & Hzs & HE' & Htr' & Hgz & _).
  fold E P in Hpa, Hk, Hm, HE'.
  assert (Hpv : p = kma_addr + PAGE_SIZE cfg).
  { rewrite Hpa. unfold alloc_addr, alloc_gzaddr. rewrite Huf, wrap64_small by lia.
    done. }
  assert (Hgzh : free_gzh cfg E p = p + E).
  { unfold free_gzh. rewrite Huf, wrap64_small by lia. done. }
  assert (Hsaddr : free_saddr cfg E p = kma_addr).
  { unfold free_saddr. rewrite Huf, wrap64_small by lia. lia. }
  assert (Hhdr : gzhdr_load (kmem st') (free_gzh cfg E p) =
    {| gzone := zone; gzsize := E; gzsig := GZALLOC_SIGNATURE |}).
  { rewrite Hk, Hpa, free_gzh_alloc_addr by (done || fold P; lia).
    apply gzalloc_alloc_write_header; try done; fold P; lia. }
  rewrite Hgzh in Hhdr. unfold gzhdr_load in Hhdr.
  injection Hhdr as Hgzone Hgzsize Hgzsig.
  assert (Hrd : forall a, p <= a < p + P -> mem_readable cfg st' a = true).
  { intros a Ha. eapply guarded_readable_uf; try done; fold E P; lia. }
  (* the first byte of the signature is not the fill pattern *)
  assert (Hsigb : kmem st' (p + E + 8 + Z.of_nat 4) mod 256 ≠ gzalloc_fill_pattern).
  { replace (p + E + 8 + Z.of_nat 4) with (p + E + 12) by lia.
    pose proof (mem_load_app 1 3 (p + E + 12) (kmem st')) as Hsplit.
    change (1 + 3)%nat with 4%nat in Hsplit. rewrite Hgzsig in Hsplit.
    assert (H1 : mem_load 1 (p + E + 12) (kmem st') = kmem st' (p + E + 12) mod 256).
    { unfold mem_load. lia. }
    rewrite H1 in Hsplit.
    assert (Hb : kmem st' (p + E + 12) mod 256 = GZALLOC_SIGNATURE mod 256).
    { rewrite Hsplit. change (256 ^ Z.of_nat 1) with 256.
      rewrite Z.add_comm, Z.mul_comm, Z.mod_add by lia. by rewrite Z.mod_mod. }
    rewrite Hb. vm_compute. discriminate. }
  destruct (fill_scan_finds cfg st' p 4 (Z.to_nat (PAGE_SIZE cfg - E - 8))
              (p + E + 8)) as (j & c & Hj & Hc & Hscan); [lia| |done|].
  { intros j Hj. apply Hrd. lia. }
  exists (8 + j), c. split; [unfold sizeof_pointer; lia|]. split; [done|].
  unfold gzalloc_free, zone_deref. rewrite Hzs, lookup_insert_eq. simpl.
  rewrite Htr'. simpl. rewrite HE'.
  unfold gzalloc_free_validate. rewrite HE', Hsaddr, Hgzh, land_PAGE_MASK, Hal.
  simpl. rewrite Hgz. fold (gzalloc_free_dfree_scan cfg z kma_addr).
  destruct (gzalloc_free_dfree_scan cfg z kma_addr) as [[]| |]; simpl; [|done|done].
  rewrite Hcc. unfold gzalloc_free_consistency.
  rewrite (load_readable cfg st' 4 (p + E + 12))
    by (intros; apply Hrd; simpl in *; lia).
  rewrite Hgzsig. simpl.
  rewrite (load_readable cfg st' 8 (p + E))
    by (intros; apply Hrd; simpl in *; lia).
  rewrite Hgzone. simpl. rewrite Z.eqb_refl. simpl.
  rewrite (load_readable cfg st' 4 (p + E + 8))
    by (intros; apply Hrd; simpl in *; lia).
  rewrite Hgzsize. simpl. rewrite Z.eqb_refl. simpl.
  unfold checkstart, checkend. rewrite Huf.
  assert (Hce : wrap64 (Z.land p (Z.lnot (PAGE_MASK cfg)) + PAGE_SIZE cfg) =
                p + PAGE_SIZE cfg).
  { rewrite land_lnot_PAGE_MASK.
    apply Z.mod_divide in Hal as [q Hq]; [|lia].
    replace (p / PAGE_SIZE cfg) with (q + 1).
    - rewrite wrap64_small; lia.
    - rewrite Hpv, Hq.
      replace (q * PAGE_SIZE cfg + PAGE_SIZE cfg) with ((q + 1) * PAGE_SIZE cfg) by lia.
      by rewrite Z.div_mul by lia. }
  rewrite Hce. unfold sizeof_pointer.
  rewrite (wrap64_small (p + E + 8)) by lia.
  replace (p + PAGE_SIZE cfg - (p + E + 8)) with (PAGE_SIZE cfg - E - 8) by lia.
  rewrite Hscan. simpl. do 2 f_equal. lia.
Qed.

Lemma gzalloc_free_fresh_uf_panics_witness :
  let cfg := Scenario.tunables true true 4 in
  let st := Scenario.state0 true 4 64 in
  let p := Scenario.alloc_ptr (Scenario.alloc1 cfg st) in
  exists k c, 8 <= k <= 12 /\ c ≠ gzalloc_fill_pattern /\
    Scenario.alloc1_free1 cfg st = Panic (PanicOverUnderflow (p + 64 + k) p c).
Proof.
  intros cfg st p.
  assert (Hscan : gzalloc_free_dfree_scan cfg (Scenario.zone0 4 64)
                    Scenario.arena_base = Done ()) by (vm_compute; reflexivity).
  destruct (gzalloc_free_fresh_uf_panics cfg st Scenario.the_zone
              Scenario.the_stats 0 0 Scenario.arena_base (Scenario.zone0 4 64)
              (Scenario.alloc_state st (Scenario.alloc1 cfg st)) p 0)
    as (k & c & Hk & Hc & Hfree).
  - vm_compute. reflexivity.
  - by left.
  - reflexivity.
  - reflexivity.
  - reflexivity.
  - vm_compute. split; [discriminate|reflexivity].
  - vm_compute. discriminate.
  - vm_compute. discriminate.
  - vm_compute. discriminate.
  - vm_compute. discriminate.
  - vm_compute. reflexivity.
  - vm_compute. reflexivity.
  - vm_compute. reflexivity.
  - exists k, c. split; [exact Hk|]. split; [exact Hc|].
    unfold Scenario.alloc1_free1. rewrite Hscan in Hfree. exact Hfree.
Defined.

End GzallocMore.

(** * Further properties of the ring identity *)

Module SOSRingMore.
Import SOSRing.

Lemma CFNumberGetValue32_sint32 t :
  0 <= t < 2 ^ 32 ->
  CFNumberGetValue32 ((t + 2 ^ 31) mod 2 ^ 32 - 2 ^ 31) = t.
Proof.
  intros Ht. unfold CFNumberGetValue32.
  rewrite Zminus_mod_idemp_l.
  replace (t + 2 ^ 31 - 2 ^ 31) with t by lia.
  by apply Z.mod_small.
Qed.

(** X16: [SOSRingSetType] refuses a type that is not below
    [kSOSRingTypeCount] and leaves the ring as it was; otherwise it
    succeeds, [SOSRingGetType] of a stable ring then reads the type back,
    and the name, the version and the identifier are untouched. *)
Theorem SOSRingSetType_GetType stable type_error count ring si t :
  signedInformation ring = Some si ->
  0 <= t < 2 ^ 32 ->
  (count <= t -> SOSRingSetType count ring t = Some (ring, false)) /\
  (t < count ->
   exists ring',
     SOSRingSetType count ring t = Some (ring', true) /\
     (stable ring' = true -> SOSRingGetType stable type_error ring' = t) /\
     SOSRingGetName ring' = SOSRingGetName ring /\
     SOSRingGetVersion ring' = SOSRingGetVersion ring /\
     SOSRingGetIdentifier ring' = SOSRingGetIdentifier ring).
Proof.
  intros Hsi Ht. unfold SOSRingSetType, SOSRingCheckType. split.
  - intros Hge. destruct (Z.ltb_spec t count); [lia|done].
  - intros Hlt. destruct (Z.ltb_spec t count); [|lia]. simpl.
    rewrite Hsi. simpl. eexists. split; [done|].
    unfold SOSRingGetType, SOSRingGetName, SOSRingGetVersion,
      SOSRingGetIdentifier. rewrite Hsi. simpl.
    repeat split.
    + intros ->. simpl. rewrite lookup_insert_eq. simpl.
      by apply CFNumberGetValue32_sint32.
    + by rewrite lookup_insert_ne.
    + by rewrite lookup_insert_ne.
    + by rewrite lookup_insert_ne.
Qed.

Lemma SOSRingSetType_GetType_witness :
  exists ring',
    SOSRingSetType Scenario.kSOSRingTypeCount (Scenario.ring_of_type 1) 3
      = Some (ring', true) /\
    SOSRingGetType (λ _, true) Scenario.kSOSRingTypeError ring' = 3.
Proof.
  destruct (SOSRingSetType_GetType (λ _, true) Scenario.kSOSRingTypeError
              Scenario.kSOSRingTypeCount (Scenario.ring_of_type 1)
              (default ∅ (signedInformation (Scenario.ring_of_type 1))) 3)
    as (_ & Hok).
  - reflexivity.
  - vm_compute. split; [discriminate|reflexivity].
  - destruct Hok as (ring' & Hset & Hget & _); [reflexivity|].
    exists ring'. split; [exact Hset|]. apply Hget. reflexivity.
Defined.

(** X17: [SOSRingIsSame] is not reflexive.  A ring whose name, type,
    version and identifier were written by the four setters, as
    [SOSRingCreate_Internal] calls them, is the same as itself exactly
    when its type is [RINGVERSION], because the type of the first ring is
    compared with the version of the second. *)
Theorem SOSRingIsSame_self
    stable type_error count r0 r1 r2 r3 r4 name t uuid :
  SOSRingSetName r0 (Some name) = Some (r1, true) ->
  SOSRingSetType count r1 t = Some (r2, true) ->
  SOSRingSetVersion r2 = Some (r3, true) ->
  SOSRingSetIdentifier r3 (Some uuid) = Some (r4, true) ->
  stable r4 = true -> 0 <= t < 2 ^ 32 ->
  SOSRingIsSame stable type_error r4 r4 = Some (t =? RINGVERSION).
Proof.
  intros H1 H2 H3 H4 Hst Ht.
  unfold SOSRingSetName in H1.
  destruct (signedInformation r0) as [si0|] eqn:Hs0; [|done].
  simpl in H1. injection H1 as <-.
  unfold SOSRingSetType in H2. destruct (negb _); [done|]. simpl in H2.
  injection H2 as <-.
  unfold SOSRingSetVersion in H3. simpl in H3. injection H3 as <-.
  unfold SOSRingSetIdentifier in H4. simpl in H4. injection H4 as <-.
  unfold SOSRingIsSame, SOSRingGetName, SOSRingGetVersion, SOSRingGetType,
    SOSRingGetIdentifier.
  rewrite Hst. simpl.
  rewrite !lookup_insert_eq.
  rewrite (lookup_insert_ne _ sIdentifierKey sNameKey) by done.
  rewrite (lookup_insert_ne _ sRingVersionKey sNameKey) by done.
  rewrite (lookup_insert_ne _ sTypeKey sNameKey) by done.
  rewrite (lookup_insert_ne _ sIdentifierKey sRingVersionKey) by done.
  rewrite (lookup_insert_ne _ sIdentifierKey sTypeKey) by done.
  rewrite (lookup_insert_ne _ sRingVersionKey sTypeKey) by done.
  rewrite !lookup_insert_eq. simpl.
  rewrite !CFNumberGetValue32_sint32 by (unfold RINGVERSION; lia).
  unfold RINGVERSION, CFEqualSafe.
  rewrite !bool_decide_eq_true_2 by done. simpl.
  destruct (Z.eqb_spec t 0) as [->|]; [reflexivity|]. simpl.
  by destruct (Z.eqb_spec t 1).
Qed.

Lemma SOSRingIsSame_self_witness :
  SOSRingIsSame (λ _, true) Scenario.kSOSRingTypeError
    (Scenario.named_ring 2) (Scenario.named_ring 2) = Some false.
Proof.
  apply (SOSRingIsSame_self (λ _, true) Scenario.kSOSRingTypeError
           Scenario.kSOSRingTypeCount Scenario.bare_ring
           (Scenario.ring_after (SOSRingSetName Scenario.bare_ring (Some "r")))
           (Scenario.ring_after (SOSRingSetType Scenario.kSOSRingTypeCount
                          (Scenario.ring_after (SOSRingSetName Scenario.bare_ring (Some "r"))) 2))
           (Scenario.ring_after (SOSRingSetVersion
              (Scenario.ring_after (SOSRingSetType Scenario.kSOSRingTypeCount
                             (Scenario.ring_after (SOSRingSetName Scenario.bare_ring (Some "r"))) 2))))
           (Scenario.named_ring 2) "r" 2 "id").
  - vm_compute. reflexivity.
  - vm_compute. reflexivity.
  - vm_compute. reflexivity.
  - vm_compute. reflexivity.
  - reflexivity.
  - vm_compute. split; [discriminate|reflexivity].
Defined.

End SOSRingMore.
